(** * SheetSplitter: the file-processing service

    A shallow embedding of [src/services/api/fileProcessingService.js]
    (class [FileProcessingService]) and the properties of its validator,
    analyzer, combiner and sheet renderer.

    Conventions of the embedding.
    - A JavaScript string is a [string]: a sequence of 8-bit code units.
      The string functions used here act alike on every alphabet, except
      [toLowerCase], which can change the length of a string outside
      Latin-1: it is a variable of the Validator.
    - An integer-valued counter ([length], loop indices, [counter],
      [processedSheets], [totalSheets]) is a [Z], [N] or [nat]; a double holds
      every integer below 2^53 exactly, so no rounding is involved.
    - Any other number is a double, modelled as the rational it denotes with
      IEEE-754 round-to-nearest-even (53 bits of precision) written out after
      each operation; see [JSNumber].
    - [throw new Error(msg)] and a rejected promise are [inr msg]; a normal
      return is [inl v].
    - [await delay(ms)] only paces the user interface and is not modelled.
    - The libraries the service calls (FileReader, SheetJS, jsPDF, the wall
      clock) are variables of the sections that use them.
    - The component that calls the service,
      [src/components/organisms/FileProcessor.jsx], is embedded as the state
      it holds and its handlers; see [FileProcessor]. *)

From Stdlib Require Import ZArith QArith Qround Qabs Qpower Lqa Lia Ascii.
From Stdlib Require Import PrimFloat FloatOps SpecFloat Uint63.
From stdpp Require Import gmap strings list fin_maps pretty.

(** ** JavaScript strings *)

Module JSString.

(** [s.length] *)
Definition length (s : string) : Z := Z.of_nat (String.length s).

(** An index argument clamped to [0 .. s.length]. *)
Definition clamp (s : string) (i : Z) : nat :=
  Z.to_nat (Z.min (Z.max i 0) (length s)).

(** [s.substring(indexStart, indexEnd)]: both arguments are clamped to
    [0 .. s.length] and swapped when out of order. *)
Definition substring (s : string) (indexStart indexEnd : Z) : string :=
  let a := clamp s indexStart in
  let b := clamp s indexEnd in
  String.substring (Nat.min a b) (Nat.max a b - Nat.min a b) s.

(** [s.slice(start)]: a negative [start] counts from the end. *)
Definition slice (s : string) (start : Z) : string :=
  let len := length s in
  let from := if (start <? 0)%Z then Z.max (len + start) 0 else Z.min start len in
  String.substring (Z.to_nat from) (Z.to_nat (len - from)) s.

(** [s.lastIndexOf(c)] for a one-character [c]; [-1] when [c] is absent. *)
Fixpoint lastIndexOf_from (c : ascii) (s : string) (i found : Z) : Z :=
  match s with
  | EmptyString => found
  | String a s' =>
      lastIndexOf_from c s' (i + 1)%Z (if Ascii.eqb a c then i else found)
  end.

Definition lastIndexOf (s : string) (c : ascii) : Z :=
  lastIndexOf_from c s 0%Z (-1)%Z.

(** Lower-casing of one code unit: A-Z and the Latin-1 capitals. *)
Definition lowerUnit (a : ascii) : ascii :=
  let n := nat_of_ascii a in
  if ((65 <=? n) && (n <=? 90)
      || (192 <=? n) && (n <=? 222) && negb (n =? 215))%nat
  then ascii_of_nat (n + 32) else a.

(** Lower-casing unit by unit: what [s.toLowerCase()] is for a string of
    Latin-1 characters. It keeps the length of the string, which
    [toLowerCase] does not do for every string: a capital I with a dot above
    becomes two code units. *)
Fixpoint lowerUnits (s : string) : string :=
  match s with
  | EmptyString => EmptyString
  | String a s' => String (lowerUnit a) (lowerUnits s')
  end.

(** [arr.includes(x)] on an array of strings. *)
Definition includes (arr : list string) (x : string) : bool :=
  bool_decide (x ∈ arr).

(** [arr.join(sep)] *)
Fixpoint join (sep : string) (arr : list string) : string :=
  match arr with
  | [] => ""
  | [x] => x
  | x :: rest => x +:+ sep +:+ join sep rest
  end.

(** Does the string contain the code unit [c]? *)
Fixpoint has_char (c : ascii) (s : string) : bool :=
  match s with
  | EmptyString => false
  | String a s' => Ascii.eqb a c || has_char c s'
  end.

(** [sub] occurs in [s]: what [s.includes(sub)] decides. *)
Definition occurs_in (sub s : string) : Prop :=
  ∃ before after, s = before +:+ sub +:+ after.

(** What follows the last occurrence of [c] in a string. *)
Fixpoint afterLast (c : ascii) (s : string) : string :=
  match s with
  | EmptyString => EmptyString
  | String a s' => if has_char c s' then afterLast c s' else s'
  end.

(** Replace every code unit satisfying [p] by [r]: [s.replace(/[...]/g, r)]
    for a character class. *)
Fixpoint replace_class (p : ascii → bool) (r : ascii) (s : string) : string :=
  match s with
  | EmptyString => EmptyString
  | String a s' => String (if p a then r else a) (replace_class p r s')
  end.

(** [s.replace(/\.[^/.]+$/, '')]: the match is a dot followed, up to the end
    of the string, by one or more code units that are neither a slash nor a
    dot; so it can only start at the last dot. *)
Definition stripExtension (s : string) : string :=
  let i := lastIndexOf s "." in
  if (i <? 0)%Z then s
  else
    let tail := slice s (i + 1) in
    if String.eqb tail "" || has_char "/" tail then s
    else substring s 0 i.

(** The line feed of a template literal. *)
Definition newline : string := String "010" "".

(** [`${n}`] for a non-negative integer. *)
Definition ofN (n : N) : string := pretty n.

End JSString.

(** ** JavaScript numbers that are not integers *)

Module JSNumber.

Definition pow2 (e : Z) : Q := Qpower 2 e.

(** The binade of a positive rational: [floor (log2 x)]. *)
Definition ilog2 (x : Q) : Z :=
  let e := (Z.log2 (Qnum x) - Z.log2 (Zpos (Qden x)))%Z in
  if Qle_bool (pow2 e) x then e else (e - 1)%Z.

(** Rounding to the nearest integer, ties to even. *)
Definition roundHalfEven (y : Q) : Z :=
  let f := Qfloor y in
  match Qcompare (y - inject_Z f)%Q (1 # 2)%Q with
  | Lt => f
  | Gt => (f + 1)%Z
  | Eq => if Z.even f then f else (f + 1)%Z
  end.

(** Round-to-nearest-even to a 53-bit significand, for a positive rational.
    The exponent range is not bounded: the magnitudes of this program (page
    coordinates, percentages) neither overflow nor reach the subnormals. *)
Definition RNpos (x : Q) : Q :=
  let e := ilog2 x in
  (inject_Z (roundHalfEven (x * pow2 (52 - e))%Q) * pow2 (e - 52))%Q.

Definition RN (x : Q) : Q :=
  match Qnum x with
  | Z0 => 0%Q
  | Zpos _ => RNpos x
  | Zneg _ => (- RNpos (- x))%Q
  end.

Definition fadd (x y : Q) : Q := RN (x + y)%Q.
Definition fsub (x y : Q) : Q := RN (x - y)%Q.
Definition fmul (x y : Q) : Q := RN (x * y)%Q.
Definition fdiv (x y : Q) : Q := RN (x / y)%Q.

(** [Math.round]: the nearest integer, ties towards +infinity. *)
Definition Math_round (x : Q) : Z := Qfloor (x + (1 # 2))%Q.

(** The rational a finite primitive double denotes (used to compare the
    rounding above with the kernel's binary64 arithmetic). *)
Definition Q_of_float (x : float) : Q :=
  match Prim2SF x with
  | S754_finite sg m e =>
      ((if sg then - (1) else 1) * inject_Z (Zpos m) * Qpower 2 e)%Q
  | _ => 0%Q
  end.

Definition float_of_Z (n : Z) : float := of_uint63 (Uint63.of_Z n).

End JSNumber.

(** ** JavaScript values held by worksheet cells *)

Inductive number :=
  | NaN
  | Infinity (negative : bool)
  | Finite (q : Q).

Inductive JSValue :=
  | JSUndefined
  | JSNull
  | JSBoolean (b : bool)
  | JSNumber (n : number)
  | JSString (s : string).

(** Truthiness ([ToBoolean]). *)
Definition ToBoolean (v : JSValue) : bool :=
  match v with
  | JSUndefined | JSNull => false
  | JSBoolean b => b
  | JSNumber NaN => false
  | JSNumber (Infinity _) => true
  | JSNumber (Finite q) => negb (Qeq_bool q 0)
  | JSString s => negb (String.eqb s "")
  end.

(** [a || b] *)
Definition or_else (a b : JSValue) : JSValue :=
  if ToBoolean a then a else b.

(** ** Results *)

Definition Result (A : Type) : Type := A + string.

Definition throw {A : Type} (message : string) : Result A := inr message.

(** ** Data model *)

Module JSFile.

(** A browser [File]: only the fields the service reads. *)
Record File := {
  name : string;
  type : string;
  size : Z
}.

End JSFile.

Abbreviation File := JSFile.File.

(** A SheetJS worksheet: its declared used range (['!ref'], absent on an
    empty sheet) and its cells by address. *)
Record Sheet := {
  sheet_ref : option string;
  sheet_cells : gmap string JSValue
}.

(** What reading a property of a [Sheets] object can yield: a worksheet, a
    member inherited from [Object.prototype] (a function, or the prototype
    itself for [__proto__]), or [undefined]. *)
Inductive SheetSlot :=
  | SlotSheet (sh : Sheet)
  | SlotInherited (key : string)
  | SlotUndefined.

(** A SheetJS workbook, [{ SheetNames: [...], Sheets: {...} }]. [Sheets]
    holds the own properties of the plain object. *)
Record Workbook := {
  SheetNames : list string;
  Sheets : gmap string SheetSlot
}.

(** The property names every plain object inherits from [Object.prototype]. *)
Definition Object_prototype_keys : list string :=
  [ "constructor"; "__defineGetter__"; "__defineSetter__"; "hasOwnProperty";
    "__lookupGetter__"; "__lookupSetter__"; "isPrototypeOf";
    "propertyIsEnumerable"; "toString"; "valueOf"; "__proto__";
    "toLocaleString" ].

(** [sheets[key]]: the own property, else the inherited member, else
    [undefined]. *)
Definition Sheets_get (sheets : gmap string SheetSlot) (key : string)
  : SheetSlot :=
  match sheets !! key with
  | Some v => v
  | None =>
      if bool_decide (key ∈ Object_prototype_keys) then SlotInherited key
      else SlotUndefined
  end.

Definition slot_truthy (v : SheetSlot) : bool :=
  match v with
  | SlotUndefined => false
  | _ => true
  end.

(** [XLSX.utils.book_new()] *)
Definition book_new : Workbook := {| SheetNames := []; Sheets := ∅ |}.

Record WorksheetMeta := {
  ws_name : string;
  ws_index : nat;
  rowCount : Z;
  columnCount : Z;
  hasData : bool
}.

(** The [file] member of an analysis; [uploadTime] is kept as the clock
    reading that [toISOString] renders. *)
Record FileInfo := {
  Id : Z;
  fi_name : string;
  fi_size : Z;
  uploadTime : Z;
  status : string
}.

Record Analysis := {
  file : FileInfo;
  worksheets : list WorksheetMeta;
  workbook : Workbook
}.

(** [analysis.file.Id = v] *)
Definition set_Id (a : Analysis) (v : Z) : Analysis :=
  {| file := {| Id := v;
                fi_name := fi_name (file a);
                fi_size := fi_size (file a);
                uploadTime := uploadTime (file a);
                status := status (file a) |};
     worksheets := worksheets a;
     workbook := workbook a |}.

(** ** Validator *)

Definition validTypes : list string :=
  [ "application/vnd.openxmlformats-officedocument.spreadsheetml.sheet";
    "application/vnd.ms-excel" ].

Definition validExtensions : list string := [ ".xlsx"; ".xls" ].

Section Validator.

(** [String.prototype.toLowerCase] of the engine. On a string of Latin-1
    characters it is [JSString.lowerUnits]; on other strings it can give a
    string of another length. *)
Variable toLowerCase : string → string.

Definition validateFile (f : File) : Result bool :=
  let fileExtension :=
    JSString.slice (toLowerCase (JSFile.name f))
                   (JSString.lastIndexOf (JSFile.name f) ".") in
  if negb (JSString.includes validTypes (JSFile.type f))
     && negb (JSString.includes validExtensions fileExtension)
  then throw "Please upload a valid Excel file (.xlsx or .xls)"
  else if (50 * 1024 * 1024 <? JSFile.size f)%Z
  then throw "File size must be less than 50MB"
  else inl true.

(** The [for] loop of [validateMultipleFiles], threading [errors]. *)
Fixpoint validateLoop (files : list File) (errors : list string)
  : list string :=
  match files with
  | [] => errors
  | f :: rest =>
      match validateFile f with
      | inl _ => validateLoop rest errors
      | inr message => validateLoop rest (errors ++ [JSFile.name f +:+ ": " +:+ message])
      end
  end.

Definition validateMultipleFiles (files : list File) : Result bool :=
  let errors := validateLoop files [] in
  if (0 <? length errors)%nat
  then throw ("Validation failed for "
              +:+ JSString.ofN (N.of_nat (length errors))
              +:+ " file(s):" +:+ JSString.newline
              +:+ JSString.join JSString.newline errors)
  else inl true.

End Validator.

(** ** Analyzer *)

Module XLSX.

Record CellAddress := { r : Z; c : Z }.

Record Range := { s : CellAddress; e : CellAddress }.

End XLSX.

(** [sheet['!ref']] of whatever [Sheets[name]] gave; a function or the
    prototype has no such property. *)
Definition slot_ref (v : SheetSlot) : option string :=
  match v with
  | SlotSheet sh => sheet_ref sh
  | _ => None
  end.

(** Truthiness of a string-or-undefined. *)
Definition ref_truthy (ref : option string) : bool :=
  match ref with
  | Some x => negb (String.eqb x "")
  | None => false
  end.

(** A computation that reads the wall clock: the state is the number of
    readings made so far. *)
Definition Clocked (A : Type) : Type := nat → Result A * nat.

Section Analyzer.

(** [FileReader.readAsArrayBuffer]: the bytes, or [None] when [onerror]
    fires. *)
Variable readAsArrayBuffer : File → option (list Byte.byte).

(** [XLSX.read(data, { type: 'array' })]; [None] when it throws. *)
Variable XLSX_read : list Byte.byte → option Workbook.

(** [XLSX.utils.decode_range] *)
Variable decode_range : string → XLSX.Range.

(** The successive readings of the wall clock, in milliseconds. *)
Variable wallClock : nat → Z.

(** The callback of [workbook.SheetNames.map]; [None] is the [TypeError] of
    reading ['!ref'] of [undefined]. *)
Definition worksheetMeta (wb : Workbook) (nm : string) (index : nat)
  : option WorksheetMeta :=
  match Sheets_get (Sheets wb) nm with
  | SlotUndefined => None
  | sheet =>
      let ref := slot_ref sheet in
      let range :=
        decode_range (if ref_truthy ref then default "" ref else "A1:A1") in
      Some {| ws_name := nm;
              ws_index := index;
              rowCount := XLSX.r (XLSX.e range) + 1;
              columnCount := XLSX.c (XLSX.e range) + 1;
              hasData := ref_truthy ref |}
  end.

Fixpoint mapSheetNames (wb : Workbook) (names : list string) (index : nat)
  : option (list WorksheetMeta) :=
  match names with
  | [] => Some []
  | nm :: rest =>
      match worksheetMeta wb nm index with
      | None => None
      | Some meta =>
          match mapSheetNames wb rest (S index) with
          | None => None
          | Some metas => Some (meta :: metas)
          end
      end
  end.

(** The reader callbacks of [analyzeWorkbook] up to the call of [resolve]:
    the parsed workbook and its worksheet metadata, or the rejection. *)
Definition readWorkbook (f : File) : Result (list WorksheetMeta * Workbook) :=
  match readAsArrayBuffer f with
  | None => throw "Failed to read file"
  | Some data =>
      match XLSX_read data with
      | None =>
          throw "Failed to read Excel file. Please ensure it is not corrupted."
      | Some wb =>
          match mapSheetNames wb (SheetNames wb) 0 with
          | None =>
              throw "Failed to read Excel file. Please ensure it is not corrupted."
          | Some metas => inl (metas, wb)
          end
      end
  end.

Definition analyzeWorkbook (f : File) : Clocked Analysis := λ t,
  match readWorkbook f with
  | inr message => (inr message, t)
  | inl (metas, wb) =>
      let now := wallClock t in
      let uploaded := wallClock (S t) in
      (inl {| file := {| Id := now;
                         fi_name := JSFile.name f;
                         fi_size := JSFile.size f;
                         uploadTime := uploaded;
                         status := "analyzed" |};
              worksheets := metas;
              workbook := wb |},
       S (S t))
  end.

(** The [for] loop of [analyzeMultipleWorkbooks], threading [fileIndex] and
    [results]. *)
Fixpoint analyzeLoop (files : list File) (fileIndex : Z)
    (results : list Analysis) : Clocked (list Analysis) := λ t,
  match files with
  | [] => (inl results, t)
  | f :: rest =>
      match analyzeWorkbook f t with
      | (inl analysis, t1) =>
          let analysis' := set_Id analysis (wallClock t1 + fileIndex) in
          analyzeLoop rest (fileIndex + 1) (results ++ [analysis']) (S t1)
      | (inr message, t1) =>
          (throw ("Failed to analyze " +:+ JSFile.name f +:+ ": " +:+ message), t1)
      end
  end.

Definition analyzeMultipleWorkbooks (files : list File)
  : Clocked (list Analysis) :=
  analyzeLoop files 0 [].

End Analyzer.

(** ** Combiner *)

(** [Math.round((processedSheets / totalSheets) * 100)]. It is only
    evaluated inside the loops over the worksheets, where [totalSheets] is
    at least 1. *)
Definition progressOf (processedSheets totalSheets : Z) : Z :=
  JSNumber.Math_round
    (JSNumber.fmul
       (JSNumber.fdiv (inject_Z processedSheets) (inject_Z totalSheets))
       (inject_Z 100)).

(** The candidate name of a worksheet, with the file-name part cut when the
    whole exceeds 31 characters. *)
Definition newSheetName (fileBaseName wsName : string) : string :=
  let candidate := fileBaseName +:+ "_" +:+ wsName in
  if (31 <? JSString.length candidate)%Z then
    let maxFileNameLength := (31 - JSString.length wsName - 1)%Z in
    let truncatedFileName := JSString.substring fileBaseName 0 maxFileNameLength in
    truncatedFileName +:+ "_" +:+ wsName
  else candidate.

(** The name tried for a given value of [counter]. *)
Definition suffixedName (newName : string) (counter : N) : string :=
  let suffix := "_" +:+ JSString.ofN counter in
  let maxBaseLength := (31 - JSString.length suffix)%Z in
  JSString.substring newName 0 maxBaseLength +:+ suffix.

(** [combinedWorkbook.Sheets[finalSheetName]] as a condition. *)
Definition nameTaken (combined : Workbook) (finalSheetName : string) : bool :=
  slot_truthy (Sheets_get (Sheets combined) finalSheetName).

(** The [while] loop that makes the name unique; [fuel] bounds the number of
    times its body runs, and [None] means the bound was reached. *)
Fixpoint uniqueNameLoop (fuel : nat) (combined : Workbook) (newName : string)
    (counter : N) (finalSheetName : string) : option string :=
  if nameTaken combined finalSheetName then
    match fuel with
    | O => None
    | S fuel' =>
        uniqueNameLoop fuel' combined newName (counter + 1)%N
                       (suffixedName newName counter)
    end
  else Some finalSheetName.

(** As many iterations as there are names that can be taken, plus one. *)
Definition uniqueNameFuel (combined : Workbook) : nat :=
  S (size (Sheets combined) + length Object_prototype_keys).

Definition uniqueName (combined : Workbook) (newName : string)
  : option string :=
  uniqueNameLoop (uniqueNameFuel combined) combined newName 1%N newName.

(** [workbookAnalyses.forEach(analysis => totalSheets += ...)] *)
Definition countSheets (workbookAnalyses : list Analysis) : Z :=
  fold_left (λ total analysis, (total + Z.of_nat (length (worksheets analysis)))%Z)
            workbookAnalyses 0%Z.

Section Combiner.

(** What the caller's progress callback acts on. *)
Context {T : Type}.

(** The loop variables of [combineAllSheets], with the state the callback
    has built up. *)
Record CombineState := {
  combinedWorkbook : Workbook;
  processedSheets : Z;
  callerState : T
}.

(** [if (onProgress) { onProgress(progress) }] *)
Definition report (onProgress : option (Z → T → T)) (progress : Z) (t : T) : T :=
  match onProgress with
  | Some callback => callback progress t
  | None => t
  end.

(** The body of the inner loop, for one worksheet. *)
Definition combineSheet (onProgress : option (Z → T → T)) (totalSheets : Z)
    (analysis : Analysis) (fileBaseName : string) (worksheet : WorksheetMeta)
    (st : CombineState) : option CombineState :=
  let originalSheet :=
    Sheets_get (Sheets (workbook analysis)) (ws_name worksheet) in
  let newName := newSheetName fileBaseName (ws_name worksheet) in
  match uniqueName (combinedWorkbook st) newName with
  | None => None
  | Some finalSheetName =>
      let combined :=
        {| SheetNames := SheetNames (combinedWorkbook st) ++ [finalSheetName];
           Sheets := <[finalSheetName := originalSheet]>
                       (Sheets (combinedWorkbook st)) |} in
      let processed := (processedSheets st + 1)%Z in
      let progress := progressOf processed totalSheets in
      Some {| combinedWorkbook := combined;
              processedSheets := processed;
              callerState := report onProgress progress (callerState st) |}
  end.

(** The inner loop, over the worksheets of one analysis. *)
Fixpoint combineSheets (onProgress : option (Z → T → T)) (totalSheets : Z)
    (analysis : Analysis) (fileBaseName : string)
    (sheets : list WorksheetMeta) (st : CombineState) : option CombineState :=
  match sheets with
  | [] => Some st
  | worksheet :: rest =>
      match combineSheet onProgress totalSheets analysis fileBaseName worksheet st with
      | None => None
      | Some st' =>
          combineSheets onProgress totalSheets analysis fileBaseName rest st'
      end
  end.

(** The outer loop, over the analyses. *)
Fixpoint combineAnalyses (onProgress : option (Z → T → T)) (totalSheets : Z)
    (workbookAnalyses : list Analysis) (st : CombineState)
  : option CombineState :=
  match workbookAnalyses with
  | [] => Some st
  | analysis :: rest =>
      let fileBaseName := JSString.stripExtension (fi_name (file analysis)) in
      match combineSheets onProgress totalSheets analysis fileBaseName
                          (worksheets analysis) st with
      | None => None
      | Some st' => combineAnalyses onProgress totalSheets rest st'
      end
  end.

(** [combineAllSheets(workbookAnalyses, onProgress)]: the combined workbook
    and the caller's state after the callbacks, started from [t0]. *)
Definition combineAllSheets (workbookAnalyses : list Analysis)
    (onProgress : option (Z → T → T)) (t0 : T) : option (Workbook * T) :=
  let totalSheets := countSheets workbookAnalyses in
  match combineAnalyses onProgress totalSheets workbookAnalyses
          {| combinedWorkbook := book_new;
             processedSheets := 0;
             callerState := t0 |} with
  | None => None
  | Some st => Some (combinedWorkbook st, callerState st)
  end.

End Combiner.

Arguments CombineState : clear implicits.

(** A callback that records the values it is given, in order. *)
Definition recordProgress : option (Z → list Z → list Z) :=
  Some (λ progress seen, seen ++ [progress]).

(** ** Sheet renderer *)

(** The calls made on a jsPDF document, in order. *)
Inductive PdfOp :=
  | SetFontSize (points : Z)
  | PdfText (text : string) (x y : Q)
  | AddPage.

(** The texts a document draws, in drawing order. *)
Definition drawnTexts (doc : list PdfOp) : list string :=
  omap (λ op, match op with PdfText text _ _ => Some text | _ => None end) doc.

(** The character class of the file-name clean-up: slash, backslash, colon,
    star, question mark, double quote (code 34), angle brackets and bar. *)
Definition pathHazard (a : ascii) : bool :=
  bool_decide (a ∈ [ "/"; "\"; ":"; "*"; "?"; "034"; "<"; ">"; "|" ]%char).

Section Renderer.

(** [XLSX.utils.sheet_to_json(sheet, { header: 1, defval: '' })] *)
Variable sheet_to_json : SheetSlot → list (list JSValue).

(** [String(x)] for a finite number [x]. *)
Variable Number_toString : Q → string.

(** [pdf.internal.pageSize.getWidth()] and [getHeight()] of an A4 portrait
    document in millimetres. *)
Variables pageWidth pageHeight : Q.

Context {T : Type}.

Definition margin : Q := inject_Z 10.

Definition lineHeight : Q := inject_Z 6.

(** [String(v)] *)
Definition String_of (v : JSValue) : string :=
  match v with
  | JSUndefined => "undefined"
  | JSNull => "null"
  | JSBoolean true => "true"
  | JSBoolean false => "false"
  | JSNumber NaN => "NaN"
  | JSNumber (Infinity false) => "Infinity"
  | JSNumber (Infinity true) => "-Infinity"
  | JSNumber (Finite q) => Number_toString q
  | JSString str => str
  end.

(** [String(row[colIndex] || '')] *)
Definition cellValue (cell : JSValue) : string :=
  String_of (or_else cell (JSString "")).

(** What [pdf.text] is given for a cell value. *)
Definition cellText (value : string) : string :=
  if (15 <? JSString.length value)%Z
  then JSString.substring value 0 15 +:+ "..."
  else value.

(** The loop over the columns of one row: [cells] are the cells from
    [colIndex] on, [rowLength] is [row.length]. *)
Fixpoint renderCells (cells : list JSValue) (rowLength : Z) (colIndex : nat)
    (xPosition yPosition : Q) : list PdfOp :=
  match cells with
  | [] => []
  | cell :: rest =>
      if (colIndex <? 8)%nat then
        let maxWidth :=
          JSNumber.fdiv
            (JSNumber.fsub pageWidth (JSNumber.fmul (inject_Z 2) margin))
            (inject_Z (Z.min rowLength 8)) in
        PdfText (cellText (cellValue cell)) xPosition yPosition
          :: renderCells rest rowLength (S colIndex)
               (JSNumber.fadd xPosition maxWidth) yPosition
      else []
  end.

(** The loop over the rows, threading [yPosition]. *)
Fixpoint renderRows (jsonData : list (list JSValue)) (yPosition : Q)
  : list PdfOp :=
  match jsonData with
  | [] => []
  | row :: rest =>
      let limit := JSNumber.fsub (JSNumber.fsub pageHeight margin) lineHeight in
      let newPage := negb (Qle_bool yPosition limit) in
      let y := if newPage then JSNumber.fadd margin (inject_Z 10) else yPosition in
      (if newPage then [AddPage] else [])
        ++ renderCells row (Z.of_nat (length row)) 0 margin y
        ++ renderRows rest (JSNumber.fadd y lineHeight)
  end.

(** The document built for one worksheet. *)
Definition renderSheet (title : string) (jsonData : list (list JSValue))
  : list PdfOp :=
  let yPosition := JSNumber.fadd margin (inject_Z 10) in
  [SetFontSize 16; PdfText title margin yPosition; SetFontSize 10]
    ++ renderRows jsonData
         (JSNumber.fadd yPosition (JSNumber.fmul lineHeight (inject_Z 2))).

(** The loop of [processWorksheets], threading the archive and the caller's
    state; [i] is the loop index. *)
Fixpoint processLoop (wb : Workbook) (selected : list WorksheetMeta)
    (onProgress : option (Z → T → T)) (totalSheets i : Z)
    (zip : gmap string (list PdfOp)) (t : T) : gmap string (list PdfOp) * T :=
  match selected with
  | [] => (zip, t)
  | worksheet :: rest =>
      let sheet := Sheets_get (Sheets wb) (ws_name worksheet) in
      let jsonData := sheet_to_json sheet in
      let pdf := renderSheet (ws_name worksheet) jsonData in
      let fileName :=
        JSString.replace_class pathHazard "_" (ws_name worksheet) +:+ ".pdf" in
      let progress := progressOf (i + 1) totalSheets in
      processLoop wb rest onProgress totalSheets (i + 1)
                  (<[fileName := pdf]> zip) (report onProgress progress t)
  end.

Definition processWorksheets (wb : Workbook)
    (selectedWorksheets : list WorksheetMeta)
    (onProgress : option (Z → T → T)) (t0 : T)
  : gmap string (list PdfOp) * T :=
  processLoop wb selectedWorksheets onProgress
              (Z.of_nat (length selectedWorksheets)) 0 ∅ t0.

End Renderer.

(** ** Encoder and download names *)

Module Download.

(** What [generateCombinedExcel] returns; the blob is its bytes. *)
Record Combined := {
  blob : list Byte.byte;
  fileName : string;
  size : Z;
  sheetCount : Z
}.

(** What [generateDownload] returns. *)
Record Archive := {
  zipBlob : list Byte.byte;
  zipFileName : string;
  zipSize : Z
}.

End Download.

Section Encoder.

(** [XLSX.write(workbook, { bookType: 'xlsx', type: 'array' })]; [inr] is
    the message of the error it throws. *)
Variable XLSX_write : Workbook → Result (list Byte.byte).

Definition generateCombinedExcel (combinedWorkbook : Workbook)
    (baseFileName : string) : Result Download.Combined :=
  match XLSX_write combinedWorkbook with
  | inr message => inr message
  | inl excelBuffer =>
      inl {| Download.blob := excelBuffer;
             Download.fileName := baseFileName +:+ "_combined.xlsx";
             Download.size := Z.of_nat (length excelBuffer);
             Download.sheetCount :=
               Z.of_nat (length (SheetNames combinedWorkbook)) |}
  end.

End Encoder.

Section Archiver.

(** [zip.generateAsync({ type: 'blob' })] *)
Variable generateAsync : gmap string (list PdfOp) → list Byte.byte.

Definition generateDownload (zip : gmap string (list PdfOp))
    (originalFileName : string) : Download.Archive :=
  let zipBlob := generateAsync zip in
  let baseName := JSString.stripExtension originalFileName in
  {| Download.zipBlob := zipBlob;
     Download.zipFileName := baseName +:+ "_split_PDFs.zip";
     Download.zipSize := Z.of_nat (length zipBlob) |}.

End Archiver.

(** [downloadFile(blob, fileName)]: what [saveAs] is given, as the list of
    the files saved. *)
Definition downloadFile (blob : list Byte.byte) (fileName : string)
  : list (list Byte.byte * string) :=
  [(blob, fileName)].

(** ** The component that calls the service

    [FileProcessor.jsx]: the state of the component and its handlers. A
    handler is modelled as run to completion from the state it starts in,
    giving the state after its last update and the toasts it shows. *)

Module FileProcessor.

Inductive Stage := idle | upload | analyze | combine | download | complete.

Inductive Toast :=
  | success (message : string)
  | error_toast (message : string)
  | info (message : string).

Record State := {
  files : list FileInfo;
  workbookAnalyses : list Analysis;
  totalWorksheets : Z;
  stage : Stage;
  progress : Z;
  currentWorksheet : string;
  downloadReady : option Download.Combined;
  error : option string
}.

(** The state of the first render, which [resetState] restores. *)
Definition resetState : State :=
  {| files := []; workbookAnalyses := []; totalWorksheets := 0;
     stage := idle; progress := 0; currentWorksheet := "";
     downloadReady := None; error := None |}.

(** [analyses.reduce((total, analysis) => total + analysis.worksheets.length, 0)] *)
Definition worksheetCount (analyses : list Analysis) : Z :=
  fold_left (λ total analysis, (total + Z.of_nat (length (worksheets analysis)))%Z)
            analyses 0%Z.

(** The catch block of the two upload handlers. *)
Definition failed (st : State) (shownProgress : Z) (message : string)
  : State * list Toast :=
  ({| files := files st; workbookAnalyses := workbookAnalyses st;
      totalWorksheets := totalWorksheets st; stage := idle;
      progress := shownProgress; currentWorksheet := currentWorksheet st;
      downloadReady := downloadReady st; error := Some message |},
   [error_toast message]).

Section Handlers.

(** The functions of the engine and of the libraries, as in the service. *)
Variable toLowerCase : string → string.
Variable readAsArrayBuffer : File → option (list Byte.byte).
Variable XLSX_read : list Byte.byte → option Workbook.
Variable decode_range : string → XLSX.Range.
Variable wallClock : nat → Z.
Variable XLSX_write : Workbook → Result (list Byte.byte).

Definition handleFileSelect (selectedFiles : list File) (st : State)
  : nat → (State * list Toast) * nat := λ t,
  match validateMultipleFiles toLowerCase selectedFiles with
  | inr message => (failed st 0 message, t)
  | inl _ =>
      match analyzeMultipleWorkbooks readAsArrayBuffer XLSX_read decode_range
              wallClock selectedFiles t with
      | (inr message, t') => (failed st 0 message, t')
      | (inl analyses, t') =>
          let totalWorksheetCount := worksheetCount analyses in
          (({| files := file <$> analyses;
               workbookAnalyses := analyses;
               totalWorksheets := totalWorksheetCount;
               stage := idle;
               progress := 100;
               currentWorksheet := currentWorksheet st;
               downloadReady := downloadReady st;
               error := None |},
            [success ("Found " +:+ JSString.ofN (Z.to_N totalWorksheetCount)
                      +:+ " worksheets across "
                      +:+ JSString.ofN (N.of_nat (length selectedFiles))
                      +:+ " files")]),
           t')
      end
  end.

Definition handleAddMoreFiles (additionalFiles : list File) (st : State)
  : nat → (State * list Toast) * nat := λ t,
  match validateMultipleFiles toLowerCase additionalFiles with
  | inr message => (failed st 0 message, t)
  | inl _ =>
      match analyzeMultipleWorkbooks readAsArrayBuffer XLSX_read decode_range
              wallClock additionalFiles t with
      | (inr message, t') => (failed st 0 message, t')
      | (inl newAnalyses, t') =>
          let newWorksheetCount := worksheetCount newAnalyses in
          let allAnalyses := workbookAnalyses st ++ newAnalyses in
          let allFiles := files st ++ (file <$> newAnalyses) in
          let newTotalWorksheets := (totalWorksheets st + newWorksheetCount)%Z in
          (({| files := allFiles;
               workbookAnalyses := allAnalyses;
               totalWorksheets := newTotalWorksheets;
               stage := idle;
               progress := 100;
               currentWorksheet := currentWorksheet st;
               downloadReady := downloadReady st;
               error := None |},
            [success ("Added " +:+ JSString.ofN (Z.to_N newWorksheetCount)
                      +:+ " more worksheets. Total: "
                      +:+ JSString.ofN (Z.to_N newTotalWorksheets)
                      +:+ " worksheets")]),
           t')
      end
  end.

Definition handleRemoveFile (fileId : Z) (st : State) : State * list Toast :=
  let updatedAnalyses :=
    filter (λ analysis, Id (file analysis) ≠ fileId) (workbookAnalyses st) in
  let updatedFiles := filter (λ f, Id f ≠ fileId) (files st) in
  let newTotalWorksheets := worksheetCount updatedAnalyses in
  (match updatedFiles with
   | [] => resetState
   | _ =>
       {| files := updatedFiles;
          workbookAnalyses := updatedAnalyses;
          totalWorksheets := newTotalWorksheets;
          stage := stage st;
          progress := progress st;
          currentWorksheet := currentWorksheet st;
          downloadReady := downloadReady st;
          error := error st |}
   end,
   [info "File removed"]).

(** The inner [for...of] of the progress callback: the running index and the
    sheet found so far, after the worksheets of one analysis. *)
Fixpoint findInWorksheets (sheets : list WorksheetMeta) (currentSheetIndex : Z)
    (runningIndex : Z) (currentSheet : option string) : Z * option string :=
  match sheets with
  | [] => (runningIndex, currentSheet)
  | worksheet :: rest =>
      if (runningIndex =? currentSheetIndex)%Z
      then (runningIndex, Some (ws_name worksheet))
      else findInWorksheets rest currentSheetIndex (runningIndex + 1) currentSheet
  end.

(** The outer [for...of], left as soon as a sheet with a non-empty name has
    been found. *)
Fixpoint findInAnalyses (analyses : list Analysis) (currentSheetIndex : Z)
    (runningIndex : Z) (currentSheet : option string) : option string :=
  match analyses with
  | [] => currentSheet
  | analysis :: rest =>
      let found :=
        findInWorksheets (worksheets analysis) currentSheetIndex
                         runningIndex currentSheet in
      if ref_truthy found.2 then found.2
      else findInAnalyses rest currentSheetIndex found.1 found.2
  end.

(** The progress callback given to [combineAllSheets]. *)
Definition onCombineProgress (analyses : list Analysis) (progressValue : Z)
    (st : State) : State :=
  let shown :=
    if (progressValue <? 100)%Z then
      let totalSheets := worksheetCount analyses in
      let currentSheetIndex :=
        Qfloor (JSNumber.fmul
                  (JSNumber.fdiv (inject_Z progressValue) (inject_Z 100))
                  (inject_Z totalSheets)) in
      let currentSheet := findInAnalyses analyses currentSheetIndex 0 None in
      if ref_truthy currentSheet then default "" currentSheet
      else currentWorksheet st
    else currentWorksheet st in
  {| files := files st; workbookAnalyses := workbookAnalyses st;
     totalWorksheets := totalWorksheets st; stage := stage st;
     progress := progressValue; currentWorksheet := shown;
     downloadReady := downloadReady st; error := error st |}.

(** [handleCombineFiles]; [None] only if the name loop of the Combiner ran
    out of fuel. *)
Definition handleCombineFiles (st : State) : option (State * list Toast) :=
  if bool_decide (workbookAnalyses st = []) || (totalWorksheets st =? 0)%Z
  then Some (st, [])
  else
    let started :=
      {| files := files st; workbookAnalyses := workbookAnalyses st;
         totalWorksheets := totalWorksheets st; stage := combine;
         progress := 0; currentWorksheet := currentWorksheet st;
         downloadReady := downloadReady st; error := None |} in
    match combineAllSheets (workbookAnalyses st)
            (Some (onCombineProgress (workbookAnalyses st))) started with
    | None => None
    | Some (combinedWorkbook, combined) =>
        let baseFileName :=
          match files st with
          | first :: _ => JSString.stripExtension (fi_name first)
          | [] => "combined"
          end in
        match generateCombinedExcel XLSX_write combinedWorkbook baseFileName with
        | inr message =>
            Some ({| files := files combined;
                     workbookAnalyses := workbookAnalyses combined;
                     totalWorksheets := totalWorksheets combined;
                     stage := idle; progress := 0;
                     currentWorksheet := currentWorksheet combined;
                     downloadReady := downloadReady combined;
                     error := Some message |},
                  [error_toast "Failed to combine files"])
        | inl ready =>
            Some ({| files := files combined;
                     workbookAnalyses := workbookAnalyses combined;
                     totalWorksheets := totalWorksheets combined;
                     stage := complete; progress := 100;
                     currentWorksheet := currentWorksheet combined;
                     downloadReady := Some ready;
                     error := None |},
                  [success (JSString.ofN (Z.to_N (totalWorksheets st))
                            +:+ " worksheets combined successfully! Ready for download.")])
        end
    end.

End Handlers.

(** [handleDownload]: the files saved and the toasts shown. *)
Definition handleDownload (st : State)
  : list (list Byte.byte * string) * list Toast :=
  match downloadReady st with
  | Some ready =>
      (downloadFile (Download.blob ready) (Download.fileName ready),
       [success "Download started!"])
  | None => ([], [])
  end.

End FileProcessor.

(** ** Notions used by the statements *)

(** The names that can be taken in a workbook: a finite set. *)
Definition takenNames (combined : Workbook) : gset string :=
  dom (Sheets combined) ∪ list_to_set Object_prototype_keys.

(** Every worksheet listed by an analysis is found in its workbook, as it is
    for the analyses [analyzeWorkbook] builds. *)
Definition sheetsPresent (a : Analysis) : Prop :=
  Forall (λ ws, slot_truthy (Sheets_get (Sheets (workbook a)) (ws_name ws)) = true)
         (worksheets a).

(** The error lines of a batch: one per file that fails the single-file
    check, in input order. *)
Definition validationErrors (toLowerCase : string → string)
    (files : list File) : list string :=
  omap (λ f, match validateFile toLowerCase f with
             | inl _ => None
             | inr message => Some (JSFile.name f +:+ ": " +:+ message)
             end) files.

(** The number of worksheets of a list of analyses. *)
Definition totalWorksheets (workbookAnalyses : list Analysis) : nat :=
  sum_list_with (λ a, length (worksheets a)) workbookAnalyses.

(** The percentages reported over [n] worksheets: that of the first, of the
    second, and so on. *)
Definition progressValues (n : nat) : list Z :=
  (λ k, progressOf (Z.of_nat k) (Z.of_nat n)) <$> seq 1 n.

(** The percentages reported for the next [n] worksheets once [processed]
    worksheets are in the combined workbook. *)
Definition reportsFrom (total processed : Z) (n : nat) : list Z :=
  (λ k, progressOf (processed + Z.of_nat k) total) <$> seq 1 n.

(** [(k / n) * 100] computed with the kernel's binary64 arithmetic. *)
Definition floatPercent (k n : Z) : Q :=
  JSNumber.Q_of_float
    (PrimFloat.mul
       (PrimFloat.div (JSNumber.float_of_Z k) (JSNumber.float_of_Z n))
       (JSNumber.float_of_Z 100)).

(** The pairs [(k, n)] with [1 <= k <= n <= bound]. *)
Definition progressGrid (bound : nat) : list (Z * Z) :=
  n ← seq 1 bound; k ← seq 1 n; [(Z.of_nat k, Z.of_nat n)].

(** ** Sample inputs *)

Definition emptySheet : Sheet := {| sheet_ref := None; sheet_cells := ∅ |}.

(** A workbook of empty sheets with the given names. *)
Definition sampleWorkbook (names : list string) : Workbook :=
  {| SheetNames := names;
     Sheets := list_to_map ((λ nm, (nm, SlotSheet emptySheet)) <$> names) |}.

(** The analysis of such a workbook, read from a file called [fileName]. *)
Definition sampleAnalysis (fileName : string) (names : list string) : Analysis :=
  {| file := {| Id := 0; fi_name := fileName; fi_size := 0;
                uploadTime := 0; status := "analyzed" |};
     worksheets :=
       imap (λ i nm, {| ws_name := nm; ws_index := i; rowCount := 1;
                        columnCount := 1; hasData := false |}) names;
     workbook := sampleWorkbook names |}.

(** A workbook with a sheet that declares the used range [A1:C5] and an
    empty sheet. *)
Definition sampleBook : Workbook :=
  {| SheetNames := ["Data"; "Empty"];
     Sheets :=
       <["Data" := SlotSheet {| sheet_ref := Some "A1:C5"; sheet_cells := ∅ |}]>
         (<["Empty" := SlotSheet emptySheet]> ∅) |}.

(** A workbook whose only sheet declares the used range [C3:E5]: three rows
    and three columns, away from the first row and column. *)
Definition offsetBook : Workbook :=
  {| SheetNames := ["Block"];
     Sheets :=
       <["Block" := SlotSheet {| sheet_ref := Some "C3:E5"; sheet_cells := ∅ |}]> ∅ |}.

(** A reader that fails on the file called [unreadable.xls] and otherwise
    yields the file name as content. *)
Definition sampleReader (f : File) : option (list Byte.byte) :=
  if String.eqb (JSFile.name f) "unreadable.xls" then None
  else Some (String.list_byte_of_string (JSFile.name f)).

(** A codec for which the content [B.xlsx] is corrupt and any other content
    is [sampleBook]. *)
Definition sampleCodec (data : list Byte.byte) : option Workbook :=
  if String.eqb (String.string_of_list_byte data) "B.xlsx" then None
  else Some sampleBook.

(** A decoder of cell addresses such as [C5], in the manner of SheetJS:
    digits build the row, capital letters the column. *)
Fixpoint sampleDecodeCell (str : string) (row col : Z) : XLSX.CellAddress :=
  match str with
  | EmptyString => {| XLSX.r := row - 1; XLSX.c := col - 1 |}
  | String a rest =>
      let n := Z.of_nat (nat_of_ascii a) in
      if ((48 <=? n) && (n <=? 57))%Z
      then sampleDecodeCell rest (10 * row + (n - 48)) col
      else if ((65 <=? n) && (n <=? 90))%Z
      then sampleDecodeCell rest row (26 * col + (n - 64))
      else sampleDecodeCell rest row col
  end.

(** The part of a string before its first colon, and the part after it. *)
Fixpoint splitColon (str : string) : string * option string :=
  match str with
  | EmptyString => (EmptyString, None)
  | String a rest =>
      if Ascii.eqb a ":" then (EmptyString, Some rest)
      else (String a (splitColon rest).1, (splitColon rest).2)
  end.

(** A decoder of ranges such as [A1:C5]. *)
Definition sampleDecodeRange (str : string) : XLSX.Range :=
  match splitColon str with
  | (first, Some second) =>
      {| XLSX.s := sampleDecodeCell first 0 0;
         XLSX.e := sampleDecodeCell second 0 0 |}
  | (first, None) =>
      {| XLSX.s := sampleDecodeCell first 0 0;
         XLSX.e := sampleDecodeCell first 0 0 |}
  end.

(** A clock that advances by 1 ms from each reading to the next. *)
Definition tickClock (reading : nat) : Z :=
  (1700000000000 + Z.of_nat reading)%Z.

(** A clock that is set back by 1 ms after its third reading. *)
Definition setBackClock (reading : nat) : Z :=
  if (reading <? 3)%nat then 1700000000301%Z else 1700000000300%Z.

(** A clock that advances by 400 ms between readings. *)
Definition sampleClock (reading : nat) : Z :=
  (1700000000000 + 400 * Z.of_nat reading)%Z.

Definition sampleFile (fileName : string) : File :=
  {| JSFile.name := fileName;
     JSFile.type :=
       "application/vnd.openxmlformats-officedocument.spreadsheetml.sheet";
     JSFile.size := 2048 |}.

(** What analyzing [A.xlsx] at the first reading of [sampleClock] gives. *)
Definition sampleAnalyzed : Analysis :=
  {| file := {| Id := 1700000000000; fi_name := "A.xlsx"; fi_size := 2048;
                uploadTime := 1700000000400; status := "analyzed" |};
     worksheets :=
       [ {| ws_name := "Data"; ws_index := 0; rowCount := 5; columnCount := 3;
            hasData := true |};
         {| ws_name := "Empty"; ws_index := 1; rowCount := 1; columnCount := 1;
            hasData := false |} ];
     workbook := sampleBook |}.

(** An analysis that lists a worksheet, [Ghost], which its workbook does not
    hold. *)
Definition ghostAnalysis (fileName : string) : Analysis :=
  {| file := {| Id := 0; fi_name := fileName; fi_size := 0;
                uploadTime := 0; status := "analyzed" |};
     worksheets := [ {| ws_name := "Ghost"; ws_index := 0; rowCount := 1;
                        columnCount := 1; hasData := false |} ];
     workbook := sampleWorkbook [] |}.

(** The analyses of [A.xlsx] and [C.xlsx], read in one batch from the first
    reading of [sampleClock]. *)
Definition sampleBatch : list Analysis :=
  match (analyzeMultipleWorkbooks sampleReader sampleCodec sampleDecodeRange
           sampleClock [sampleFile "A.xlsx"; sampleFile "C.xlsx"] 0).1 with
  | inl analyses => analyses
  | inr _ => []
  end.

(** The component once that batch has been selected. *)
Definition sampleState : FileProcessor.State :=
  {| FileProcessor.files := file <$> sampleBatch;
     FileProcessor.workbookAnalyses := sampleBatch;
     FileProcessor.totalWorksheets := 4;
     FileProcessor.stage := FileProcessor.idle;
     FileProcessor.progress := 100;
     FileProcessor.currentWorksheet := "";
     FileProcessor.downloadReady := None;
     FileProcessor.error := None |}.

(** A case mapping that lengthens one name by a code unit, as the engine's
    does for a name that starts with a capital I with a dot above. *)
Definition sampleLower (s : string) : string :=
  if String.eqb s "I.XLSX" then "i'.xlsx" else JSString.lowerUnits s.

(** A worksheet name of 31 characters, the longest a spreadsheet allows. *)
Definition longSheetName : string := "Quarterly_Financial_Summary_F24".

(** The listed names of a combined workbook are distinct and each of them is
    seen as taken. *)
Definition namesRegistered (combined : Workbook) : Prop :=
  NoDup (SheetNames combined)
  ∧ ∀ nm, nm ∈ SheetNames combined → nameTaken combined nm = true.

(** [fileName] ends with a dot followed by [tail], where [tail] has no dot
    and is [ext] once lower-cased: the file has the extension [ext], in any
    letter case. *)
Definition hasExtension (fileName ext : string) : Prop :=
  ∃ stem tail,
    fileName = stem +:+ "." +:+ tail
    ∧ JSString.has_char "." tail = false
    ∧ JSString.lowerUnits tail = ext.

(** The worksheets of the analyses as their workbooks hold them, in the
    order of the analyses and, within one, of its worksheets. *)
Definition sourceSheets (workbookAnalyses : list Analysis) : list SheetSlot :=
  a ← workbookAnalyses;
  (λ ws, Sheets_get (Sheets (workbook a)) (ws_name ws)) <$> worksheets a.

(** The combined workbook holds [placed] under its names, in order, and
    nothing else. *)
Definition holdsInOrder (combined : Workbook) (placed : list SheetSlot) : Prop :=
  namesRegistered combined
  ∧ Sheets_get (Sheets combined) <$> SheetNames combined = placed
  ∧ dom (Sheets combined) = list_to_set (SheetNames combined).

(** Every listed name is within 31 characters, and [Sheets] has no more
    entries than there are names. *)
Definition withinLimit (combined : Workbook) : Prop :=
  Forall (λ nm, (JSString.length nm ≤ 31)%Z) (SheetNames combined)
  ∧ (size (Sheets combined) ≤ length (SheetNames combined))%nat.

(** The name of the archive entry of a worksheet, as [processWorksheets]
    builds it. *)
Definition entryName (worksheet : WorksheetMeta) : string :=
  JSString.replace_class pathHazard "_" (ws_name worksheet) +:+ ".pdf".

(** The number of rows and of columns a range spans: its extent. *)
Definition rangeRows (range : XLSX.Range) : Z :=
  XLSX.r (XLSX.e range) - XLSX.r (XLSX.s range) + 1.

Definition rangeColumns (range : XLSX.Range) : Z :=
  XLSX.c (XLSX.e range) - XLSX.c (XLSX.s range) + 1.

(** The (possibly truncated) candidate names of the worksheets of the
    analyses, in the order of the analyses and, within one, of its
    worksheets. *)
Definition candidates (workbookAnalyses : list Analysis) : list string :=
  a ← workbookAnalyses;
  (λ ws, newSheetName (JSString.stripExtension (fi_name (file a))) (ws_name ws))
    <$> worksheets a.

(** A name collides when one of the names assigned earlier is that name, or
    when it is a property name a plain object inherits. *)
Definition collides (earlier : list string) (nm : string) : Prop :=
  nm ∈ earlier ∨ nm ∈ Object_prototype_keys.

(** [finalName] is the name assigned to a worksheet with the candidate name
    [candidate] once the names [earlier] have been assigned: the candidate
    itself when it does not collide; otherwise the candidate re-truncated and
    followed by the suffix [_k], for the first [k = 1, 2, ...] whose
    suffixed candidate does not collide. That name is a part of the
    candidate followed by the suffix, within 31 characters (for a counter
    below 10^30). *)
Definition assignedName (earlier : list string) (candidate finalName : string)
  : Prop :=
  ¬ collides earlier finalName
  ∧ ((¬ collides earlier candidate ∧ finalName = candidate)
     ∨ (collides earlier candidate
        ∧ ∃ k : N,
            (1 ≤ k)%N
            ∧ finalName = suffixedName candidate k
            ∧ (∀ j : N, (1 ≤ j < k)%N →
                 collides earlier (suffixedName candidate j))
            ∧ (∃ kept dropped,
                 candidate = kept +:+ dropped
                 ∧ finalName = kept +:+ "_" +:+ JSString.ofN k)
            ∧ ((k < 10 ^ 30)%N → (JSString.length finalName ≤ 31)%Z))).

(** The names taken in the combined workbook are those listed and the
    inherited ones. *)
Definition listedTaken (combined : Workbook) : Prop :=
  ∀ nm, nameTaken combined nm = true ↔ collides (SheetNames combined) nm.

(** The names [finals] are assigned to the candidates, one after the other,
    each with respect to [earlier] and to the names assigned before it. *)
Fixpoint assignedFrom (earlier candidateNames finals : list string) : Prop :=
  match candidateNames, finals with
  | [], [] => True
  | candidate :: candidateNames', finalName :: finals' =>
      assignedName earlier candidate finalName
      ∧ assignedFrom (earlier ++ [finalName]) candidateNames' finals'
  | _, _ => False
  end.

(** The worksheets of the analyses, in the order of the analyses and,
    within one, of its worksheets. *)
Definition allWorksheets (workbookAnalyses : list Analysis) : list WorksheetMeta :=
  a ← workbookAnalyses; worksheets a.

(** The file list of the component is that of its analyses, entry by entry,
    and its worksheet total is the number of their worksheets. *)
Definition aligned (st : FileProcessor.State) : Prop :=
  FileProcessor.files st = file <$> FileProcessor.workbookAnalyses st
  ∧ FileProcessor.totalWorksheets st
    = Z.of_nat (totalWorksheets (FileProcessor.workbookAnalyses st)).

(** The base name [handleCombineFiles] gives the download. *)
Definition downloadBase (st : FileProcessor.State) : string :=
  match FileProcessor.files st with
  | first :: _ => JSString.stripExtension (fi_name first)
  | [] => "combined"
  end.

(** * Properties *)

(** ** Strings *)

Section StringFacts.

Implicit Types (s t u : string) (a c : ascii).

Lemma app_cons a s t : String a s +:+ t = String a (s +:+ t).
Proof. reflexivity. Qed.

Lemma app_nil_l t : "" +:+ t = t.
Proof. reflexivity. Qed.

Lemma app_assoc s t u : (s +:+ t) +:+ u = s +:+ t +:+ u.
Proof. induction s as [|a s IH]; [done|]. by rewrite !app_cons, IH. Qed.

Lemma strlen_app s t :
  String.length (s +:+ t) = (String.length s + String.length t)%nat.
Proof. induction s as [|a s IH]; [done|]. rewrite app_cons. simpl. by rewrite IH. Qed.

Lemma length_app s t :
  JSString.length (s +:+ t) = (JSString.length s + JSString.length t)%Z.
Proof. unfold JSString.length. rewrite strlen_app. lia. Qed.

Lemma length_nonneg s : (0 ≤ JSString.length s)%Z.
Proof. unfold JSString.length. lia. Qed.

Lemma length_cons a s : JSString.length (String a s) = (1 + JSString.length s)%Z.
Proof. unfold JSString.length. simpl. lia. Qed.

(** [String.substring 0 n] is the prefix of at most [n] code units. *)
Lemma prefix_length n s :
  String.length (String.substring 0 n s) = Nat.min n (String.length s).
Proof.
  revert n. induction s as [|a s IH]; intros [|n]; simpl; try done.
  by rewrite IH.
Qed.

Lemma prefix_split n s :
  ∃ rest, s = String.substring 0 n s +:+ rest.
Proof.
  revert n. induction s as [|a s IH]; intros [|n]; simpl.
  - by exists "".
  - by exists "".
  - by exists (String a s).
  - destruct (IH n) as [rest Hrest]. exists rest.
    rewrite app_cons. by rewrite <- Hrest.
Qed.

Lemma clamp_0 s : JSString.clamp s 0 = 0%nat.
Proof. unfold JSString.clamp. pose proof (length_nonneg s). lia. Qed.

(** [s.substring(0, m)] is that prefix, for any [m]. *)
Lemma substring_0 s m :
  JSString.substring s 0 m = String.substring 0 (JSString.clamp s m) s.
Proof.
  unfold JSString.substring. rewrite clamp_0.
  by rewrite Nat.min_0_l, Nat.max_0_l, Nat.sub_0_r.
Qed.

Lemma substring_0_length s m :
  JSString.length (JSString.substring s 0 m)
  = Z.min (Z.max m 0) (JSString.length s).
Proof.
  rewrite substring_0. unfold JSString.length at 1. rewrite prefix_length.
  unfold JSString.clamp, JSString.length.
  lia.
Qed.

Lemma substring_0_prefix s m :
  ∃ rest, s = JSString.substring s 0 m +:+ rest.
Proof. rewrite substring_0. apply prefix_split. Qed.

Lemma has_char_app c s t :
  JSString.has_char c (s +:+ t) = JSString.has_char c s || JSString.has_char c t.
Proof.
  induction s as [|a s IH]; [done|].
  rewrite app_cons. simpl. rewrite IH. by rewrite orb_assoc.
Qed.

Lemma occurs_in_app_r sub s t : JSString.occurs_in sub t → JSString.occurs_in sub (s +:+ t).
Proof.
  intros (b & a & ->). exists (s +:+ b), a. by rewrite app_assoc.
Qed.

Lemma occurs_in_app_l sub s t : JSString.occurs_in sub s → JSString.occurs_in sub (s +:+ t).
Proof.
  intros (b & a & ->). exists b, (a +:+ t). by rewrite !app_assoc.
Qed.

Lemma occurs_in_head sub t : JSString.occurs_in sub (sub +:+ t).
Proof. by exists "", t. Qed.

Lemma afterLast_app c s t :
  JSString.has_char c t = false → JSString.afterLast c (s +:+ String c t) = t.
Proof.
  intros Ht. induction s as [|a s IH].
  - rewrite app_nil_l. simpl. by rewrite Ht.
  - rewrite app_cons. simpl. rewrite has_char_app. simpl.
    rewrite Ascii.eqb_refl. rewrite orb_true_r. simpl. exact IH.
Qed.

End StringFacts.

(** ** Decimal numerals *)

Section Numerals.

Lemma pretty_N_char_not_underscore x : pretty_N_char x ≠ "_"%char.
Proof. unfold pretty_N_char. repeat case_match; discriminate. Qed.

Lemma pretty_N_go_no_underscore x s :
  JSString.has_char "_" s = false →
  JSString.has_char "_" (pretty_N_go x s) = false.
Proof.
  revert s. induction (N.lt_wf_0 x) as [x _ IH]; intros s Hs.
  destruct (decide (x = 0)%N) as [->|Hx]; [by rewrite pretty_N_go_0|].
  rewrite pretty_N_go_step by lia.
  apply IH; [apply N.div_lt; lia|].
  simpl. rewrite Hs, orb_false_r.
  apply Ascii.eqb_neq, pretty_N_char_not_underscore.
Qed.

Lemma ofN_no_underscore n : JSString.has_char "_" (JSString.ofN n) = false.
Proof.
  unfold JSString.ofN, pretty, pretty_N. case_decide; [done|].
  by apply pretty_N_go_no_underscore.
Qed.

Lemma pretty_N_go_length x s (k : nat) :
  (x < 10 ^ N.of_nat k)%N →
  (String.length (pretty_N_go x s) ≤ k + String.length s)%nat.
Proof.
  revert x s. induction k as [|k IH]; intros x s Hx.
  - assert (x = 0%N) as -> by (simpl in Hx; lia).
    rewrite pretty_N_go_0. lia.
  - destruct (decide (x = 0)%N) as [->|Hx0]; [rewrite pretty_N_go_0; lia|].
    rewrite pretty_N_go_step by lia.
    etrans; [apply IH|simpl; lia].
    rewrite Nat2N.inj_succ, N.pow_succ_r' in Hx.
    apply N.Div0.div_lt_upper_bound. lia.
Qed.

Lemma ofN_length n (k : nat) :
  (0 < k)%nat → (n < 10 ^ N.of_nat k)%N →
  (JSString.length (JSString.ofN n) ≤ Z.of_nat k)%Z.
Proof.
  intros Hk Hn. unfold JSString.length, JSString.ofN, pretty, pretty_N.
  case_decide.
  - simpl. lia.
  - pose proof (pretty_N_go_length n "" k Hn). simpl in *. lia.
Qed.

End Numerals.

(** ** Combiner: sheet names *)

Section NameFacts.

Implicit Types (combined : Workbook) (newName : string) (k j : N).

(** The truncated candidate keeps the worksheet name and cuts a prefix of
    the file name. *)
Lemma newSheetName_shape fileBaseName wsName :
  ∃ kept dropped,
    fileBaseName = kept +:+ dropped
    ∧ newSheetName fileBaseName wsName = kept +:+ "_" +:+ wsName.
Proof.
  unfold newSheetName. case_match.
  - destruct (substring_0_prefix fileBaseName
                (31 - JSString.length wsName - 1)) as [rest Hrest].
    by exists (JSString.substring fileBaseName 0
                 (31 - JSString.length wsName - 1)), rest.
  - exists fileBaseName, "". split; [|done].
    clear. induction fileBaseName as [|a s IH]; [done|].
    by rewrite app_cons, <- IH.
Qed.

Lemma newSheetName_length fileBaseName wsName :
  (31 < JSString.length (fileBaseName +:+ "_" +:+ wsName))%Z →
  JSString.length (newSheetName fileBaseName wsName)
  = Z.max 31 (JSString.length wsName + 1).
Proof.
  intros Hlong. unfold newSheetName.
  apply Z.ltb_lt in Hlong as Hb. rewrite Hb.
  rewrite !length_app, substring_0_length in *.
  change (JSString.length "_") with 1%Z in *.
  pose proof (length_nonneg wsName). pose proof (length_nonneg fileBaseName).
  lia.
Qed.

Lemma suffixedName_shape newName k :
  ∃ kept dropped,
    newName = kept +:+ dropped
    ∧ suffixedName newName k = kept +:+ "_" +:+ JSString.ofN k.
Proof.
  unfold suffixedName.
  destruct (substring_0_prefix newName
              (31 - JSString.length ("_" +:+ JSString.ofN k))) as [rest Hrest].
  by exists (JSString.substring newName 0
               (31 - JSString.length ("_" +:+ JSString.ofN k))), rest.
Qed.

Lemma suffixedName_length newName k :
  (JSString.length ("_" +:+ JSString.ofN k) ≤ 31)%Z →
  (JSString.length (suffixedName newName k) ≤ 31)%Z.
Proof.
  intros Hs. unfold suffixedName.
  rewrite length_app, substring_0_length.
  pose proof (length_nonneg newName). lia.
Qed.

Lemma suffix_length_bound k :
  (k < 10 ^ 30)%N → (JSString.length ("_" +:+ JSString.ofN k) ≤ 31)%Z.
Proof.
  intros Hk. rewrite length_app. change (JSString.length "_") with 1%Z.
  pose proof (ofN_length k 30 ltac:(lia) Hk). lia.
Qed.

(** Distinct counters give distinct names: the digits after the last
    underscore are those of the counter. *)
Lemma suffixedName_inj newName : Inj (=) (=) (suffixedName newName).
Proof.
  intros j k Heq.
  destruct (suffixedName_shape newName j) as (kj & dj & _ & Hj).
  destruct (suffixedName_shape newName k) as (kk & dk & _ & Hk).
  rewrite Hj, Hk in Heq.
  apply (f_equal (JSString.afterLast "_")) in Heq.
  change ("_" +:+ JSString.ofN j) with (String "_" (JSString.ofN j)) in Heq.
  change ("_" +:+ JSString.ofN k) with (String "_" (JSString.ofN k)) in Heq.
  rewrite !afterLast_app in Heq by apply ofN_no_underscore.
  by apply (inj pretty) in Heq.
Qed.

Lemma nameTaken_takenNames combined nm :
  nameTaken combined nm = true → nm ∈ takenNames combined.
Proof.
  unfold nameTaken, Sheets_get, takenNames. intros Ht.
  destruct (Sheets combined !! nm) eqn:Hl.
  - apply elem_of_union_l, elem_of_dom. eauto.
  - case_bool_decide; [|done].
    apply elem_of_union_r. by apply elem_of_list_to_set.
Qed.

Lemma takenNames_size combined :
  (size (takenNames combined)
   ≤ size (Sheets combined) + length Object_prototype_keys)%nat.
Proof.
  unfold takenNames.
  rewrite size_union_alt, size_dom.
  apply Nat.add_le_mono_l.
  etrans; [apply subseteq_size, subseteq_difference_l; reflexivity|].
  rewrite size_list_to_set; [done|].
  by apply (bool_decide_unpack _).
Qed.

End NameFacts.

Section UniqueName.

Implicit Types (combined : Workbook) (newName : string) (k j : N).

(** Among the first [size + 1] suffixed names one is free. *)
Lemma free_suffix_exists combined newName :
  ∃ k, (1 ≤ k < 1 + N.of_nat (uniqueNameFuel combined))%N
       ∧ nameTaken combined (suffixedName newName k) = false.
Proof.
  set (m := (size (Sheets combined) + length Object_prototype_keys)%nat).
  set (cands := (λ i : nat, suffixedName newName (N.of_nat i)) <$> seq 1 (S m)).
  destruct (decide (Forall (λ nm, nameTaken combined nm = true) cands))
    as [Hall|Hsome].
  - exfalso.
    assert (NoDup cands) as Hnd.
    { apply NoDup_fmap_2_strong; [|apply NoDup_seq].
      intros i j _ _ Hij. apply suffixedName_inj in Hij. lia. }
    assert (list_to_set cands ⊆ takenNames combined) as Hsub.
    { intros nm Hnm. apply elem_of_list_to_set in Hnm.
      rewrite Forall_forall in Hall. by apply nameTaken_takenNames, Hall. }
    apply subseteq_size in Hsub.
    rewrite size_list_to_set in Hsub by done.
    pose proof (takenNames_size combined).
    unfold cands in Hsub. rewrite length_fmap, length_seq in Hsub.
    fold m in H. lia.
  - apply not_Forall_Exists in Hsome; [|intros nm; apply _].
    apply Exists_exists in Hsome as (nm & Hin & Hfree).
    apply list_elem_of_fmap in Hin as (i & -> & Hi).
    apply elem_of_seq in Hi.
    exists (N.of_nat i). split.
    + unfold uniqueNameFuel. fold m. lia.
    + apply not_true_is_false, Hfree.
Qed.

Lemma uniqueNameLoop_free fuel combined newName k finalSheetName :
  nameTaken combined finalSheetName = false →
  uniqueNameLoop fuel combined newName k finalSheetName = Some finalSheetName.
Proof. intros Hfree. destruct fuel; simpl; by rewrite Hfree. Qed.

(** With a free suffixed name within reach of the fuel, the loop returns the
    current name if it is free, and otherwise the first free suffixed name. *)
Lemma uniqueNameLoop_spec fuel combined newName k finalSheetName :
  (∃ j, (k ≤ j < k + N.of_nat fuel)%N
        ∧ nameTaken combined (suffixedName newName j) = false) →
  ∃ result,
    uniqueNameLoop fuel combined newName k finalSheetName = Some result
    ∧ nameTaken combined result = false
    ∧ ((nameTaken combined finalSheetName = false ∧ result = finalSheetName)
       ∨ (nameTaken combined finalSheetName = true
          ∧ ∃ j, (k ≤ j)%N ∧ result = suffixedName newName j
                 ∧ ∀ i, (k ≤ i < j)%N →
                        nameTaken combined (suffixedName newName i) = true)).
Proof.
  revert k finalSheetName.
  induction fuel as [|fuel IH]; intros k finalSheetName (j & Hj & Hfree).
  { lia. }
  destruct (nameTaken combined finalSheetName) eqn:Hcur.
  2:{ exists finalSheetName. rewrite uniqueNameLoop_free by done. auto. }
  simpl. rewrite Hcur.
  destruct (nameTaken combined (suffixedName newName k)) eqn:Hk.
  - destruct (IH (k + 1)%N (suffixedName newName k)) as (res & Hres & Hfr & Hcase).
    { exists j. split; [|done].
      assert (j ≠ k) by (intros ->; congruence). lia. }
    exists res. split; [done|]. split; [done|]. right. split; [done|].
    destruct Hcase as [[Hno _]|(_ & i & Hi & -> & Hbelow)]; [congruence|].
    exists i. split; [lia|]. split; [done|].
    intros i' Hi'. destruct (decide (i' = k)) as [->|]; [done|].
    apply Hbelow. lia.
  - exists (suffixedName newName k).
    rewrite uniqueNameLoop_free by done.
    split; [done|]. split; [done|]. right. split; [done|].
    exists k. split; [lia|]. split; [done|]. intros i Hi. lia.
Qed.

(** The loop as the service runs it always ends, on a free name. *)
Lemma uniqueName_spec combined newName :
  ∃ finalSheetName,
    uniqueName combined newName = Some finalSheetName
    ∧ nameTaken combined finalSheetName = false
    ∧ ((nameTaken combined newName = false ∧ finalSheetName = newName)
       ∨ (nameTaken combined newName = true
          ∧ ∃ k, (1 ≤ k)%N ∧ finalSheetName = suffixedName newName k
                 ∧ ∀ j, (1 ≤ j < k)%N →
                        nameTaken combined (suffixedName newName j) = true)).
Proof.
  apply uniqueNameLoop_spec, free_suffix_exists.
Qed.

End UniqueName.

(** ** Combiner: the run *)

Section CombineRun.

Context {T : Type}.

Implicit Types (st : CombineState T) (onProgress : option (Z → T → T)).

Lemma combineSheet_total onProgress total a base ws st :
  ∃ st', combineSheet onProgress total a base ws st = Some st'.
Proof.
  unfold combineSheet.
  destruct (uniqueName_spec (combinedWorkbook st)
              (newSheetName base (ws_name ws))) as (nm & -> & _).
  eauto.
Qed.

Lemma combineSheets_total onProgress total a base sheets st :
  ∃ st', combineSheets onProgress total a base sheets st = Some st'.
Proof.
  revert st. induction sheets as [|ws sheets IH]; intros st; simpl; [eauto|].
  destruct (combineSheet_total onProgress total a base ws st) as [st1 ->].
  apply IH.
Qed.

Lemma combineAnalyses_total onProgress total analyses st :
  ∃ st', combineAnalyses onProgress total analyses st = Some st'.
Proof.
  revert st. induction analyses as [|a analyses IH]; intros st; simpl; [eauto|].
  destruct (combineSheets_total onProgress total a
              (JSString.stripExtension (fi_name (file a))) (worksheets a) st)
    as [st1 ->].
  apply IH.
Qed.

Lemma namesRegistered_new : namesRegistered book_new.
Proof.
  split; [apply NoDup_nil_2|]. intros nm Hnm. by apply elem_of_nil in Hnm.
Qed.

Lemma combineSheet_registered onProgress total a base ws st st' :
  slot_truthy (Sheets_get (Sheets (workbook a)) (ws_name ws)) = true →
  namesRegistered (combinedWorkbook st) →
  combineSheet onProgress total a base ws st = Some st' →
  namesRegistered (combinedWorkbook st').
Proof.
  intros Hsheet [Hnd Hreg] Hstep. unfold combineSheet in Hstep.
  destruct (uniqueName_spec (combinedWorkbook st)
              (newSheetName base (ws_name ws))) as (nm & Hnm & Hfree & _).
  rewrite Hnm in Hstep. injection Hstep as <-. simpl.
  assert (nm ∉ SheetNames (combinedWorkbook st)) as Hfresh.
  { intros Hin. apply Hreg in Hin. congruence. }
  split; simpl.
  - apply NoDup_app. split; [done|]. split; [|apply NoDup_singleton].
    intros x Hx ->%list_elem_of_singleton. done.
  - intros x Hx. unfold nameTaken, Sheets_get. simpl.
    apply elem_of_app in Hx as [Hx| ->%list_elem_of_singleton].
    + rewrite lookup_insert_ne by (intros ->; done). by apply Hreg.
    + by rewrite lookup_insert_eq.
Qed.

Lemma combineSheets_registered onProgress total a base sheets st st' :
  (∀ ws, ws ∈ sheets →
         slot_truthy (Sheets_get (Sheets (workbook a)) (ws_name ws)) = true) →
  namesRegistered (combinedWorkbook st) →
  combineSheets onProgress total a base sheets st = Some st' →
  namesRegistered (combinedWorkbook st').
Proof.
  revert st. induction sheets as [|ws sheets IH]; intros st Hall Hreg Hrun;
    simpl in Hrun.
  - by injection Hrun as <-.
  - destruct (combineSheet onProgress total a base ws st) as [st1|] eqn:Hstep;
      [|done].
    apply (IH st1); [| |done].
    + intros ws' Hws'. apply Hall. by right.
    + eapply combineSheet_registered; [|done..]. apply Hall. by left.
Qed.

Lemma combineAnalyses_registered onProgress total analyses st st' :
  Forall sheetsPresent analyses →
  namesRegistered (combinedWorkbook st) →
  combineAnalyses onProgress total analyses st = Some st' →
  namesRegistered (combinedWorkbook st').
Proof.
  revert st. induction analyses as [|a analyses IH]; intros st Hall Hreg Hrun;
    simpl in Hrun.
  - by injection Hrun as <-.
  - apply Forall_cons in Hall as [Ha Hall].
    destruct (combineSheets onProgress total a _ (worksheets a) st)
      as [st1|] eqn:Hstep; [|done].
    apply (IH st1); [done| |done].
    eapply combineSheets_registered; [|done..].
    intros ws Hws. unfold sheetsPresent in Ha. rewrite Forall_forall in Ha.
    by apply Ha.
Qed.

End CombineRun.

(** ** Combiner: how the names are assigned *)

Section AssignedNames.
Context {T : Type}.
Implicit Types (st : CombineState T) (onProgress : option (Z → T → T)).

Lemma listedTaken_new : listedTaken book_new.
Proof.
  intros nm. unfold nameTaken, Sheets_get, collides. simpl.
  rewrite lookup_empty. case_bool_decide; simpl.
  - split; [by right|done].
  - split; [done|]. intros [Hin|Hin]; [by apply elem_of_nil in Hin|done].
Qed.

Lemma uniqueName_assigned combined candidate finalName :
  listedTaken combined →
  uniqueName combined candidate = Some finalName →
  assignedName (SheetNames combined) candidate finalName.
Proof.
  intros Htaken Hrun.
  destruct (uniqueName_spec combined candidate) as (nm & Hnm & Hfree & Hcase).
  rewrite Hrun in Hnm. injection Hnm as <-.
  assert (∀ x, nameTaken combined x = false ↔ ¬ collides (SheetNames combined) x)
    as Hfalse.
  { intros x. pose proof (Htaken x) as Hx.
    destruct (nameTaken combined x).
    - split; [done|]. intros Hnot. exfalso. by apply Hnot, Hx.
    - split; [|done]. intros _ Hc. by apply Hx in Hc. }
  split; [by apply Hfalse|].
  destruct Hcase as [[Hc ->]|(Hc & k & Hk & -> & Hbelow)].
  - left. split; [by apply Hfalse|done].
  - right. split; [by apply Htaken|]. exists k. split; [done|]. split; [done|].
    split; [intros j Hj; by apply Htaken, Hbelow|].
    split; [apply suffixedName_shape|].
    intros Hsmall. by apply suffixedName_length, suffix_length_bound.
Qed.

Lemma combineSheet_assigned onProgress total a base ws st st' :
  slot_truthy (Sheets_get (Sheets (workbook a)) (ws_name ws)) = true →
  listedTaken (combinedWorkbook st) →
  combineSheet onProgress total a base ws st = Some st' →
  ∃ finalName,
    SheetNames (combinedWorkbook st')
    = SheetNames (combinedWorkbook st) ++ [finalName]
    ∧ assignedName (SheetNames (combinedWorkbook st))
        (newSheetName base (ws_name ws)) finalName
    ∧ listedTaken (combinedWorkbook st').
Proof.
  intros Hsheet Htaken Hstep. unfold combineSheet in Hstep.
  set (slot := Sheets_get (Sheets (workbook a)) (ws_name ws)) in *.
  destruct (uniqueName (combinedWorkbook st) (newSheetName base (ws_name ws)))
    as [nm|] eqn:Hnm; [|done].
  injection Hstep as <-. exists nm. split; [done|].
  split; [by apply uniqueName_assigned|].
  intros x. unfold nameTaken, Sheets_get, collides. simpl.
  destruct (decide (x = nm)) as [->|Hne].
  - rewrite lookup_insert_eq, Hsheet. split; [|done].
    intros _. left. apply elem_of_app. right. by left.
  - rewrite lookup_insert_ne by done.
    specialize (Htaken x). unfold nameTaken, Sheets_get, collides in Htaken.
    rewrite Htaken, elem_of_app, list_elem_of_singleton. tauto.
Qed.

Lemma combineSheets_assigned onProgress total a base sheets st st' :
  Forall (λ ws, slot_truthy (Sheets_get (Sheets (workbook a)) (ws_name ws)) = true)
         sheets →
  listedTaken (combinedWorkbook st) →
  combineSheets onProgress total a base sheets st = Some st' →
  ∃ finals,
    SheetNames (combinedWorkbook st') = SheetNames (combinedWorkbook st) ++ finals
    ∧ listedTaken (combinedWorkbook st')
    ∧ ∀ more moreFinals,
        assignedFrom (SheetNames (combinedWorkbook st')) more moreFinals →
        assignedFrom (SheetNames (combinedWorkbook st))
          (((λ ws, newSheetName base (ws_name ws)) <$> sheets) ++ more)
          (finals ++ moreFinals).
Proof.
  revert st. induction sheets as [|ws sheets IH]; intros st Hall Htaken Hrun;
    simpl in Hrun.
  - injection Hrun as <-. exists []. rewrite app_nil_r. done.
  - apply Forall_cons in Hall as [Hws Hall].
    destruct (combineSheet onProgress total a base ws st) as [st1|] eqn:Hstep;
      [|done].
    destruct (combineSheet_assigned _ _ _ _ _ _ _ Hws Htaken Hstep)
      as (finalName & Hnames1 & Hassigned & Htaken1).
    destruct (IH st1 Hall Htaken1 Hrun) as (finals & Hnames & Htaken' & Hrest).
    exists (finalName :: finals). split; [|split; [done|]].
    + by rewrite Hnames, Hnames1, <- (assoc_L (++)).
    + intros more moreFinals Hmore. simpl. split; [done|].
      rewrite <- Hnames1. by apply Hrest.
Qed.

Lemma combineAnalyses_assigned onProgress total analyses st st' :
  Forall sheetsPresent analyses →
  listedTaken (combinedWorkbook st) →
  combineAnalyses onProgress total analyses st = Some st' →
  ∃ finals,
    SheetNames (combinedWorkbook st') = SheetNames (combinedWorkbook st) ++ finals
    ∧ assignedFrom (SheetNames (combinedWorkbook st)) (candidates analyses) finals.
Proof.
  revert st. induction analyses as [|a analyses IH]; intros st Hall Htaken Hrun;
    simpl in Hrun.
  - injection Hrun as <-. exists []. rewrite app_nil_r. done.
  - apply Forall_cons in Hall as [Ha Hall].
    destruct (combineSheets onProgress total a _ (worksheets a) st)
      as [st1|] eqn:Hstep; [|done].
    destruct (combineSheets_assigned _ _ _ _ _ _ _ Ha Htaken Hstep)
      as (finals1 & Hnames1 & Htaken1 & Hfirst).
    destruct (IH st1 Hall Htaken1 Hrun) as (finals & Hnames & Hrest).
    exists (finals1 ++ finals). split.
    + by rewrite Hnames, Hnames1, <- (assoc_L (++)).
    + unfold candidates. rewrite bind_cons. by apply Hfirst.
Qed.

End AssignedNames.

(** ** Combiner: the claims on sheet names *)

(** C1, at a failing input: a workbook whose only worksheet has a name of 31
    characters. The file name is cut down to nothing, the underscore is still
    put in front, and the name placed into the combined workbook has 32
    characters. *)
Theorem long_sheet_name_exceeds_limit :
  JSString.length longSheetName = 31%Z
  ∧ ∃ combined,
      combineAllSheets [sampleAnalysis "Q.xlsx" [longSheetName]]
                       (@None (Z → unit → unit)) tt
      = Some (combined, tt)
      ∧ SheetNames combined = ["_" +:+ longSheetName]
      ∧ Exists (λ nm, (31 < JSString.length nm)%Z) (SheetNames combined).
Proof.
  split; [reflexivity|].
  eexists. split; [vm_compute; reflexivity|].
  split; [reflexivity|].
  apply Exists_cons_hd. reflexivity.
Qed.

(** C2, as stated, fails: with a worksheet name of 31 characters the
    candidate exceeds 31 characters and so does the truncated candidate. *)
Lemma truncation_overlong_sheet_name :
  (31 < JSString.length ("Q" +:+ "_" +:+ longSheetName))%Z
  ∧ ¬ (JSString.length (newSheetName "Q" longSheetName) ≤ 31)%Z.
Proof. split; [reflexivity|]. vm_compute. intros H. by apply H. Qed.

(** C2, amended: for a worksheet whose name has at most 30 characters and
    whose candidate [<fileBaseName>_<originalSheetName>] exceeds 31
    characters, the truncated candidate has exactly 31 characters, and it is
    a prefix of the file base name followed by [_<originalSheetName>]: only
    the file-name part is shortened. *)
Theorem truncation_keeps_sheet_name fileBaseName wsName :
  (31 < JSString.length (fileBaseName +:+ "_" +:+ wsName))%Z →
  (JSString.length wsName ≤ 30)%Z →
  JSString.length (newSheetName fileBaseName wsName) = 31%Z
  ∧ ∃ kept dropped,
      fileBaseName = kept +:+ dropped
      ∧ newSheetName fileBaseName wsName = kept +:+ "_" +:+ wsName.
Proof.
  intros Hlong Hshort. split; [|apply newSheetName_shape].
  rewrite newSheetName_length by done. lia.
Qed.

Lemma truncation_keeps_sheet_name_witness :
  JSString.length (newSheetName "AnnualConsolidatedReport2024" "Sheet1") = 31%Z
  ∧ ∃ kept dropped,
      "AnnualConsolidatedReport2024" = kept +:+ dropped
      ∧ newSheetName "AnnualConsolidatedReport2024" "Sheet1"
        = kept +:+ "_" +:+ "Sheet1".
Proof.
  apply (truncation_keeps_sheet_name "AnnualConsolidatedReport2024" "Sheet1").
  - vm_compute. reflexivity.
  - vm_compute. intros H. discriminate H.
Defined.

(** C3, as stated, fails: two analyses that each list a worksheet their
    workbook does not hold. Nothing is stored under the first name, so the
    second worksheet gets the same name. *)
Lemma ghost_worksheets_share_a_name :
  ∃ combined,
    combineAllSheets [ghostAnalysis "f.xlsx"; ghostAnalysis "f.xls"]
                     (@None (Z → unit → unit)) tt
    = Some (combined, tt)
    ∧ SheetNames combined = ["f_Ghost"; "f_Ghost"]
    ∧ ¬ NoDup (SheetNames combined).
Proof.
  eexists. split; [vm_compute; reflexivity|]. split; [reflexivity|].
  simpl. intros Hnd. apply NoDup_cons in Hnd as [Hnot _]. apply Hnot. by left.
Qed.

(** C3, amended: for analyses whose listed worksheets are all found in their
    workbooks (as in every analysis the Analyzer returns), the Combiner
    returns a workbook whose sheet names are pairwise distinct, one per
    worksheet and in the order of the worksheets. The name of a worksheet is
    its (possibly truncated) candidate when that does not collide with a
    name assigned before it; otherwise it is the candidate re-truncated and
    followed by the suffix [_k] for the first [k = 1, 2, ...] whose suffixed
    candidate does not collide, and this name is within 31 characters (for a
    counter below 10^30). A name also collides when it is one of the
    property names a plain object inherits. *)
Theorem combined_names_distinct {T : Type} (workbookAnalyses : list Analysis)
    (onProgress : option (Z → T → T)) (t0 : T) :
  Forall sheetsPresent workbookAnalyses →
  ∃ combined t,
    combineAllSheets workbookAnalyses onProgress t0 = Some (combined, t)
    ∧ NoDup (SheetNames combined)
    ∧ assignedFrom [] (candidates workbookAnalyses) (SheetNames combined).
Proof.
  intros Hpresent. unfold combineAllSheets.
  destruct (combineAnalyses_total onProgress (countSheets workbookAnalyses)
              workbookAnalyses
              {| combinedWorkbook := book_new; processedSheets := 0;
                 callerState := t0 |}) as [st Hst].
  rewrite Hst. exists (combinedWorkbook st), (callerState st).
  split; [done|]. split.
  - eapply combineAnalyses_registered in Hst as [Hnd _];
      [done|done|apply namesRegistered_new].
  - apply combineAnalyses_assigned in Hst as (finals & Hnames & Hassigned);
      [|done|apply listedTaken_new].
    by rewrite Hnames.
Qed.

Lemma combined_names_distinct_witness :
  ∃ combined t,
    combineAllSheets [sampleAnalysis "north.xlsx" ["Sheet1"; "Totals"];
                      sampleAnalysis "north.xls" ["Sheet1"]]
                     recordProgress []
    = Some (combined, t)
    ∧ NoDup (SheetNames combined)
    ∧ assignedFrom []
        (candidates [sampleAnalysis "north.xlsx" ["Sheet1"; "Totals"];
                     sampleAnalysis "north.xls" ["Sheet1"]])
        (SheetNames combined).
Proof.
  apply (combined_names_distinct
           [sampleAnalysis "north.xlsx" ["Sheet1"; "Totals"];
            sampleAnalysis "north.xls" ["Sheet1"]] recordProgress []).
  repeat constructor.
Defined.

(** Two workbooks that each hold a sheet called [Sheet1]: both sheets are
    kept, under the base names of their files; with the same base name the
    second one gets the suffix, and a further clash cuts the candidate. *)
Example two_workbooks_with_Sheet1 :
  (fst <$> combineAllSheets [sampleAnalysis "north.xlsx" ["Sheet1"];
                             sampleAnalysis "south.xlsx" ["Sheet1"]]
                            (@None (Z → unit → unit)) tt)
  ≫= (λ combined, Some (SheetNames combined))
  = Some ["north_Sheet1"; "south_Sheet1"]
  ∧ (fst <$> combineAllSheets
               [sampleAnalysis "north.xlsx" ["Sheet1"];
                sampleAnalysis "north.xls" ["Sheet1"];
                sampleAnalysis "AnnualConsolidatedReport2024.xlsx"
                               ["Sheet1"; "Sheet1"]]
               (@None (Z → unit → unit)) tt)
    ≫= (λ combined, Some (SheetNames combined))
    = Some ["north_Sheet1"; "north_Sheet1_1";
            "AnnualConsolidatedReport_Sheet1";
            "AnnualConsolidatedReport_Shee_1"].
Proof. split; vm_compute; reflexivity. Qed.

(** ** Analyzer *)

Section AnalyzerFacts.

Variable readAsArrayBuffer : File → option (list Byte.byte).
Variable XLSX_read : list Byte.byte → option Workbook.
Variable decode_range : string → XLSX.Range.
Variable wallClock : nat → Z.

Local Abbreviation readWb :=
  (readWorkbook readAsArrayBuffer XLSX_read decode_range).
Local Abbreviation analyzeWb :=
  (analyzeWorkbook readAsArrayBuffer XLSX_read decode_range wallClock).
Local Abbreviation analyzeFrom :=
  (analyzeLoop readAsArrayBuffer XLSX_read decode_range wallClock).
Local Abbreviation analyzeMany :=
  (analyzeMultipleWorkbooks readAsArrayBuffer XLSX_read decode_range wallClock).

Lemma worksheetMeta_name wb nm index meta :
  worksheetMeta decode_range wb nm index = Some meta →
  ws_name meta = nm ∧ ws_index meta = index
  ∧ slot_truthy (Sheets_get (Sheets wb) nm) = true.
Proof.
  unfold worksheetMeta. intros H.
  destruct (Sheets_get (Sheets wb) nm); simplify_eq; done.
Qed.

Lemma worksheetMeta_extent wb nm index meta :
  worksheetMeta decode_range wb nm index = Some meta →
  let ref := slot_ref (Sheets_get (Sheets wb) nm) in
  hasData meta = ref_truthy ref
  ∧ (ref_truthy ref = false →
     rowCount meta = (XLSX.r (XLSX.e (decode_range "A1:A1")) + 1)%Z
     ∧ columnCount meta = (XLSX.c (XLSX.e (decode_range "A1:A1")) + 1)%Z)
  ∧ (∀ declared, ref = Some declared → declared ≠ "" →
     hasData meta = true
     ∧ rowCount meta = (XLSX.r (XLSX.e (decode_range declared)) + 1)%Z
     ∧ columnCount meta = (XLSX.c (XLSX.e (decode_range declared)) + 1)%Z).
Proof.
  intros H ref. unfold worksheetMeta in H.
  assert (meta =
    {| ws_name := nm; ws_index := index;
       rowCount := XLSX.r (XLSX.e (decode_range
                     (if ref_truthy ref then default "" ref else "A1:A1"))) + 1;
       columnCount := XLSX.c (XLSX.e (decode_range
                     (if ref_truthy ref then default "" ref else "A1:A1"))) + 1;
       hasData := ref_truthy ref |}) as ->.
  { subst ref. destruct (Sheets_get (Sheets wb) nm); simplify_eq; done. }
  simpl. split; [done|]. split.
  - intros ->. done.
  - intros declared Href Hne.
    assert (ref_truthy ref = true) as ->.
    { rewrite Href. simpl. by apply negb_true_iff, String.eqb_neq. }
    by rewrite Href.
Qed.

Lemma mapSheetNames_lookup wb names index metas :
  mapSheetNames decode_range wb names index = Some metas →
  ws_name <$> metas = names
  ∧ ∀ i nm, names !! i = Some nm →
      ∃ meta, metas !! i = Some meta
              ∧ worksheetMeta decode_range wb nm (index + i) = Some meta.
Proof.
  revert index metas.
  induction names as [|nm names IH]; intros index metas Hmap; simpl in Hmap.
  - simplify_eq. split; [done|]. intros i nm' Hi. by destruct i.
  - destruct (worksheetMeta decode_range wb nm index) as [meta|] eqn:Hmeta;
      [|done].
    destruct (mapSheetNames decode_range wb names (S index)) as [rest|] eqn:Hrest;
      [|done].
    simplify_eq. destruct (IH _ _ Hrest) as [Hnames Hlook].
    split.
    + simpl. f_equal; [|done]. by apply worksheetMeta_name in Hmeta as [? _].
    + intros [|i] nm' Hi; simpl in Hi.
      * simplify_eq. exists meta. by rewrite Nat.add_0_r.
      * destruct (Hlook i nm' Hi) as (meta' & ? & ?).
        exists meta'. split; [done|].
        by replace (index + S i)%nat with (S index + i)%nat by lia.
Qed.

(** What a successful analysis holds. *)
Lemma analyzeWorkbook_inl f t a t' :
  analyzeWb f t = (inl a, t') →
  ∃ metas,
    readWb f = inl (metas, workbook a)
    ∧ worksheets a = metas
    ∧ mapSheetNames decode_range (workbook a) (SheetNames (workbook a)) 0
      = Some metas
    ∧ fi_name (file a) = JSFile.name f
    ∧ Id (file a) = wallClock t
    ∧ t' = S (S t).
Proof.
  unfold analyzeWorkbook, readWorkbook, throw.
  intros H.
  destruct (readAsArrayBuffer f) as [data|]; [|simplify_eq].
  destruct (XLSX_read data) as [wb|]; [|simplify_eq].
  destruct (mapSheetNames decode_range wb (SheetNames wb) 0) as [metas|] eqn:Hm;
    simplify_eq.
  exists metas. simpl. by rewrite Hm.
Qed.

(** The analyses the Analyzer builds list only worksheets of the workbook. *)
Lemma analyzeWorkbook_sheetsPresent f t a t' :
  analyzeWb f t = (inl a, t') → sheetsPresent a.
Proof.
  intros (metas & _ & Hws & Hmap & _)%analyzeWorkbook_inl.
  unfold sheetsPresent. rewrite Hws. clear Hws.
  revert Hmap. generalize 0%nat. generalize (SheetNames (workbook a)).
  intros names. revert metas.
  induction names as [|nm names IH]; intros metas index Hmap; simpl in Hmap.
  - simplify_eq. constructor.
  - destruct (worksheetMeta decode_range (workbook a) nm index) as [meta|] eqn:Hmeta;
      [|done].
    destruct (mapSheetNames decode_range (workbook a) names (S index))
      as [rest|] eqn:Hrest; [|done].
    simplify_eq. constructor; [|by eapply IH].
    apply worksheetMeta_name in Hmeta as (-> & _ & Hok). done.
Qed.

Lemma analyzeWorkbook_inr f t message :
  readWb f = inr message → analyzeWb f t = (inr message, t).
Proof. unfold analyzeWorkbook. by intros ->. Qed.

Lemma analyzeWorkbook_ok f t metas wb :
  readWb f = inl (metas, wb) →
  ∃ a, analyzeWb f t = (inl a, S (S t))
       ∧ fi_name (file a) = JSFile.name f
       ∧ worksheets a = metas ∧ workbook a = wb.
Proof. unfold analyzeWorkbook. intros ->. eauto. Qed.

(** A batch of readable workbooks is analyzed in input order; each file
    costs three readings of the clock. *)
Lemma analyzeLoop_ok files fileIndex results t :
  Forall (λ g, ∃ v, readWb g = inl v) files →
  ∃ analyses,
    analyzeFrom files fileIndex results t
    = (inl (results ++ analyses), (t + 3 * length files)%nat)
    ∧ Forall2 (λ g a, fi_name (file a) = JSFile.name g
                      ∧ readWb g = inl (worksheets a, workbook a))
              files analyses.
Proof.
  revert fileIndex results t.
  induction files as [|g files IH]; intros fileIndex results t Hall; simpl.
  - exists []. rewrite app_nil_r, Nat.add_0_r. split; [done|constructor].
  - apply Forall_cons in Hall as [[[metas wb] Hg] Hall].
    destruct (analyzeWorkbook_ok g t metas wb Hg) as (a & -> & Hn & Hm & Hw).
    destruct (IH (fileIndex + 1)%Z
                 (results ++ [set_Id a (wallClock (S (S t)) + fileIndex)])
                 (S (S (S t))) Hall) as (rest & -> & Hrest).
    exists (set_Id a (wallClock (S (S t)) + fileIndex) :: rest).
    rewrite <- (assoc_L (++)). simpl. split; [f_equal; lia|].
    constructor; [|done]. simpl. by rewrite Hn, Hm, Hw.
Qed.

(** The first unreadable workbook ends the batch with an error. *)
Lemma analyzeLoop_abort pre f post fileIndex results t message :
  Forall (λ g, ∃ v, readWb g = inl v) pre →
  readWb f = inr message →
  analyzeFrom (pre ++ f :: post) fileIndex results t
  = (inr ("Failed to analyze " +:+ JSFile.name f +:+ ": " +:+ message),
     (t + 3 * length pre)%nat).
Proof.
  revert fileIndex results t.
  induction pre as [|g pre IH]; intros fileIndex results t Hall Hf; simpl.
  - rewrite (analyzeWorkbook_inr f t message Hf). by rewrite Nat.add_0_r.
  - apply Forall_cons in Hall as [[[metas wb] Hg] Hall].
    destruct (analyzeWorkbook_ok g t metas wb Hg) as (a & -> & _).
    rewrite IH by done. f_equal. lia.
Qed.

Lemma sheetsPresent_set_Id a v : sheetsPresent (set_Id a v) ↔ sheetsPresent a.
Proof. done. Qed.

(** What a successful batch holds: analyses of worksheets found in their
    workbooks, the one of position [i] with the identifier read at its turn
    plus its index. *)
Lemma analyzeLoop_inl files fileIndex results t out t' :
  analyzeFrom files fileIndex results t = (inl out, t') →
  ∃ analyses,
    out = results ++ analyses
    ∧ length analyses = length files
    ∧ Forall sheetsPresent analyses
    ∧ ∀ i a, analyses !! i = Some a →
        Id (file a)
        = (wallClock (t + 3 * i + 2)%nat + (fileIndex + Z.of_nat i))%Z.
Proof.
  revert fileIndex results t.
  induction files as [|g files IH]; intros fileIndex results t Hrun;
    simpl in Hrun.
  - simplify_eq. exists []. rewrite app_nil_r.
    split; [done|]. split; [done|]. split; [constructor|].
    intros i a Hi. by rewrite lookup_nil in Hi.
  - destruct (analyzeWb g t) as [[a|message] t1] eqn:Hg; [|done].
    pose proof (analyzeWorkbook_sheetsPresent _ _ _ _ Hg) as Hpresent.
    apply analyzeWorkbook_inl in Hg as (_ & _ & _ & _ & _ & _ & ->).
    apply IH in Hrun as (rest & -> & Hlen & Hall & Hids).
    exists (set_Id a (wallClock (S (S t)) + fileIndex) :: rest).
    rewrite <- (assoc_L (++)). split; [done|].
    split; [simpl; by rewrite Hlen|].
    split; [by constructor|].
    intros [|i] b Hb; simpl in Hb.
    + simplify_eq.
      assert ((t + 3 * 0 + 2)%nat = S (S t)) as -> by lia.
      unfold set_Id. simpl. lia.
    + rewrite (Hids i b Hb).
      assert ((S (S (S t)) + 3 * i + 2)%nat = (t + 3 * S i + 2)%nat) as ->
        by lia.
      lia.
Qed.

(** The analyses of a batch list only worksheets of their workbooks. *)
Lemma analyzeMany_sheetsPresent files t analyses t' :
  analyzeMany files t = (inl analyses, t') → Forall sheetsPresent analyses.
Proof.
  intros (out & -> & _ & Hall & _)%analyzeLoop_inl. done.
Qed.

(** Within one batch, if the clock never goes back, the identifiers
    increase with the position. Across calls, whether two identifiers differ
    depends on how far the clock has advanced in between. *)
Lemma batch_ids_increase files t analyses t' :
  (∀ m n, (m ≤ n)%nat → (wallClock m ≤ wallClock n)%Z) →
  analyzeMany files t = (inl analyses, t') →
  ∀ i j a b, (i < j)%nat →
    analyses !! i = Some a → analyses !! j = Some b →
    (Id (file a) < Id (file b))%Z.
Proof.
  intros Hclock (out & -> & _ & _ & Hids)%analyzeLoop_inl i j a b Hij Ha Hb.
  simpl in Ha, Hb. rewrite (Hids i a Ha), (Hids j b Hb).
  pose proof (Hclock (t + 3 * i + 2)%nat (t + 3 * j + 2)%nat ltac:(lia)).
  lia.
Qed.

(** C5: batch analysis goes through the files in input order and stops at
    the first one that cannot be analyzed. When the files before [f] can be
    analyzed and [f] cannot, the batch returns no result list but the error
    [Failed to analyze <name of f>: <reason>], whatever files come after
    [f] and without reading the clock for them; the files before [f] are
    exactly those analyzed, in their order. The message contains the name
    of [f]. *)
Theorem analyzeMany_fail_fast pre f post message t :
  Forall (λ g, ∃ v, readWb g = inl v) pre →
  readWb f = inr message →
  let failure :=
    "Failed to analyze " +:+ JSFile.name f +:+ ": " +:+ message in
  analyzeMany (pre ++ f :: post) t = (inr failure, (t + 3 * length pre)%nat)
  ∧ JSString.occurs_in (JSFile.name f) failure
  ∧ ∃ analyses,
      analyzeMany pre t = (inl analyses, (t + 3 * length pre)%nat)
      ∧ Forall2 (λ g a, fi_name (file a) = JSFile.name g
                        ∧ readWb g = inl (worksheets a, workbook a))
                pre analyses.
Proof.
  intros Hpre Hf failure. split; [|split].
  - by apply analyzeLoop_abort.
  - apply occurs_in_app_r, occurs_in_head.
  - destruct (analyzeLoop_ok pre 0 [] t Hpre) as (analyses & Hrun & Hrel).
    exists analyses. by split.
Qed.

(** C7, amended: in a successful analysis the worksheets are listed in the
    order of the workbook's sheet names, each with its position as index. A
    worksheet with no declared used range (['!ref'] absent or empty) has row
    count 1, column count 1 and [hasData] false. A worksheet with a declared
    used range has [hasData] true; its row count is the number of the last
    row of that range and its column count the number of the last column,
    counted from one. The row count is the number of rows the range spans
    exactly when the range starts in the first row, and the column count the
    number of columns it spans exactly when it starts in the first column. *)
Theorem analyzeWorkbook_worksheets f t a t' :
  decode_range "A1:A1"
  = {| XLSX.s := {| XLSX.r := 0; XLSX.c := 0 |};
       XLSX.e := {| XLSX.r := 0; XLSX.c := 0 |} |} →
  analyzeWb f t = (inl a, t') →
  ws_name <$> worksheets a = SheetNames (workbook a)
  ∧ ∀ i nm, SheetNames (workbook a) !! i = Some nm →
      ∃ meta,
        worksheets a !! i = Some meta
        ∧ ws_name meta = nm
        ∧ ws_index meta = i
        ∧ let ref := slot_ref (Sheets_get (Sheets (workbook a)) nm) in
          (ref_truthy ref = false →
           rowCount meta = 1%Z ∧ columnCount meta = 1%Z
           ∧ hasData meta = false)
          ∧ (∀ declared, ref = Some declared → declared ≠ "" →
             hasData meta = true
             ∧ rowCount meta = (XLSX.r (XLSX.e (decode_range declared)) + 1)%Z
             ∧ columnCount meta
               = (XLSX.c (XLSX.e (decode_range declared)) + 1)%Z
             ∧ (rowCount meta = rangeRows (decode_range declared)
                ↔ XLSX.r (XLSX.s (decode_range declared)) = 0%Z)
             ∧ (columnCount meta = rangeColumns (decode_range declared)
                ↔ XLSX.c (XLSX.s (decode_range declared)) = 0%Z)).
Proof.
  intros Horigin (metas & _ & Hws & Hmap & _)%analyzeWorkbook_inl.
  rewrite Hws. apply mapSheetNames_lookup in Hmap as [Hnames Hlook].
  split; [done|]. intros i nm Hi.
  destruct (Hlook i nm Hi) as (meta & Hmeta & Hbuilt).
  exists meta. split; [done|].
  destruct (worksheetMeta_name _ _ _ _ Hbuilt) as (Hn & Hidx & _).
  split; [done|]. split; [done|].
  destruct (worksheetMeta_extent _ _ _ _ Hbuilt) as (Hdata & Hnone & Hsome).
  intros ref. split.
  - intros Hfalse. destruct (Hnone Hfalse) as [Hr Hc].
    rewrite Horigin in Hr, Hc. simpl in Hr, Hc.
    split; [done|]. split; [done|]. by rewrite Hdata.
  - intros declared Href Hne.
    destruct (Hsome declared Href Hne) as (Hhas & Hr & Hc).
    split; [done|]. split; [done|]. split; [done|].
    rewrite Hr, Hc. unfold rangeRows, rangeColumns. lia.
Qed.

End AnalyzerFacts.

Lemma analyzeMany_fail_fast_witness :
  analyzeMultipleWorkbooks sampleReader sampleCodec sampleDecodeRange sampleClock
    [sampleFile "A.xlsx"; sampleFile "B.xlsx"; sampleFile "C.xlsx"] 0
  = (inr ("Failed to analyze B.xlsx: "
          +:+ "Failed to read Excel file. Please ensure it is not corrupted."),
     3%nat).
Proof.
  apply (analyzeMany_fail_fast sampleReader sampleCodec sampleDecodeRange
           sampleClock [sampleFile "A.xlsx"] (sampleFile "B.xlsx")
           [sampleFile "C.xlsx"]
           "Failed to read Excel file. Please ensure it is not corrupted." 0).
  - repeat constructor. eexists. vm_compute. reflexivity.
  - vm_compute. reflexivity.
Defined.

Lemma analyzeWorkbook_worksheets_witness :
  ws_name <$> worksheets sampleAnalyzed = SheetNames (workbook sampleAnalyzed)
  ∧ ∀ i nm, SheetNames (workbook sampleAnalyzed) !! i = Some nm →
      ∃ meta,
        worksheets sampleAnalyzed !! i = Some meta
        ∧ ws_name meta = nm
        ∧ ws_index meta = i
        ∧ let ref := slot_ref (Sheets_get (Sheets (workbook sampleAnalyzed)) nm) in
          (ref_truthy ref = false →
           rowCount meta = 1%Z ∧ columnCount meta = 1%Z
           ∧ hasData meta = false)
          ∧ (∀ declared, ref = Some declared → declared ≠ "" →
             hasData meta = true
             ∧ rowCount meta
               = (XLSX.r (XLSX.e (sampleDecodeRange declared)) + 1)%Z
             ∧ columnCount meta
               = (XLSX.c (XLSX.e (sampleDecodeRange declared)) + 1)%Z
             ∧ (rowCount meta = rangeRows (sampleDecodeRange declared)
                ↔ XLSX.r (XLSX.s (sampleDecodeRange declared)) = 0%Z)
             ∧ (columnCount meta = rangeColumns (sampleDecodeRange declared)
                ↔ XLSX.c (XLSX.s (sampleDecodeRange declared)) = 0%Z)).
Proof.
  apply (analyzeWorkbook_worksheets sampleReader sampleCodec sampleDecodeRange
           sampleClock (sampleFile "A.xlsx") 0 sampleAnalyzed 2).
  - vm_compute. reflexivity.
  - vm_compute. reflexivity.
Defined.

(** C7, as stated, fails: a worksheet whose declared used range is [C3:E5]
    spans three rows and three columns, and is given five rows and five
    columns. *)
Lemma counts_beyond_declared_extent :
  ∃ a meta,
    (analyzeWorkbook sampleReader (λ _, Some offsetBook) sampleDecodeRange
       sampleClock (sampleFile "A.xlsx") 0).1 = inl a
    ∧ worksheets a = [meta]
    ∧ slot_ref (Sheets_get (Sheets (workbook a)) (ws_name meta)) = Some "C3:E5"
    ∧ hasData meta = true
    ∧ rangeRows (sampleDecodeRange "C3:E5") = 3%Z
    ∧ rangeColumns (sampleDecodeRange "C3:E5") = 3%Z
    ∧ rowCount meta = 5%Z
    ∧ columnCount meta = 5%Z
    ∧ ¬ (rowCount meta = rangeRows (sampleDecodeRange "C3:E5")
         ∧ columnCount meta = rangeColumns (sampleDecodeRange "C3:E5")).
Proof.
  eexists _, _. split; [vm_compute; reflexivity|].
  split; [reflexivity|].
  repeat (split; [vm_compute; reflexivity|]).
  vm_compute. intros [H _]. discriminate H.
Qed.

(** C6, at failing inputs. With a clock that advances by 1 ms from each
    reading to the next, a batch of four files followed by a batch of one
    file gives the last file of the first batch and the file of the second
    batch the same identifier; removing that file from the component then
    removes both. Within one batch, a clock set back by 1 ms between two
    files gives both the same identifier. *)
Theorem session_identifiers_collide :
  (∀ m n, (m < n)%nat → (tickClock m < tickClock n)%Z)
  ∧ (let first :=
       analyzeMultipleWorkbooks sampleReader sampleCodec sampleDecodeRange
         tickClock
         [sampleFile "A.xlsx"; sampleFile "C.xlsx"; sampleFile "D.xlsx";
          sampleFile "E.xlsx"] 0 in
     let second :=
       analyzeMultipleWorkbooks sampleReader sampleCodec sampleDecodeRange
         tickClock [sampleFile "F.xlsx"] first.2 in
     ∃ analyses more,
       first.1 = inl analyses
       ∧ second.1 = inl more
       ∧ (λ a, Id (file a)) <$> analyses ++ more
         = [1700000000002; 1700000000006; 1700000000010; 1700000000014;
            1700000000014]%Z
       ∧ ¬ NoDup ((λ a, Id (file a)) <$> analyses ++ more))
  ∧ (let selected :=
       FileProcessor.handleFileSelect JSString.lowerUnits sampleReader
         sampleCodec sampleDecodeRange tickClock
         [sampleFile "A.xlsx"; sampleFile "C.xlsx"; sampleFile "D.xlsx";
          sampleFile "E.xlsx"] FileProcessor.resetState 0 in
     let added :=
       FileProcessor.handleAddMoreFiles JSString.lowerUnits sampleReader
         sampleCodec sampleDecodeRange tickClock [sampleFile "F.xlsx"]
         selected.1.1 selected.2 in
     fi_name <$> FileProcessor.files added.1.1
     = ["A.xlsx"; "C.xlsx"; "D.xlsx"; "E.xlsx"; "F.xlsx"]
     ∧ fi_name
         <$> FileProcessor.files
               (FileProcessor.handleRemoveFile 1700000000014 added.1.1).1
       = ["A.xlsx"; "C.xlsx"; "D.xlsx"])
  ∧ ∃ analyses,
      (analyzeMultipleWorkbooks sampleReader sampleCodec sampleDecodeRange
         setBackClock [sampleFile "A.xlsx"; sampleFile "C.xlsx"] 0).1
      = inl analyses
      ∧ (λ a, Id (file a)) <$> analyses
        = [1700000000301; 1700000000301]%Z.
Proof.
  split; [intros m n Hmn; unfold tickClock; lia|].
  split; [|split].
  - eexists _, _. split; [vm_compute; reflexivity|].
    split; [vm_compute; reflexivity|].
    split; [vm_compute; reflexivity|].
    intros Hnd. vm_compute in Hnd.
    do 3 apply NoDup_cons in Hnd as [_ Hnd].
    apply NoDup_cons in Hnd as [Hnot _]. apply Hnot. by left.
  - split; vm_compute; reflexivity.
  - eexists. split; vm_compute; reflexivity.
Qed.

(** ** Validator *)

Section ValidatorFacts.

Variable toLowerCase : string → string.

Implicit Types (f : File) (files : list File).

Lemma validateFile_cases f :
  validateFile toLowerCase f = inl true
  ∨ ∃ message, validateFile toLowerCase f = inr message.
Proof.
  unfold validateFile, throw. repeat case_match; eauto.
Qed.

Lemma validateLoop_errors files errors :
  validateLoop toLowerCase files errors
  = errors ++ validationErrors toLowerCase files.
Proof.
  revert errors. induction files as [|f files IH]; intros errors; simpl.
  - by rewrite app_nil_r.
  - unfold validationErrors. simpl.
    destruct (validateFile toLowerCase f) as [ok|message]; simpl.
    + apply IH.
    + rewrite IH. by rewrite <- (assoc_L (++)).
Qed.

Lemma validationErrors_nil files :
  validationErrors toLowerCase files = []
  ↔ Forall (λ f, validateFile toLowerCase f = inl true) files.
Proof.
  unfold validationErrors. induction files as [|f files IH]; simpl.
  - split; [constructor|done].
  - destruct (validateFile_cases f) as [Hok|[message Hbad]].
    + rewrite Hok. simpl. rewrite IH. split.
      * by constructor.
      * by intros [_ ?]%Forall_cons.
    + rewrite Hbad. simpl. split; [done|].
      intros [? _]%Forall_cons. congruence.
Qed.

Lemma validationErrors_elem f files message :
  f ∈ files → validateFile toLowerCase f = inr message →
  JSFile.name f +:+ ": " +:+ message ∈ validationErrors toLowerCase files.
Proof.
  intros Hin Hbad. unfold validationErrors.
  apply list_elem_of_omap. exists f. by rewrite Hbad.
Qed.

Lemma join_occurs sep (line : string) (lines : list string) :
  line ∈ lines → JSString.occurs_in line (JSString.join sep lines).
Proof.
  induction lines as [|x lines IH]; intros Hin.
  - by apply elem_of_nil in Hin.
  - apply elem_of_cons in Hin as [->|Hin].
    + destruct lines as [|y lines]; simpl.
      * exists "", "". rewrite app_nil_l. clear.
        induction x as [|a x IH]; [done|]. by rewrite app_cons, <- IH.
      * apply occurs_in_head.
    + destruct lines as [|y lines]; [by apply elem_of_nil in Hin|].
      change (JSString.join sep (x :: y :: lines))
        with (x +:+ sep +:+ JSString.join sep (y :: lines)).
      by apply occurs_in_app_r, occurs_in_app_r, IH.
Qed.

Lemma occurs_in_trans (a b c : string) :
  JSString.occurs_in a b → JSString.occurs_in b c → JSString.occurs_in a c.
Proof.
  intros (p & q & ->) (p' & q' & ->).
  exists (p' +:+ p), (q +:+ q'). by rewrite !app_assoc.
Qed.

(** C4: batch validation checks every file. It succeeds exactly when every
    file passes the single-file check. Otherwise it throws one error, whose
    message is a header with the number of failing files followed by one line
    [<file name>: <reason>] for each failing file, in input order; so the
    name of every failing file occurs in the message. *)
Theorem validateMultipleFiles_aggregates files :
  let errors := validationErrors toLowerCase files in
  let report :=
    "Validation failed for " +:+ JSString.ofN (N.of_nat (length errors))
    +:+ " file(s):" +:+ JSString.newline
    +:+ JSString.join JSString.newline errors in
  (validateMultipleFiles toLowerCase files = inl true
   ↔ Forall (λ f, validateFile toLowerCase f = inl true) files)
  ∧ (validateMultipleFiles toLowerCase files = inr report
     ↔ Exists (λ f, ∃ message, validateFile toLowerCase f = inr message) files)
  ∧ (validateMultipleFiles toLowerCase files = inl true
     ∨ validateMultipleFiles toLowerCase files = inr report)
  ∧ ∀ f message,
      f ∈ files → validateFile toLowerCase f = inr message →
      JSString.occurs_in (JSFile.name f +:+ ": " +:+ message) report
      ∧ JSString.occurs_in (JSFile.name f) report.
Proof.
  intros errors report.
  assert (validateMultipleFiles toLowerCase files
          = if (0 <? length errors)%nat then inr report else inl true) as Hrun.
  { unfold validateMultipleFiles. rewrite validateLoop_errors. done. }
  assert (errors = []
          ↔ Forall (λ f, validateFile toLowerCase f = inl true) files) as Hnil
    by apply validationErrors_nil.
  assert (Exists (λ f, ∃ message, validateFile toLowerCase f = inr message) files
          ↔ errors ≠ []) as Hex.
  { rewrite Hnil. split.
    - intros (f & Hin & message & Hbad)%Exists_exists Hall.
      rewrite Forall_forall in Hall. apply Hall in Hin. congruence.
    - intros Hnot. apply not_Forall_Exists in Hnot; [|intros f; apply _].
      eapply Exists_impl; [exact Hnot|]. intros f Hf. simpl in Hf.
      destruct (validateFile_cases f) as [?|?]; [done|done]. }
  split; [|split; [|split]].
  - rewrite Hrun, <- Hnil. destruct errors; simpl; split; done.
  - rewrite Hrun, Hex. destruct errors; simpl; split; done.
  - rewrite Hrun. destruct (0 <? length errors)%nat; auto.
  - intros f message Hin Hbad.
    assert (JSString.occurs_in (JSFile.name f +:+ ": " +:+ message) report)
      as Hline.
    { unfold report. do 4 apply occurs_in_app_r.
      by apply join_occurs, validationErrors_elem. }
    split; [done|].
    eapply occurs_in_trans; [|exact Hline]. apply occurs_in_head.
Qed.

End ValidatorFacts.

(** ** Sheet renderer *)

Section RendererFacts.

Variable sheet_to_json : SheetSlot → list (list JSValue).
Variable Number_toString : Q → string.
Variables pageWidth pageHeight : Q.

Local Abbreviation cellValue' := (cellValue Number_toString).
Local Abbreviation renderCells' := (renderCells Number_toString pageWidth).
Local Abbreviation renderRows' :=
  (renderRows Number_toString pageWidth pageHeight).
Local Abbreviation renderSheet' :=
  (renderSheet Number_toString pageWidth pageHeight).

(** The text drawn for a cell. *)
Local Abbreviation drawn := (λ cell, cellText (cellValue' cell)).

Lemma renderCells_texts cells rowLength colIndex x y :
  drawnTexts (renderCells' cells rowLength colIndex x y)
  = drawn <$> take (8 - colIndex) cells.
Proof.
  revert colIndex x. induction cells as [|cell cells IH]; intros colIndex x.
  - by rewrite take_nil.
  - simpl. destruct (colIndex <? 8)%nat eqn:Hcol.
    + apply Nat.ltb_lt in Hcol.
      replace (8 - colIndex)%nat with (S (8 - S colIndex)) by lia.
      unfold drawnTexts in *. simpl. by rewrite IH.
    + apply Nat.ltb_ge in Hcol.
      by replace (8 - colIndex)%nat with 0%nat by lia.
Qed.

Lemma drawnTexts_app (doc1 doc2 : list PdfOp) :
  drawnTexts (doc1 ++ doc2) = drawnTexts doc1 ++ drawnTexts doc2.
Proof. apply omap_app. Qed.

Lemma renderRows_texts jsonData y :
  drawnTexts (renderRows' jsonData y)
  = concat ((λ row, drawn <$> take 8 row) <$> jsonData).
Proof.
  revert y. induction jsonData as [|row jsonData IH]; intros y; [done|].
  simpl. rewrite !drawnTexts_app, renderCells_texts, IH.
  by destruct (negb _).
Qed.

Lemma renderSheet_texts title jsonData :
  drawnTexts (renderSheet' title jsonData)
  = title :: concat ((λ row, drawn <$> take 8 row) <$> jsonData).
Proof.
  unfold renderSheet. rewrite drawnTexts_app, renderRows_texts. done.
Qed.

(** Every document of the archive is the rendering of a selected
    worksheet. *)
Lemma processLoop_docs {T : Type} wb selected (onProgress : option (Z → T → T))
    total i zip t fileName doc :
  (processLoop sheet_to_json Number_toString pageWidth pageHeight
     wb selected onProgress total i zip t).1 !! fileName = Some doc →
  zip !! fileName = Some doc
  ∨ ∃ ws, ws ∈ selected
          ∧ doc = renderSheet' (ws_name ws)
                    (sheet_to_json (Sheets_get (Sheets wb) (ws_name ws))).
Proof.
  revert i zip t. induction selected as [|ws selected IH]; intros i zip t Hdoc;
    simpl in Hdoc; [by left|].
  apply IH in Hdoc as [Hdoc|(ws' & Hin & ->)].
  - apply lookup_insert_Some in Hdoc as [[_ <-]|[_ Hold]]; [|by left].
    right. exists ws. split; [by left|done].
  - right. exists ws'. split; [by right|done].
Qed.

(** C9: the texts a rendered worksheet draws are its title followed, row
    after row in the order of the rows, by the texts of the first 8 cells of
    the row in the order of the columns; a cell of column index 8 or more is
    not drawn. This holds of every document [processWorksheets] puts into
    the archive. *)
Theorem rendered_rows_keep_first_8 {T : Type} wb selectedWorksheets
    (onProgress : option (Z → T → T)) t0 :
  (∀ title jsonData,
     drawnTexts (renderSheet' title jsonData)
     = title :: concat ((λ row, drawn <$> take 8 row) <$> jsonData))
  ∧ (∀ cells rowLength x y,
       drawnTexts (renderCells' cells rowLength 0 x y) = drawn <$> take 8 cells
       ∧ (length (drawnTexts (renderCells' cells rowLength 0 x y)) ≤ 8)%nat)
  ∧ ∀ fileName doc,
      (processWorksheets sheet_to_json Number_toString pageWidth pageHeight
         wb selectedWorksheets onProgress t0).1 !! fileName = Some doc →
      ∃ ws, ws ∈ selectedWorksheets
            ∧ drawnTexts doc
              = ws_name ws
                :: concat ((λ row, drawn <$> take 8 row)
                           <$> sheet_to_json
                                 (Sheets_get (Sheets wb) (ws_name ws))).
Proof.
  split; [apply renderSheet_texts|]. split.
  - intros cells rowLength x y. rewrite renderCells_texts. split; [done|].
    rewrite length_fmap, length_take. lia.
  - intros fileName doc Hdoc. unfold processWorksheets in Hdoc.
    apply processLoop_docs in Hdoc as [Hempty|(ws & Hin & ->)].
    + by rewrite lookup_empty in Hempty.
    + exists ws. split; [done|]. apply renderSheet_texts.
Qed.

(** C10: a cell whose value is falsy is drawn as the empty string; so are,
    in particular, the number 0 and the boolean [false], whose string form
    [String(false)] would be ["false"]. A truthy cell is drawn as its string
    form, cut after 15 characters. In the document of a worksheet, the text
    at the place of a falsy cell of the first 8 columns is the empty
    string. *)
Theorem falsy_cells_drawn_empty title jsonData :
  (∀ cell, ToBoolean cell = false → cellValue' cell = "" ∧ drawn cell = "")
  ∧ (∀ cell, ToBoolean cell = true →
       cellValue' cell = String_of Number_toString cell)
  ∧ drawn (JSNumber (Finite 0)) = ""
  ∧ drawn (JSBoolean false) = ""
  ∧ String_of Number_toString (JSBoolean false) = "false"
  ∧ ∃ rows,
      drawnTexts (renderSheet' title jsonData) = title :: concat rows
      ∧ length rows = length jsonData
      ∧ ∀ i j row cell,
          jsonData !! i = Some row → row !! j = Some cell → (j < 8)%nat →
          ToBoolean cell = false →
          ∃ texts, rows !! i = Some texts ∧ texts !! j = Some "".
Proof.
  assert (∀ cell, ToBoolean cell = false → cellValue' cell = "" ∧ drawn cell = "")
    as Hfalsy.
  { intros cell Hcell. unfold cellValue, or_else. by rewrite Hcell. }
  split; [exact Hfalsy|]. split.
  { intros cell Hcell. unfold cellValue, or_else. by rewrite Hcell. }
  split; [by apply Hfalsy|]. split; [by apply Hfalsy|]. split; [done|].
  exists ((λ row, drawn <$> take 8 row) <$> jsonData).
  split; [apply renderSheet_texts|]. split; [by rewrite length_fmap|].
  intros i j row cell Hrow Hcell Hj Hfalse.
  exists (drawn <$> take 8 row). split.
  - by rewrite list_lookup_fmap, Hrow.
  - rewrite list_lookup_fmap, lookup_take_lt by done. rewrite Hcell. simpl.
    f_equal. by apply Hfalsy.
Qed.

End RendererFacts.

(** ** Doubles: rounding to nearest is monotone *)

Section DoubleFacts.

Import JSNumber.

Local Open Scope Q_scope.

Lemma pow2_pos e : 0 < pow2 e.
Proof. apply Qpower_0_lt. reflexivity. Qed.

Lemma pow2_add a b : pow2 (a + b) == pow2 a * pow2 b.
Proof. apply Qpower_plus. discriminate. Qed.

Lemma pow2_le a b : (a <= b)%Z -> pow2 a <= pow2 b.
Proof. intros. apply Qpower_le_compat_l; [done|]. discriminate. Qed.

Lemma pow2_lt_inv a b : pow2 a < pow2 b -> (a < b)%Z.
Proof. intros. eapply Qpower_lt_compat_l_inv; [done|]. reflexivity. Qed.

Lemma pow2_inject (n : Z) : (0 <= n)%Z -> inject_Z (2 ^ n) == pow2 n.
Proof. intros. by apply Zpower_Qpower. Qed.

(** A positive integer lies in the binade its binary logarithm names. *)
Lemma inject_log2_bounds (n : Z) :
  (0 < n)%Z ->
  pow2 (Z.log2 n) <= inject_Z n /\ inject_Z n < pow2 (Z.log2 n + 1).
Proof.
  intros Hn. destruct (Z.log2_spec n Hn) as [Hlo Hhi].
  pose proof (Z.log2_nonneg n) as Hl.
  split.
  - rewrite <- pow2_inject by done. by rewrite <- Zle_Qle.
  - rewrite <- pow2_inject by lia. rewrite <- Zlt_Qlt.
    by rewrite <- Z.add_1_r in Hhi.
Qed.

Lemma ilog2_spec x :
  0 < x -> pow2 (ilog2 x) <= x /\ x < pow2 (ilog2 x + 1).
Proof.
  intros Hx. destruct x as [n d].
  assert (0 < n)%Z as Hn.
  { unfold Qlt in Hx. simpl in Hx. lia. }
  unfold ilog2. simpl Qnum. simpl Qden.
  set (e := (Z.log2 n - Z.log2 (Z.pos d))%Z).
  destruct (inject_log2_bounds n Hn) as [Hnlo Hnhi].
  destruct (inject_log2_bounds (Z.pos d) ltac:(lia)) as [Hdlo Hdhi].
  pose proof (pow2_pos (Z.log2 (Z.pos d))) as Hd0.
  assert (n # d == inject_Z n / inject_Z (Z.pos d)) as Hnd by apply Qmake_Qdiv.
  assert (0 < inject_Z (Z.pos d)) as HD by lra.
  assert (pow2 (e - 1) <= n # d /\ n # d < pow2 (e + 1)) as [Hlow Hhigh].
  { rewrite Hnd. split.
    - apply Qle_shift_div_l; [done|].
      assert (pow2 (Z.log2 n) == pow2 (e - 1) * pow2 (Z.log2 (Z.pos d) + 1)) as Heq.
      { rewrite <- pow2_add. unfold e. f_equiv. lia. }
      pose proof (pow2_pos (e - 1)). nra.
    - apply Qlt_shift_div_r; [done|].
      assert (pow2 (Z.log2 n + 1) == pow2 (e + 1) * pow2 (Z.log2 (Z.pos d))) as Heq.
      { rewrite <- pow2_add. unfold e. f_equiv. lia. }
      pose proof (pow2_pos (e + 1)). nra. }
  destruct (Qle_bool (pow2 e) (n # d)) eqn:Hb.
  - apply Qle_bool_iff in Hb. by split.
  - split; [done|].
    replace (e - 1 + 1)%Z with e by lia.
    apply Qnot_le_lt. intros Hle. apply Qle_bool_iff in Hle. congruence.
Qed.

Lemma ilog2_unique x e :
  pow2 e <= x -> x < pow2 (e + 1) -> ilog2 x = e.
Proof.
  intros Hlo Hhi.
  assert (0 < x) as Hx by (pose proof (pow2_pos e); lra).
  destruct (ilog2_spec x Hx) as [Hlo' Hhi'].
  assert (pow2 (ilog2 x) < pow2 (e + 1)) as H1 by lra.
  assert (pow2 e < pow2 (ilog2 x + 1)) as H2 by lra.
  apply pow2_lt_inv in H1, H2. lia.
Qed.

Lemma ilog2_mono x y : 0 < x -> x <= y -> (ilog2 x <= ilog2 y)%Z.
Proof.
  intros Hx Hxy.
  destruct (ilog2_spec x Hx) as [Hlo _].
  destruct (ilog2_spec y ltac:(lra)) as [_ Hhi].
  assert (pow2 (ilog2 x) < pow2 (ilog2 y + 1)) as H by lra.
  apply pow2_lt_inv in H. lia.
Qed.

Lemma ilog2_proper_pos x y : 0 < x -> x == y -> ilog2 x = ilog2 y.
Proof.
  intros Hx Hxy. symmetry. 
  destruct (ilog2_spec x Hx) as [Hlo Hhi].
  apply ilog2_unique; lra.
Qed.

Global Instance roundHalfEven_proper : Proper (Qeq ==> eq) roundHalfEven.
Proof.
  intros y y' Hy. unfold roundHalfEven.
  rewrite (Qfloor_comp _ _ Hy).
  assert (y - inject_Z (Qfloor y') == y' - inject_Z (Qfloor y')) as -> by lra.
  done.
Qed.

Lemma roundHalfEven_cases y :
  roundHalfEven y = Qfloor y \/ roundHalfEven y = (Qfloor y + 1)%Z.
Proof. unfold roundHalfEven. repeat case_match; auto. Qed.

Lemma roundHalfEven_mono y y' : y <= y' -> (roundHalfEven y <= roundHalfEven y')%Z.
Proof.
  intros Hy. pose proof (Qfloor_resp_le _ _ Hy) as Hf.
  destruct (Z.eq_dec (Qfloor y) (Qfloor y')) as [Heq|Hne].
  - unfold roundHalfEven. rewrite <- Heq.
    destruct (Qcompare_spec (y - inject_Z (Qfloor y)) (1 # 2)) as [H1|H1|H1];
    destruct (Qcompare_spec (y' - inject_Z (Qfloor y)) (1 # 2)) as [H2|H2|H2];
      try (destruct (Z.even (Qfloor y))); try lia; lra.
  - destruct (roundHalfEven_cases y) as [->| ->];
    destruct (roundHalfEven_cases y') as [->| ->]; lia.
Qed.

Lemma roundHalfEven_Z (z : Z) : roundHalfEven (inject_Z z) = z.
Proof.
  unfold roundHalfEven. rewrite Qfloor_Z.
  destruct (Qcompare_spec (inject_Z z - inject_Z z) (1 # 2)); [lra|done|lra].
Qed.

Lemma scaled_bounds x :
  0 < x ->
  pow2 52 <= x * pow2 (52 - ilog2 x) /\ x * pow2 (52 - ilog2 x) < pow2 53.
Proof.
  intros Hx. destruct (ilog2_spec x Hx) as [Hlo Hhi].
  pose proof (pow2_pos (52 - ilog2 x)) as Hs.
  assert (pow2 52 == pow2 (ilog2 x) * pow2 (52 - ilog2 x)) as H52.
  { rewrite <- pow2_add. f_equiv. lia. }
  assert (pow2 53 == pow2 (ilog2 x + 1) * pow2 (52 - ilog2 x)) as H53.
  { rewrite <- pow2_add. f_equiv. lia. }
  split; nra.
Qed.

Lemma significand_bounds x :
  0 < x ->
  (2 ^ 52 <= roundHalfEven (x * pow2 (52 - ilog2 x)) <= 2 ^ 53)%Z.
Proof.
  intros Hx. destruct (scaled_bounds x Hx) as [Hlo Hhi].
  rewrite <- (pow2_inject 52) in Hlo by lia.
  rewrite <- (pow2_inject 53) in Hhi by lia.
  apply roundHalfEven_mono in Hlo. apply Qlt_le_weak, roundHalfEven_mono in Hhi.
  by rewrite roundHalfEven_Z in Hlo, Hhi.
Qed.

Lemma RNpos_bounds x :
  0 < x -> pow2 (ilog2 x) <= RNpos x /\ RNpos x <= pow2 (ilog2 x + 1).
Proof.
  intros Hx. destruct (significand_bounds x Hx) as [Hlo Hhi].
  unfold RNpos.
  rewrite Zle_Qle in Hlo, Hhi.
  rewrite (pow2_inject 52) in Hlo by lia.
  rewrite (pow2_inject 53) in Hhi by lia.
  pose proof (pow2_pos (ilog2 x - 52)) as Hs.
  assert (pow2 (ilog2 x) == pow2 52 * pow2 (ilog2 x - 52)) as H1.
  { rewrite <- pow2_add. f_equiv. lia. }
  assert (pow2 (ilog2 x + 1) == pow2 53 * pow2 (ilog2 x - 52)) as H2.
  { rewrite <- pow2_add. f_equiv. lia. }
  split; nra.
Qed.

Lemma RNpos_mono x x' : 0 < x -> x <= x' -> RNpos x <= RNpos x'.
Proof.
  intros Hx Hxx'. assert (0 < x') as Hx' by lra.
  pose proof (ilog2_mono x x' Hx Hxx') as He.
  destruct (Z.eq_dec (ilog2 x) (ilog2 x')) as [Heq|Hne].
  - unfold RNpos. rewrite <- Heq.
    pose proof (pow2_pos (52 - ilog2 x)) as Hs.
    pose proof (pow2_pos (ilog2 x - 52)) as Hs'.
    assert (x * pow2 (52 - ilog2 x) <= x' * pow2 (52 - ilog2 x)) as Hy by nra.
    apply roundHalfEven_mono in Hy. rewrite Zle_Qle in Hy. nra.
  - destruct (RNpos_bounds x Hx) as [_ Hhi].
    destruct (RNpos_bounds x' Hx') as [Hlo _].
    pose proof (pow2_le (ilog2 x + 1) (ilog2 x') ltac:(lia)). lra.
Qed.

Lemma RNpos_proper x x' : 0 < x -> x == x' -> RNpos x == RNpos x'.
Proof.
  intros Hx Heq. unfold RNpos.
  rewrite <- (ilog2_proper_pos x x' Hx Heq).
  assert (x * pow2 (52 - ilog2 x) == x' * pow2 (52 - ilog2 x)) as ->
    by (apply Qmult_comp; [exact Heq|reflexivity]).
  reflexivity.
Qed.

Lemma RN_pos x : 0 < x -> RN x = RNpos x.
Proof.
  intros Hx. unfold RN. destruct x as [[|n|n] d]; try done.
Qed.

Lemma RN_positive x : 0 < x -> 0 < RN x.
Proof.
  intros Hx. rewrite RN_pos by done.
  destruct (RNpos_bounds x Hx) as [Hlo _].
  pose proof (pow2_pos (ilog2 x)). lra.
Qed.

Lemma RN_mono x x' : 0 < x -> x <= x' -> RN x <= RN x'.
Proof.
  intros Hx Hxx'. rewrite !RN_pos by lra. by apply RNpos_mono.
Qed.

Lemma RN_proper x x' : 0 < x -> x == x' -> RN x == RN x'.
Proof.
  intros Hx Heq. rewrite !RN_pos by lra. by apply RNpos_proper.
Qed.

Lemma Math_round_mono x x' : x <= x' -> (Math_round x <= Math_round x')%Z.
Proof. intros H. apply Qfloor_resp_le. lra. Qed.

End DoubleFacts.

(** ** Combiner: progress *)

Section ProgressFacts.

Import JSNumber.

Lemma progressOf_mono (k k' n : Z) :
  (0 < k)%Z → (k ≤ k')%Z → (0 < n)%Z → (progressOf k n ≤ progressOf k' n)%Z.
Proof.
  intros Hk Hkk' Hn. unfold progressOf, fmul, fdiv.
  rewrite Zlt_Qlt in Hk, Hn. rewrite Zle_Qle in Hkk'.
  change (inject_Z 0) with 0%Q in Hk, Hn.
  assert (0 < inject_Z k / inject_Z n)%Q as Hq.
  { apply Qlt_shift_div_l; [done|]. lra. }
  assert (inject_Z k / inject_Z n <= inject_Z k' / inject_Z n)%Q as Hqq'.
  { apply Qle_shift_div_l; [done|]. 
    assert (inject_Z k / inject_Z n * inject_Z n == inject_Z k)%Q as ->; [|done].
    field. lra. }
  pose proof (RN_positive _ Hq) as Hr.
  pose proof (RN_mono _ _ Hq Hqq') as Hrr'.
  apply Math_round_mono, RN_mono.
  - change (inject_Z 100) with (100 # 1)%Q. lra.
  - change (inject_Z 100) with (100 # 1)%Q. lra.
Qed.

Lemma progressOf_full (n : Z) : (0 < n)%Z → progressOf n n = 100%Z.
Proof.
  intros Hn. unfold progressOf, fmul, fdiv, Math_round.
  rewrite Zlt_Qlt in Hn. change (inject_Z 0) with 0%Q in Hn.
  assert (RN (inject_Z n / inject_Z n) == 1)%Q as Hone.
  { rewrite (RN_proper _ 1).
    - by vm_compute.
    - apply Qlt_shift_div_l; [done|]. lra.
    - field. lra. }
  assert (RN (RN (inject_Z n / inject_Z n) * inject_Z 100) == 100 # 1)%Q as Hhundred.
  { rewrite (RN_proper _ (100 # 1)).
    - by vm_compute.
    - rewrite Hone. reflexivity.
    - rewrite Hone. reflexivity. }
  rewrite (Qfloor_comp _ ((100 # 1) + (1 # 2))%Q); [by vm_compute|].
  by rewrite Hhundred.
Qed.

Lemma progressValues_length n : length (progressValues n) = n.
Proof. unfold progressValues. by rewrite length_fmap, length_seq. Qed.

Lemma progressValues_lookup n i :
  (i < n)%nat →
  progressValues n !! i = Some (progressOf (Z.of_nat (S i)) (Z.of_nat n)).
Proof.
  intros Hi. unfold progressValues. rewrite list_lookup_fmap.
  by rewrite lookup_seq_lt.
Qed.

Lemma progressValues_mono n i j p q :
  (i ≤ j)%nat →
  progressValues n !! i = Some p → progressValues n !! j = Some q →
  (p ≤ q)%Z.
Proof.
  intros Hij Hp Hq.
  assert (i < n)%nat as Hi.
  { apply lookup_lt_Some in Hp. by rewrite progressValues_length in Hp. }
  assert (j < n)%nat as Hj.
  { apply lookup_lt_Some in Hq. by rewrite progressValues_length in Hq. }
  rewrite progressValues_lookup in Hp, Hq by done. simplify_eq.
  apply progressOf_mono; lia.
Qed.

Lemma progressValues_last n :
  (1 ≤ n)%nat → last (progressValues n) = Some 100%Z.
Proof.
  intros Hn. destruct n as [|n]; [lia|].
  unfold progressValues. rewrite seq_S, fmap_app.
  cbn [fmap list_fmap]. rewrite last_snoc.
  f_equal. apply progressOf_full. lia.
Qed.

End ProgressFacts.

Section ProgressRun.

Context {T : Type}.

Implicit Types (st : CombineState T) (onProgress : option (Z → T → T)).

Lemma countSheets_total workbookAnalyses :
  countSheets workbookAnalyses = Z.of_nat (totalWorksheets workbookAnalyses).
Proof.
  unfold countSheets.
  assert (∀ acc,
    fold_left (λ total a, (total + Z.of_nat (length (worksheets a)))%Z)
              workbookAnalyses acc
    = (acc + Z.of_nat (totalWorksheets workbookAnalyses))%Z) as Hgen.
  { induction workbookAnalyses as [|a l IH]; intros acc; simpl; [lia|].
    rewrite IH. unfold totalWorksheets. simpl. lia. }
  by rewrite Hgen.
Qed.

Lemma reportsFrom_S total processed n :
  reportsFrom total processed (S n)
  = progressOf (processed + 1) total :: reportsFrom total (processed + 1) n.
Proof.
  unfold reportsFrom. simpl. f_equal. rewrite <- fmap_S_seq, <- list_fmap_compose.
  apply list_fmap_ext. intros _ k _. simpl. f_equal. lia.
Qed.

Lemma reportsFrom_app total processed n m :
  reportsFrom total processed (n + m)
  = reportsFrom total processed n
    ++ reportsFrom total (processed + Z.of_nat n) m.
Proof.
  unfold reportsFrom. rewrite seq_app, fmap_app. f_equal.
  rewrite (Nat.add_comm 1 n), <- (fmap_add_seq n 1 m), <- list_fmap_compose.
  apply list_fmap_ext. intros _ k _. simpl. f_equal. lia.
Qed.

Lemma combineSheets_progress onProgress total a base sheets st st' :
  combineSheets onProgress total a base sheets st = Some st' →
  processedSheets st' = (processedSheets st + Z.of_nat (length sheets))%Z
  ∧ callerState st'
    = foldl (λ t p, report onProgress p t) (callerState st)
            (reportsFrom total (processedSheets st) (length sheets)).
Proof.
  revert st. induction sheets as [|ws sheets IH]; intros st Hrun.
  - simpl in Hrun. simplify_eq. simpl. split; [lia|done].
  - simpl in Hrun.
    destruct (combineSheet onProgress total a base ws st) as [st1|] eqn:Hstep;
      [|done].
    apply IH in Hrun as [Hcount Hstate].
    unfold combineSheet in Hstep.
    destruct (uniqueName _ _) as [nm|]; [|done]. simplify_eq.
    cbn [processedSheets callerState] in Hcount, Hstate.
    change (length (ws :: sheets)) with (S (length sheets)).
    split; [lia|].
    by rewrite Hstate, reportsFrom_S.
Qed.

Lemma combineAnalyses_progress onProgress total analyses st st' :
  combineAnalyses onProgress total analyses st = Some st' →
  processedSheets st'
  = (processedSheets st + Z.of_nat (totalWorksheets analyses))%Z
  ∧ callerState st'
    = foldl (λ t p, report onProgress p t) (callerState st)
            (reportsFrom total (processedSheets st) (totalWorksheets analyses)).
Proof.
  revert st. induction analyses as [|a analyses IH]; intros st Hrun.
  - simpl in Hrun. simplify_eq. split; [unfold totalWorksheets; simpl; lia|done].
  - simpl in Hrun.
    destruct (combineSheets onProgress total a _ (worksheets a) st)
      as [st1|] eqn:Hstep; [|done].
    apply combineSheets_progress in Hstep as [Hcount1 Hstate1].
    apply IH in Hrun as [Hcount Hstate].
    change (totalWorksheets (a :: analyses))
      with (length (worksheets a) + totalWorksheets analyses)%nat.
    split; [lia|].
    rewrite reportsFrom_app, foldl_app, <- Hstate1, <- Hcount1. exact Hstate.
Qed.

End ProgressRun.

(** The rounding written out in [JSNumber] gives the very doubles, and so
    the percentages, that the kernel's binary64 arithmetic gives, for every
    count up to 100 worksheets;
    among them 23 of 40, where the exact quotient 57.5 would round to 58 and
    the doubles give 57. *)
Lemma progressOf_agrees_with_binary64 :
  forallb (λ kn,
             Qeq_bool (floatPercent kn.1 kn.2)
                      (JSNumber.fmul
                         (JSNumber.fdiv (inject_Z kn.1) (inject_Z kn.2))
                         (inject_Z 100))
             && (JSNumber.Math_round (floatPercent kn.1 kn.2)
                 =? progressOf kn.1 kn.2)%Z)
          (progressGrid 100) = true
  ∧ progressOf 23 40 = 57%Z.
Proof. split; vm_compute; reflexivity. Qed.

(** C8: over analyses with [n >= 1] worksheets in total, the Combiner calls
    the progress callback once after each worksheet, the call after the
    [k]-th worksheet passing [Math.round((k / n) * 100)]: the caller's state
    at the end is the one these [n] calls build, in this order. The values
    passed never decrease, the last one is 100, and for 5 worksheets they
    are 20, 40, 60, 80, 100. *)
Theorem progress_reports {T : Type} (workbookAnalyses : list Analysis)
    (callback : Z → T → T) (t0 : T) :
  (1 ≤ totalWorksheets workbookAnalyses)%nat →
  let n := totalWorksheets workbookAnalyses in
  (∃ combined,
      combineAllSheets workbookAnalyses (Some callback) t0
      = Some (combined, foldl (λ t p, callback p t) t0 (progressValues n)))
  ∧ length (progressValues n) = n
  ∧ (∀ k, (1 ≤ k ≤ n)%nat →
       progressValues n !! (k - 1)%nat
       = Some (progressOf (Z.of_nat k) (Z.of_nat n)))
  ∧ (∀ i j p q, (i ≤ j)%nat →
       progressValues n !! i = Some p → progressValues n !! j = Some q →
       (p ≤ q)%Z)
  ∧ last (progressValues n) = Some 100%Z
  ∧ (n = 5%nat → progressValues n = [20; 40; 60; 80; 100]%Z).
Proof.
  intros Hn n. split; [|split; [|split; [|split; [|split]]]].
  - unfold combineAllSheets.
    destruct (combineAnalyses_total (Some callback)
                (countSheets workbookAnalyses) workbookAnalyses
                {| combinedWorkbook := book_new; processedSheets := 0;
                   callerState := t0 |}) as [st Hst].
    rewrite Hst. exists (combinedWorkbook st). do 2 f_equal.
    apply combineAnalyses_progress in Hst as [_ ->].
    rewrite countSheets_total. reflexivity.
  - apply progressValues_length.
  - intros k Hk. rewrite progressValues_lookup by lia.
    by replace (S (k - 1)) with k by lia.
  - apply progressValues_mono.
  - by apply progressValues_last.
  - intros ->. vm_compute. reflexivity.
Qed.

Lemma progress_reports_witness :
  ∃ combined,
    combineAllSheets [sampleAnalysis "north.xlsx" ["Sheet1"; "Totals"];
                      sampleAnalysis "south.xlsx" ["Sheet1"; "Totals"; "Notes"]]
                     recordProgress []
    = Some (combined, [20; 40; 60; 80; 100]%Z).
Proof.
  destruct (progress_reports
              [sampleAnalysis "north.xlsx" ["Sheet1"; "Totals"];
               sampleAnalysis "south.xlsx" ["Sheet1"; "Totals"; "Notes"]]
              (λ progress seen, seen ++ [progress]) [])
    as ([combined Hrun] & _ & _ & _ & _ & Hfive).
  - vm_compute. lia.
  - exists combined. unfold recordProgress. rewrite Hrun.
    by rewrite Hfive.
Defined.

(** * Further properties of the service and of its caller *)

(** ** More on strings *)

Section MoreStrings.
Implicit Types (s t u : string) (a c : ascii).

Lemma lastIndexOf_from_absent c s i found :
  JSString.has_char c s = false → JSString.lastIndexOf_from c s i found = found.
Proof.
  revert i found. induction s as [|a s IH]; intros i found Hs; [done|].
  simpl in *. apply orb_false_iff in Hs as [Ha Hs]. rewrite Ha. by apply IH.
Qed.

Lemma lastIndexOf_from_last c stem tail i found :
  JSString.has_char c tail = false →
  JSString.lastIndexOf_from c (stem +:+ String c tail) i found
  = (i + JSString.length stem)%Z.
Proof.
  intros Htail. revert i found. induction stem as [|a stem IH]; intros i found.
  - rewrite app_nil_l. simpl. rewrite Ascii.eqb_refl.
    rewrite lastIndexOf_from_absent by done. unfold JSString.length. simpl. lia.
  - rewrite app_cons. simpl. rewrite IH. rewrite length_cons. lia.
Qed.

Lemma has_char_split c s :
  JSString.has_char c s = true →
  ∃ stem tail, s = stem +:+ String c tail ∧ JSString.has_char c tail = false.
Proof.
  induction s as [|a s IH]; intros Hs; [done|]. simpl in Hs.
  destruct (JSString.has_char c s) eqn:Hrest.
  - destruct (IH eq_refl) as (stem & tail & -> & Htail).
    by exists (String a stem), tail.
  - rewrite orb_false_r in Hs. apply Ascii.eqb_eq in Hs as ->.
    by exists "", s.
Qed.

Lemma substring_all s : String.substring 0 (String.length s) s = s.
Proof. induction s as [|a s IH]; [done|]. simpl. by rewrite IH. Qed.

Lemma substring_skip stem t m :
  String.substring (String.length stem) m (stem +:+ t) = String.substring 0 m t.
Proof. induction stem as [|a stem IH]; [done|]. rewrite app_cons. simpl. exact IH. Qed.

Lemma substring_length_le n m s :
  (String.length (String.substring n m s) ≤ m)%nat.
Proof.
  revert n m. induction s as [|a s IH]; intros [|n] [|m]; simpl; try lia.
  - specialize (IH 0%nat m). lia.
  - apply (IH n 0%nat).
  - apply (IH n (S m)).
Qed.

Lemma slice_at_stem stem t :
  JSString.slice (stem +:+ t) (JSString.length stem) = t.
Proof.
  unfold JSString.slice. pose proof (length_nonneg stem). pose proof (length_nonneg t).
  rewrite length_app.
  assert ((JSString.length stem <? 0)%Z = false) as -> by lia.
  rewrite Z.min_l by lia.
  replace (Z.to_nat (JSString.length stem)) with (String.length stem)
    by (unfold JSString.length; lia).
  replace (Z.to_nat (JSString.length stem + JSString.length t - JSString.length stem))
    with (String.length t) by (unfold JSString.length; lia).
  by rewrite substring_skip, substring_all.
Qed.

Lemma slice_negative_length s (k : Z) :
  (k < 0)%Z → (JSString.length (JSString.slice s k) ≤ - k)%Z.
Proof.
  intros Hk. unfold JSString.slice. apply Z.ltb_lt in Hk as Hb. rewrite Hb.
  unfold JSString.length at 1.
  pose proof (substring_length_le
    (Z.to_nat (Z.max (JSString.length s + k) 0))
    (Z.to_nat (JSString.length s - Z.max (JSString.length s + k) 0)) s).
  pose proof (length_nonneg s). lia.
Qed.

Lemma prefix_of_app stem rest :
  String.substring 0 (String.length stem) (stem +:+ rest) = stem.
Proof.
  induction stem as [|a stem IH].
  - rewrite app_nil_l. by destruct rest.
  - rewrite app_cons. simpl. by rewrite IH.
Qed.

Lemma substring_0_stem stem rest :
  JSString.substring (stem +:+ rest) 0 (JSString.length stem) = stem.
Proof.
  rewrite substring_0. unfold JSString.clamp. rewrite length_app.
  pose proof (length_nonneg stem). pose proof (length_nonneg rest).
  replace (Z.to_nat _) with (String.length stem)
    by (unfold JSString.length in *; lia).
  apply prefix_of_app.
Qed.

Lemma lowerUnits_app s t :
  JSString.lowerUnits (s +:+ t) = JSString.lowerUnits s +:+ JSString.lowerUnits t.
Proof. induction s as [|a s IH]; [done|]. rewrite app_cons. simpl. by rewrite IH. Qed.

Lemma lowerUnits_length s :
  JSString.length (JSString.lowerUnits s) = JSString.length s.
Proof.
  unfold JSString.length. f_equal.
  induction s as [|a s IH]; [done|]. simpl. by rewrite IH.
Qed.

Lemma lowerUnits_has_dot s :
  JSString.has_char "." (JSString.lowerUnits s) = JSString.has_char "." s.
Proof.
  induction s as [|a s IH]; [done|]. simpl. rewrite IH. f_equal.
  destruct a as [[] [] [] [] [] [] [] []]; vm_compute; reflexivity.
Qed.

(** The extension [validateFile] compares, for a name lower-cased unit by
    unit. *)
Local Abbreviation fileExtension := (λ fileName,
  JSString.slice (JSString.lowerUnits fileName)
                 (JSString.lastIndexOf fileName ".")).

Lemma fileExtension_last_dot stem tail :
  JSString.has_char "." tail = false →
  fileExtension (stem +:+ "." +:+ tail) = "." +:+ JSString.lowerUnits tail.
Proof.
  intros Htail. simpl. unfold JSString.lastIndexOf.
  change ("." +:+ tail) with (String "." tail).
  rewrite lastIndexOf_from_last by done.
  rewrite lowerUnits_app, Z.add_0_l, <- (lowerUnits_length stem).
  apply slice_at_stem.
Qed.

Lemma fileExtension_no_dot fileName :
  JSString.has_char "." fileName = false →
  (JSString.length (fileExtension fileName) ≤ 1)%Z.
Proof.
  intros Hno. simpl. unfold JSString.lastIndexOf.
  rewrite lastIndexOf_from_absent by done.
  pose proof (slice_negative_length (JSString.lowerUnits fileName) (-1)). lia.
Qed.

End MoreStrings.

(** ** Validator: the single-file check *)

Section ValidateOne.

Variable toLowerCase : string → string.

Lemma fileExtension_iff fileName ext :
  ext ≠ "" →
  JSString.slice (JSString.lowerUnits fileName)
                 (JSString.lastIndexOf fileName ".") = "." +:+ ext
  ↔ hasExtension fileName ext.
Proof.
  intros Hext. split.
  - intros Heq. destruct (JSString.has_char "." fileName) eqn:Hdot.
    + apply has_char_split in Hdot as (stem & tail & -> & Htail).
      change (String "." tail) with ("." +:+ tail) in Heq.
      rewrite fileExtension_last_dot in Heq by done.
      apply (inj (String.app ".")) in Heq.
      by exists stem, tail.
    + apply fileExtension_no_dot in Hdot. rewrite Heq in Hdot.
      rewrite length_app in Hdot. change (JSString.length ".") with 1%Z in Hdot.
      destruct ext as [|a ext]; [done|]. rewrite length_cons in Hdot.
      pose proof (length_nonneg ext). lia.
  - intros (stem & tail & -> & Htail & <-). by apply fileExtension_last_dot.
Qed.

(** X1: for a file whose name is lower-cased unit by unit (every name of
    Latin-1 characters is), the single-file check passes exactly when the
    media type is one of the two spreadsheet types or the name has the
    extension [xlsx] or [xls] in any letter case, and the size is at most
    50 MiB (52428800 bytes). A file of the wrong format gets the format
    error whatever its size; the size error is only given to a file of the
    right format. *)
Theorem validateFile_accepts (f : File) :
  toLowerCase (JSFile.name f) = JSString.lowerUnits (JSFile.name f) →
  let formatOk :=
    JSFile.type f ∈ validTypes
    ∨ hasExtension (JSFile.name f) "xlsx" ∨ hasExtension (JSFile.name f) "xls" in
  (validateFile toLowerCase f = inl true
   ↔ formatOk ∧ (JSFile.size f ≤ 52428800)%Z)
  ∧ (validateFile toLowerCase f
     = inr "Please upload a valid Excel file (.xlsx or .xls)"
     ↔ ¬ formatOk)
  ∧ (validateFile toLowerCase f = inr "File size must be less than 50MB"
     ↔ formatOk ∧ (52428800 < JSFile.size f)%Z).
Proof.
  intros Hunits formatOk.
  assert (JSString.includes validExtensions
            (JSString.slice (JSString.lowerUnits (JSFile.name f))
                            (JSString.lastIndexOf (JSFile.name f) ".")) = true
          ↔ hasExtension (JSFile.name f) "xlsx" ∨ hasExtension (JSFile.name f) "xls")
    as Hext.
  { unfold JSString.includes, validExtensions.
    rewrite bool_decide_eq_true, !elem_of_cons, elem_of_nil.
    rewrite <- !fileExtension_iff by done. tauto. }
  assert (JSString.includes validTypes (JSFile.type f) = true
          ↔ JSFile.type f ∈ validTypes) as Htype.
  { unfold JSString.includes. by rewrite bool_decide_eq_true. }
  unfold validateFile, throw. rewrite Hunits.
  destruct (JSString.includes validTypes (JSFile.type f)) eqn:Ht;
  destruct (JSString.includes validExtensions _) eqn:He; simpl;
  destruct (50 * 1024 * 1024 <? JSFile.size f)%Z eqn:Hs;
  try apply Z.ltb_lt in Hs; try apply Z.ltb_ge in Hs;
  unfold formatOk; intuition (discriminate || lia || idtac).
Qed.

End ValidateOne.

Lemma validateFile_accepts_witness :
  validateFile JSString.lowerUnits (sampleFile "Report.XLSX") = inl true
  ↔ (JSFile.type (sampleFile "Report.XLSX") ∈ validTypes
     ∨ hasExtension "Report.XLSX" "xlsx" ∨ hasExtension "Report.XLSX" "xls")
    ∧ (JSFile.size (sampleFile "Report.XLSX") ≤ 52428800)%Z.
Proof.
  apply (validateFile_accepts JSString.lowerUnits (sampleFile "Report.XLSX")).
  reflexivity.
Defined.

Section MovedExtension.

Variable toLowerCase : string → string.

Lemma String_substring_length n m s :
  String.length (String.substring n m s) = Nat.min m (String.length s - n).
Proof.
  revert n m. induction s as [|a s IH]; intros n m.
  - destruct n, m; reflexivity.
  - destruct n as [|n]; [destruct m as [|m]|]; simpl; [done| |].
    + rewrite IH. lia.
    + apply IH.
Qed.

Lemma slice_length s start :
  (0 ≤ start)%Z →
  JSString.length (JSString.slice s start)
  = Z.max 0 (JSString.length s - start).
Proof.
  intros Hstart. unfold JSString.slice.
  assert ((start <? 0)%Z = false) as -> by lia.
  unfold JSString.length. rewrite String_substring_length. lia.
Qed.

(** X20: the extension is cut from the lower-cased name at the position of
    the last dot of the name as given. So when lower-casing lengthens the
    part before the last dot, a file whose lower-cased name ends in [.xlsx]
    and whose media type is not one of the two spreadsheet types is
    rejected with the format error. *)
Theorem validateFile_moved_extension (f : File) stem tail lowered :
  JSFile.type f ∉ validTypes →
  JSFile.name f = stem +:+ "." +:+ tail →
  JSString.has_char "." tail = false →
  toLowerCase (JSFile.name f) = lowered +:+ ".xlsx" →
  (JSString.length stem < JSString.length lowered)%Z →
  validateFile toLowerCase f
  = inr "Please upload a valid Excel file (.xlsx or .xls)".
Proof.
  intros Htype Hname Htail Hlow Hlonger. unfold validateFile, throw.
  assert (JSString.includes validTypes (JSFile.type f) = false) as ->.
  { unfold JSString.includes. by apply bool_decide_eq_false. }
  rewrite Hlow, Hname. unfold JSString.lastIndexOf.
  change ("." +:+ tail) with (String "." tail).
  rewrite lastIndexOf_from_last by done. rewrite Z.add_0_l.
  assert (JSString.includes validExtensions
            (JSString.slice (lowered +:+ ".xlsx") (JSString.length stem)) = false)
    as ->; [|done].
  unfold JSString.includes. apply bool_decide_eq_false.
  pose proof (length_nonneg stem) as Hs.
  pose proof (slice_length (lowered +:+ ".xlsx") (JSString.length stem) Hs) as Hlen.
  rewrite length_app in Hlen. change (JSString.length ".xlsx") with 5%Z in Hlen.
  unfold validExtensions. rewrite !elem_of_cons, elem_of_nil.
  intros [Heq|[Heq|[]]]; rewrite Heq in Hlen.
  - change (JSString.length ".xlsx") with 5%Z in Hlen. lia.
  - change (JSString.length ".xls") with 4%Z in Hlen. lia.
Qed.

End MovedExtension.

Lemma validateFile_moved_extension_witness :
  validateFile sampleLower
    {| JSFile.name := "I.XLSX"; JSFile.type := ""; JSFile.size := 2048 |}
  = inr "Please upload a valid Excel file (.xlsx or .xls)".
Proof.
  apply (validateFile_moved_extension sampleLower
           {| JSFile.name := "I.XLSX"; JSFile.type := ""; JSFile.size := 2048 |}
           "I" "XLSX" "i'").
  - vm_compute. intros H.
    repeat (apply elem_of_cons in H as [H|H]; [discriminate H|]).
    by apply elem_of_nil in H.
  - reflexivity.
  - reflexivity.
  - reflexivity.
  - vm_compute. reflexivity.
Defined.

(** ** File base names *)

Section BaseName.

Lemma slice_after_dot stem tail :
  JSString.slice (stem +:+ "." +:+ tail) (JSString.length stem + 1) = tail.
Proof.
  replace (stem +:+ "." +:+ tail) with ((stem +:+ ".") +:+ tail)
    by apply app_assoc.
  replace (JSString.length stem + 1)%Z with (JSString.length (stem +:+ "."))
    by (by rewrite length_app).
  apply slice_at_stem.
Qed.

(** X2: stripping the extension of a file name. A name without a dot is
    left as it is. Otherwise, with [tail] what follows the last dot, the
    name loses that dot and [tail], unless [tail] is empty or contains a
    slash, in which case the name is left as it is. *)
Theorem stripExtension_cases (fileName : string) :
  (JSString.has_char "." fileName = false
   ∧ JSString.stripExtension fileName = fileName)
  ∨ ∃ stem tail,
      fileName = stem +:+ "." +:+ tail
      ∧ JSString.has_char "." tail = false
      ∧ JSString.stripExtension fileName
        = if String.eqb tail "" || JSString.has_char "/" tail
          then fileName else stem.
Proof.
  destruct (JSString.has_char "." fileName) eqn:Hdot.
  - right. apply has_char_split in Hdot as (stem & tail & -> & Htail).
    exists stem, tail. split; [done|]. split; [done|].
    unfold JSString.stripExtension, JSString.lastIndexOf.
    rewrite lastIndexOf_from_last by done. rewrite Z.add_0_l.
    pose proof (length_nonneg stem).
    assert ((JSString.length stem <? 0)%Z = false) as -> by lia.
    change (String "." tail) with ("." +:+ tail).
    rewrite slice_after_dot.
    destruct (String.eqb tail "" || JSString.has_char "/" tail); [done|].
    apply substring_0_stem.
  - left. split; [done|].
    unfold JSString.stripExtension, JSString.lastIndexOf.
    by rewrite lastIndexOf_from_absent.
Qed.

Lemma stripExtension_known base ext :
  ext ≠ "" → JSString.has_char "." ext = false →
  JSString.has_char "/" ext = false →
  JSString.stripExtension (base +:+ "." +:+ ext) = base.
Proof.
  intros Hne Hdot Hslash.
  unfold JSString.stripExtension, JSString.lastIndexOf.
  change ("." +:+ ext) with (String "." ext).
  rewrite lastIndexOf_from_last by done. rewrite Z.add_0_l.
  pose proof (length_nonneg base).
  assert ((JSString.length base <? 0)%Z = false) as -> by lia.
  change (String "." ext) with ("." +:+ ext).
  rewrite slice_after_dot, Hslash.
  apply String.eqb_neq in Hne as ->. simpl.
  apply substring_0_stem.
Qed.

End BaseName.

(** ** Combiner: what the combined workbook holds *)

Section CombineContent.
Context {T : Type}.
Implicit Types (st : CombineState T) (onProgress : option (Z → T → T)).

Lemma combineSheet_names onProgress total a base ws st st' :
  combineSheet onProgress total a base ws st = Some st' →
  ∃ nm, uniqueName (combinedWorkbook st) (newSheetName base (ws_name ws)) = Some nm
        ∧ SheetNames (combinedWorkbook st') = SheetNames (combinedWorkbook st) ++ [nm]
        ∧ Sheets (combinedWorkbook st')
          = <[nm := Sheets_get (Sheets (workbook a)) (ws_name ws)]>
              (Sheets (combinedWorkbook st)).
Proof.
  unfold combineSheet. intros Hstep.
  destruct (uniqueName _ _) as [nm|]; [|done]. simplify_eq. by exists nm.
Qed.

Lemma combineSheet_holds onProgress total a base ws st st' placed :
  slot_truthy (Sheets_get (Sheets (workbook a)) (ws_name ws)) = true →
  holdsInOrder (combinedWorkbook st) placed →
  combineSheet onProgress total a base ws st = Some st' →
  holdsInOrder (combinedWorkbook st')
    (placed ++ [Sheets_get (Sheets (workbook a)) (ws_name ws)]).
Proof.
  intros Hsheet (Hreg & Hplaced & Hdom) Hstep.
  pose proof (combineSheet_registered _ _ _ _ _ _ _ Hsheet Hreg Hstep) as Hreg'.
  apply combineSheet_names in Hstep as (nm & Hnm & Hnames & Hsheets).
  destruct (uniqueName_spec (combinedWorkbook st)
              (newSheetName base (ws_name ws))) as (nm' & Hnm' & Hfree & _).
  rewrite Hnm in Hnm'. injection Hnm' as <-.
  assert (nm ∉ SheetNames (combinedWorkbook st)) as Hfresh.
  { intros Hin. apply (proj2 Hreg) in Hin. congruence. }
  split; [done|]. rewrite Hnames, Hsheets. split.
  - rewrite fmap_app, <- Hplaced. f_equal.
    + apply list_fmap_ext. intros i x Hx. unfold Sheets_get.
      rewrite lookup_insert_ne; [done|]. intros ->.
      apply Hfresh. by eapply list_elem_of_lookup_2.
    + simpl. unfold Sheets_get. by rewrite lookup_insert_eq.
  - rewrite dom_insert_L, Hdom, list_to_set_snoc_L. apply (comm_L (∪)).
Qed.

Lemma combineSheets_holds onProgress total a base sheets st st' placed :
  Forall (λ ws, slot_truthy (Sheets_get (Sheets (workbook a)) (ws_name ws)) = true)
         sheets →
  holdsInOrder (combinedWorkbook st) placed →
  combineSheets onProgress total a base sheets st = Some st' →
  holdsInOrder (combinedWorkbook st')
    (placed ++ ((λ ws, Sheets_get (Sheets (workbook a)) (ws_name ws)) <$> sheets)).
Proof.
  revert st placed. induction sheets as [|ws sheets IH]; intros st placed Hall Hold Hrun;
    simpl in Hrun.
  - simplify_eq. by rewrite app_nil_r.
  - apply Forall_cons in Hall as [Hws Hall].
    destruct (combineSheet onProgress total a base ws st) as [st1|] eqn:Hstep; [|done].
    rewrite fmap_cons, cons_middle, (assoc_L (++)).
    apply (IH st1); [done| |done].
    eapply combineSheet_holds; done.
Qed.

Lemma combineAnalyses_holds onProgress total analyses st st' placed :
  Forall sheetsPresent analyses →
  holdsInOrder (combinedWorkbook st) placed →
  combineAnalyses onProgress total analyses st = Some st' →
  holdsInOrder (combinedWorkbook st') (placed ++ sourceSheets analyses).
Proof.
  revert st placed. induction analyses as [|a analyses IH]; intros st placed Hall Hold Hrun;
    simpl in Hrun.
  - simplify_eq. unfold sourceSheets. simpl. by rewrite app_nil_r.
  - apply Forall_cons in Hall as [Ha Hall].
    destruct (combineSheets onProgress total a _ (worksheets a) st) as [st1|] eqn:Hstep;
      [|done].
    unfold sourceSheets. rewrite bind_cons, (assoc_L (++)).
    apply (IH st1); [done| |done].
    eapply combineSheets_holds; done.
Qed.

Lemma combineSheets_count onProgress total a base sheets st st' :
  combineSheets onProgress total a base sheets st = Some st' →
  length (SheetNames (combinedWorkbook st'))
  = (length (SheetNames (combinedWorkbook st)) + length sheets)%nat.
Proof.
  revert st. induction sheets as [|ws sheets IH]; intros st Hrun; simpl in Hrun.
  - simplify_eq. simpl. lia.
  - destruct (combineSheet onProgress total a base ws st) as [st1|] eqn:Hstep; [|done].
    apply IH in Hrun. apply combineSheet_names in Hstep as (nm & _ & Hnames & _).
    rewrite Hrun, Hnames, List.length_app. simpl. lia.
Qed.

Lemma combineAnalyses_count onProgress total analyses st st' :
  combineAnalyses onProgress total analyses st = Some st' →
  length (SheetNames (combinedWorkbook st'))
  = (length (SheetNames (combinedWorkbook st)) + totalWorksheets analyses)%nat.
Proof.
  revert st. induction analyses as [|a analyses IH]; intros st Hrun; simpl in Hrun.
  - simplify_eq. unfold totalWorksheets. simpl. lia.
  - destruct (combineSheets onProgress total a _ (worksheets a) st) as [st1|] eqn:Hstep;
      [|done].
    apply IH in Hrun. apply combineSheets_count in Hstep.
    change (totalWorksheets (a :: analyses))
      with (length (worksheets a) + totalWorksheets analyses)%nat. lia.
Qed.

End CombineContent.

(** X3: for analyses whose worksheets are found in their workbooks, the
    combined workbook holds, under its sheet names taken in order, exactly
    the worksheets of the analyses in input order: every sheet is placed as
    it is, none is lost or replaced by a later one, and [Sheets] has an
    entry for each listed name and for nothing else. *)
Theorem combine_keeps_sheets_in_order {T : Type} (workbookAnalyses : list Analysis)
    (onProgress : option (Z → T → T)) (t0 : T) :
  Forall sheetsPresent workbookAnalyses →
  ∃ combined t,
    combineAllSheets workbookAnalyses onProgress t0 = Some (combined, t)
    ∧ Sheets_get (Sheets combined) <$> SheetNames combined
      = sourceSheets workbookAnalyses
    ∧ dom (Sheets combined) = list_to_set (SheetNames combined)
    ∧ size (Sheets combined) = totalWorksheets workbookAnalyses.
Proof.
  intros Hall. unfold combineAllSheets.
  destruct (combineAnalyses_total onProgress (countSheets workbookAnalyses)
              workbookAnalyses
              {| combinedWorkbook := book_new; processedSheets := 0;
                 callerState := t0 |}) as [st Hst].
  rewrite Hst. exists (combinedWorkbook st), (callerState st). split; [done|].
  pose proof (combineAnalyses_count _ _ _ _ _ Hst) as Hcount.
  eapply (combineAnalyses_holds _ _ _ _ _ []) in Hst as ([Hnd _] & Hplaced & Hdom);
    [|done|].
  - split; [done|]. split; [done|].
    rewrite <- size_dom, Hdom, size_list_to_set by done. by rewrite Hcount.
  - split; [apply namesRegistered_new|]. split; [done|].
    simpl. by rewrite dom_empty_L.
Qed.

Lemma combine_keeps_sheets_in_order_witness :
  ∃ combined t,
    combineAllSheets
      [sampleAnalysis "north.xlsx" ["Sheet1"; "Totals"];
       sampleAnalysis "north.xls" ["Sheet1"]]
      recordProgress []
    = Some (combined, t)
    ∧ Sheets_get (Sheets combined) <$> SheetNames combined
      = sourceSheets [sampleAnalysis "north.xlsx" ["Sheet1"; "Totals"];
                      sampleAnalysis "north.xls" ["Sheet1"]]
    ∧ dom (Sheets combined) = list_to_set (SheetNames combined)
    ∧ size (Sheets combined)
      = totalWorksheets [sampleAnalysis "north.xlsx" ["Sheet1"; "Totals"];
                         sampleAnalysis "north.xls" ["Sheet1"]].
Proof.
  apply (combine_keeps_sheets_in_order
           [sampleAnalysis "north.xlsx" ["Sheet1"; "Totals"];
            sampleAnalysis "north.xls" ["Sheet1"]] recordProgress []).
  repeat constructor.
Defined.

(** ** Combiner: names within the limit *)

Section NamesWithinLimit.
Context {T : Type}.
Implicit Types (st : CombineState T) (onProgress : option (Z → T → T)).

Lemma uniqueName_bounded combined newName :
  ∃ nm, uniqueName combined newName = Some nm
        ∧ (nm = newName
           ∨ ∃ k, (1 ≤ k ≤ N.of_nat (uniqueNameFuel combined))%N
                  ∧ nm = suffixedName newName k).
Proof.
  destruct (uniqueName_spec combined newName) as (nm & Hnm & _ & Hcase).
  exists nm. split; [done|].
  destruct Hcase as [[_ ->]|(_ & k & Hk & -> & Hbelow)]; [by left|].
  right. exists k. split; [|done]. split; [done|].
  destruct (free_suffix_exists combined newName) as (j & Hj & Hfree).
  destruct (decide (j < k)%N) as [Hlt|]; [|lia].
  rewrite Hbelow in Hfree by lia. done.
Qed.

Lemma newSheetName_within base wsName :
  (JSString.length wsName ≤ 30)%Z →
  (JSString.length (newSheetName base wsName) ≤ 31)%Z.
Proof.
  intros Hws.
  destruct (decide (31 < JSString.length (base +:+ "_" +:+ wsName))%Z) as [Hlong|Hshort].
  - rewrite newSheetName_length by done. lia.
  - unfold newSheetName.
    assert ((31 <? JSString.length (base +:+ "_" +:+ wsName))%Z = false) as -> by lia.
    lia.
Qed.

Lemma combineSheet_within onProgress total a base ws st st' :
  (JSString.length (ws_name ws) ≤ 30)%Z →
  (N.of_nat (length (SheetNames (combinedWorkbook st))) + 13 < 10 ^ 30)%N →
  withinLimit (combinedWorkbook st) →
  combineSheet onProgress total a base ws st = Some st' →
  withinLimit (combinedWorkbook st').
Proof.
  intros Hws Hroom [Hall Hsize] Hstep. unfold combineSheet in Hstep.
  destruct (uniqueName_bounded (combinedWorkbook st)
              (newSheetName base (ws_name ws))) as (nm & Hnm & Hshape).
  rewrite Hnm in Hstep. simplify_eq. split; simpl.
  - apply Forall_app. split; [done|]. apply Forall_singleton.
    destruct Hshape as [->|(k & Hk & ->)].
    + by apply newSheetName_within.
    + apply suffixedName_length, suffix_length_bound.
      unfold uniqueNameFuel in Hk.
      change (length Object_prototype_keys) with 12%nat in Hk.
      remember (10 ^ 30)%N as cap.
      remember (size (Sheets (combinedWorkbook st))) as n.
      remember (length (SheetNames (combinedWorkbook st))) as m.
      clear -Hk Hsize Hroom. lia.
  - rewrite List.length_app, map_size_insert.
    change (length [nm]) with 1%nat.
    destruct (Sheets (combinedWorkbook st) !! nm); unfold id; lia.
Qed.

Lemma combineSheets_within onProgress total a base sheets st st' :
  Forall (λ ws, (JSString.length (ws_name ws) ≤ 30)%Z) sheets →
  (N.of_nat (length (SheetNames (combinedWorkbook st)) + length sheets) + 12
   < 10 ^ 30)%N →
  withinLimit (combinedWorkbook st) →
  combineSheets onProgress total a base sheets st = Some st' →
  withinLimit (combinedWorkbook st').
Proof.
  revert st. induction sheets as [|ws sheets IH]; intros st Hall Hroom Hin Hrun;
    simpl in Hrun.
  - by simplify_eq.
  - apply Forall_cons in Hall as [Hws Hall].
    destruct (combineSheet onProgress total a base ws st) as [st1|] eqn:Hstep; [|done].
    simpl in Hroom.
    apply (IH st1); [done| | |done].
    + apply combineSheet_names in Hstep as (nm & _ & -> & _).
      rewrite List.length_app. simpl. lia.
    + eapply combineSheet_within; [done| |done|done]. lia.
Qed.

Lemma combineAnalyses_within onProgress total analyses st st' :
  Forall (λ a, Forall (λ ws, (JSString.length (ws_name ws) ≤ 30)%Z) (worksheets a))
         analyses →
  (N.of_nat (length (SheetNames (combinedWorkbook st)) + totalWorksheets analyses)
   + 12 < 10 ^ 30)%N →
  withinLimit (combinedWorkbook st) →
  combineAnalyses onProgress total analyses st = Some st' →
  withinLimit (combinedWorkbook st').
Proof.
  revert st. induction analyses as [|a analyses IH]; intros st Hall Hroom Hin Hrun;
    simpl in Hrun.
  - by simplify_eq.
  - apply Forall_cons in Hall as [Ha Hall].
    destruct (combineSheets onProgress total a _ (worksheets a) st) as [st1|] eqn:Hstep;
      [|done].
    change (totalWorksheets (a :: analyses))
      with (length (worksheets a) + totalWorksheets analyses)%nat in Hroom.
    apply (IH st1); [done| | |done].
    + apply combineSheets_count in Hstep. rewrite Hstep. lia.
    + eapply combineSheets_within; [done| |done|done]. lia.
Qed.

End NamesWithinLimit.

(** X4: when every worksheet name has at most 30 characters (and there are
    fewer than 10^29 worksheets), every name of the combined workbook has at
    most 31 characters. *)
Theorem combined_names_within_limit {T : Type} (workbookAnalyses : list Analysis)
    (onProgress : option (Z → T → T)) (t0 : T) :
  Forall (λ a, Forall (λ ws, (JSString.length (ws_name ws) ≤ 30)%Z) (worksheets a))
         workbookAnalyses →
  (Z.of_nat (totalWorksheets workbookAnalyses) < 10 ^ 29)%Z →
  ∃ combined t,
    combineAllSheets workbookAnalyses onProgress t0 = Some (combined, t)
    ∧ Forall (λ nm, (JSString.length nm ≤ 31)%Z) (SheetNames combined).
Proof.
  intros Hall Hfew. unfold combineAllSheets.
  destruct (combineAnalyses_total onProgress (countSheets workbookAnalyses)
              workbookAnalyses
              {| combinedWorkbook := book_new; processedSheets := 0;
                 callerState := t0 |}) as [st Hst].
  rewrite Hst. exists (combinedWorkbook st), (callerState st). split; [done|].
  eapply combineAnalyses_within in Hst as [Hok _]; [done|done| |].
  - simpl. lia.
  - split; [constructor|]. simpl. rewrite map_size_empty. lia.
Qed.

Lemma combined_names_within_limit_witness :
  ∃ combined t,
    combineAllSheets
      [sampleAnalysis "AnnualConsolidatedReport2024.xlsx" ["Sheet1"; "Sheet1"]]
      recordProgress []
    = Some (combined, t)
    ∧ Forall (λ nm, (JSString.length nm ≤ 31)%Z) (SheetNames combined).
Proof.
  apply (combined_names_within_limit
           [sampleAnalysis "AnnualConsolidatedReport2024.xlsx"
                           ["Sheet1"; "Sheet1"]] recordProgress []).
  - repeat constructor; vm_compute; intros H; discriminate H.
  - vm_compute. reflexivity.
Defined.


(** ** Encoder *)

Section EncoderFacts.

Variable XLSX_write : Workbook → Result (list Byte.byte).

(** X5: the combined workbook lists as many sheets as the analyses have
    worksheets, whatever their names. When the encoder succeeds, the
    download reports that number as [sheetCount], carries the encoder's
    bytes with their length as [size], and is named
    [<baseFileName>_combined.xlsx], a name that strips back to
    [<baseFileName>_combined]; when the encoder throws, its error is the
    result. *)
Theorem combined_download_counts {T : Type} (workbookAnalyses : list Analysis)
    (onProgress : option (Z → T → T)) (t0 : T) (baseFileName : string) :
  ∃ combined t,
    combineAllSheets workbookAnalyses onProgress t0 = Some (combined, t)
    ∧ length (SheetNames combined) = totalWorksheets workbookAnalyses
    ∧ match XLSX_write combined with
      | inl bytes =>
          ∃ ready,
            generateCombinedExcel XLSX_write combined baseFileName = inl ready
            ∧ Download.sheetCount ready
              = Z.of_nat (totalWorksheets workbookAnalyses)
            ∧ Download.blob ready = bytes
            ∧ Download.size ready = Z.of_nat (length bytes)
            ∧ Download.fileName ready = baseFileName +:+ "_combined.xlsx"
            ∧ JSString.stripExtension (Download.fileName ready)
              = baseFileName +:+ "_combined"
      | inr message =>
          generateCombinedExcel XLSX_write combined baseFileName = inr message
      end.
Proof.
  unfold combineAllSheets.
  destruct (combineAnalyses_total onProgress (countSheets workbookAnalyses)
              workbookAnalyses
              {| combinedWorkbook := book_new; processedSheets := 0;
                 callerState := t0 |}) as [st Hst].
  rewrite Hst. exists (combinedWorkbook st), (callerState st). split; [done|].
  apply combineAnalyses_count in Hst. simpl in Hst.
  split; [done|]. unfold generateCombinedExcel.
  destruct (XLSX_write (combinedWorkbook st)) as [bytes|message]; [|done].
  eexists. split; [done|]. simpl. rewrite Hst.
  split; [done|]. split; [done|]. split; [done|]. split; [done|].
  replace (baseFileName +:+ "_combined.xlsx")
    with ((baseFileName +:+ "_combined") +:+ "." +:+ "xlsx")
    by (by rewrite app_assoc).
  by apply stripExtension_known.
Qed.

End EncoderFacts.

(** ** Archive *)

Section ArchiveFacts.

Variable sheet_to_json : SheetSlot → list (list JSValue).
Variable Number_toString : Q → string.
Variables pageWidth pageHeight : Q.
Context {T : Type}.

Local Abbreviation rendering := (λ (wb : Workbook) (ws : WorksheetMeta),
  renderSheet Number_toString pageWidth pageHeight (ws_name ws)
              (sheet_to_json (Sheets_get (Sheets wb) (ws_name ws)))).
Local Abbreviation processFrom :=
  (processLoop (T:=T) sheet_to_json Number_toString pageWidth pageHeight).

Implicit Types (zip : gmap string (list PdfOp)) (onProgress : option (Z → T → T)).

Lemma processLoop_lookup wb selected onProgress total i zip t fn :
  (processFrom wb selected onProgress total i zip t).1 !! fn
  = match last (filter (λ ws, entryName ws = fn) selected) with
    | Some ws => Some (rendering wb ws)
    | None => zip !! fn
    end.
Proof.
  revert i zip t. induction selected as [|ws selected IH]; intros i zip t; [done|].
  simpl. rewrite IH. rewrite filter_cons. fold (entryName ws).
  destruct (decide (entryName ws = fn)) as [<-|Hne].
  - rewrite last_cons. destruct (last _); [done|]. by rewrite lookup_insert_eq.
  - destruct (last _); [done|]. by rewrite lookup_insert_ne.
Qed.

Lemma processLoop_dom wb selected onProgress total i zip t :
  dom (processFrom wb selected onProgress total i zip t).1
  = dom zip ∪ list_to_set (entryName <$> selected).
Proof.
  revert i zip t. induction selected as [|ws selected IH]; intros i zip t;
    simpl; [by rewrite (right_id_L ∅ (∪))|].
  rewrite IH, dom_insert_L. fold (entryName ws).
  by rewrite (assoc_L (∪)), (comm_L (∪) (dom zip)).
Qed.

Lemma processLoop_size wb selected onProgress total i zip t :
  (size (processFrom wb selected onProgress total i zip t).1
   ≤ size zip + length selected)%nat.
Proof.
  revert i zip t. induction selected as [|ws selected IH]; intros i zip t;
    simpl; [lia|].
  etrans; [apply IH|]. rewrite map_size_insert.
  destruct (zip !! _); unfold id; lia.
Qed.

Lemma processLoop_progress wb selected onProgress total i zip t :
  (processFrom wb selected onProgress total i zip t).2
  = foldl (λ t p, report onProgress p t) t
          (reportsFrom total i (length selected)).
Proof.
  revert i zip t. induction selected as [|ws selected IH]; intros i zip t; [done|].
  change (length (ws :: selected)) with (S (length selected)).
  rewrite reportsFrom_S. simpl. by rewrite IH.
Qed.

Lemma filter_same_name (selected : list WorksheetMeta) ws :
  NoDup (entryName <$> selected) → ws ∈ selected →
  filter (λ w, entryName w = entryName ws) selected = [ws].
Proof.
  induction selected as [|w selected IH]; intros Hnd Hin.
  - by apply elem_of_nil in Hin.
  - rewrite fmap_cons in Hnd. apply NoDup_cons in Hnd as [Hfresh Hnd].
    rewrite filter_cons. apply elem_of_cons in Hin as [->|Hin].
    + rewrite decide_True by done. f_equal.
      clear IH Hnd. induction selected as [|v selected IH]; [done|].
      rewrite filter_cons. rewrite fmap_cons in Hfresh.
      apply not_elem_of_cons in Hfresh as [Hne Hfresh].
      rewrite decide_False by done. by apply IH.
    + rewrite decide_False; [by apply IH|].
      intros Heq. apply Hfresh. rewrite Heq. by apply list_elem_of_fmap_2.
Qed.

(** X6: the archive [processWorksheets] returns has one entry per distinct
    entry name of the selected worksheets. The document under a name is the
    rendering of the last selected worksheet with that entry name: an
    earlier one with the same entry name is replaced. So the archive never
    has more entries than worksheets were selected, and it has one document
    per worksheet, each under its own entry name, when the entry names are
    pairwise distinct. *)
Theorem archive_entries wb selectedWorksheets onProgress (t0 : T) :
  let zip :=
    (processWorksheets sheet_to_json Number_toString pageWidth pageHeight
       wb selectedWorksheets onProgress t0).1 in
  (∀ fn, zip !! fn
         = rendering wb
             <$> last (filter (λ ws, entryName ws = fn) selectedWorksheets))
  ∧ dom zip = list_to_set (entryName <$> selectedWorksheets)
  ∧ (size zip ≤ length selectedWorksheets)%nat
  ∧ (NoDup (entryName <$> selectedWorksheets) →
     size zip = length selectedWorksheets
     ∧ ∀ ws, ws ∈ selectedWorksheets →
             zip !! entryName ws = Some (rendering wb ws)).
Proof.
  intros zip. unfold zip, processWorksheets.
  assert (∀ fn,
    (processFrom wb selectedWorksheets onProgress
       (Z.of_nat (length selectedWorksheets)) 0 ∅ t0).1 !! fn
    = rendering wb <$> last (filter (λ ws, entryName ws = fn) selectedWorksheets))
    as Hlookup.
  { intros fn. rewrite processLoop_lookup. by destruct (last _). }
  split; [exact Hlookup|]. split.
  { rewrite processLoop_dom, dom_empty_L. apply (left_id_L ∅ (∪)). }
  split.
  { etrans; [apply processLoop_size|]. rewrite map_size_empty. lia. }
  intros Hnd. split.
  - rewrite <- size_dom, processLoop_dom, dom_empty_L, (left_id_L ∅ (∪)).
    rewrite size_list_to_set by done. by rewrite length_fmap.
  - intros ws Hin. rewrite Hlookup, filter_same_name by done. done.
Qed.

Lemma progressValues_reportsFrom n :
  reportsFrom (Z.of_nat n) 0 n = progressValues n.
Proof. done. Qed.

(** X7: [processWorksheets] calls the progress callback once per selected
    worksheet, the call for the [k]-th passing
    [Math.round((k / n) * 100)] for [n] selected worksheets; the values
    never decrease and, unless nothing is selected, the last one is 100.
    With nothing selected the archive is empty and the callback is not
    called. *)
Theorem process_progress_reports wb selectedWorksheets (callback : Z → T → T)
    (t0 : T) :
  let n := length selectedWorksheets in
  (processWorksheets sheet_to_json Number_toString pageWidth pageHeight
     wb selectedWorksheets (Some callback) t0).2
  = foldl (λ t p, callback p t) t0 (progressValues n)
  ∧ (∀ i j p q, (i ≤ j)%nat →
       progressValues n !! i = Some p → progressValues n !! j = Some q →
       (p ≤ q)%Z)
  ∧ (selectedWorksheets ≠ [] → last (progressValues n) = Some 100%Z)
  ∧ (selectedWorksheets = [] →
     processWorksheets sheet_to_json Number_toString pageWidth pageHeight
       wb selectedWorksheets (Some callback) t0 = (∅, t0)).
Proof.
  intros n. split; [|split; [|split]].
  - unfold processWorksheets. rewrite processLoop_progress.
    by rewrite progressValues_reportsFrom.
  - apply progressValues_mono.
  - intros Hne. apply progressValues_last. unfold n.
    destruct selectedWorksheets; [done|simpl; lia].
  - by intros ->.
Qed.

End ArchiveFacts.

Section EntryNames.

Lemma replace_class_length p r s :
  JSString.length (JSString.replace_class p r s) = JSString.length s.
Proof.
  unfold JSString.length. f_equal.
  induction s as [|a s IH]; [done|]. simpl. by rewrite IH.
Qed.

Lemma replace_class_clean p r s c :
  p c = true → p r = false →
  JSString.has_char c (JSString.replace_class p r s) = false.
Proof.
  intros Hc Hr. induction s as [|a s IH]; [done|]. simpl. rewrite IH, orb_false_r.
  apply Ascii.eqb_neq. destruct (p a) eqn:Ha; congruence.
Qed.

Lemma replace_class_id p r s :
  (∀ c, p c = true → JSString.has_char c s = false) →
  JSString.replace_class p r s = s.
Proof.
  induction s as [|a s IH]; intros Hs; [done|]. simpl.
  destruct (p a) eqn:Ha.
  - specialize (Hs a Ha). simpl in Hs. by rewrite Ascii.eqb_refl in Hs.
  - f_equal. apply IH. intros c Hc. specialize (Hs c Hc). simpl in Hs.
    by apply orb_false_iff in Hs as [_ ?].
Qed.

(** X8: the entry name of a worksheet contains none of the characters
    slash, backslash, colon, star, question mark, double quote, angle
    brackets and bar; it has four characters more than the worksheet name;
    and it is the worksheet name followed by [.pdf] when the worksheet name
    has none of these characters. *)
Theorem entryName_clean (worksheet : WorksheetMeta) :
  (∀ c, pathHazard c = true → JSString.has_char c (entryName worksheet) = false)
  ∧ JSString.length (entryName worksheet)
    = (JSString.length (ws_name worksheet) + 4)%Z
  ∧ ((∀ c, pathHazard c = true →
           JSString.has_char c (ws_name worksheet) = false) →
     entryName worksheet = ws_name worksheet +:+ ".pdf").
Proof.
  unfold entryName. split; [|split].
  - intros c Hc. rewrite has_char_app, replace_class_clean by done.
    unfold pathHazard in Hc. apply bool_decide_eq_true in Hc.
    repeat (apply elem_of_cons in Hc as [->|Hc]; [reflexivity|]).
    by apply elem_of_nil in Hc.
  - rewrite length_app, replace_class_length. done.
  - intros Hclean. by rewrite replace_class_id.
Qed.

End EntryNames.

(** ** Sheet renderer: layout *)

Section LayoutFacts.

Variable Number_toString : Q → string.
Variables pageWidth pageHeight : Q.

Local Abbreviation pageLimit :=
  (JSNumber.fsub (JSNumber.fsub pageHeight margin) lineHeight).
Local Abbreviation firstLine := (JSNumber.fadd margin (inject_Z 10)).

Lemma firstLine_20 : (firstLine == 20)%Q.
Proof. vm_compute. reflexivity. Qed.

Lemma renderCells_line cells rowLength colIndex x y op :
  op ∈ renderCells Number_toString pageWidth cells rowLength colIndex x y →
  ∃ text x', op = PdfText text x' y.
Proof.
  revert colIndex x. induction cells as [|cell cells IH]; intros colIndex x Hop;
    simpl in Hop.
  - by apply elem_of_nil in Hop.
  - destruct (colIndex <? 8)%nat; [|by apply elem_of_nil in Hop].
    apply elem_of_cons in Hop as [->|Hop]; [eauto|]. by eapply IH.
Qed.

Lemma renderRows_above jsonData y0 text x y :
  (20 <= pageLimit)%Q →
  PdfText text x y
    ∈ renderRows Number_toString pageWidth pageHeight jsonData y0 →
  (y <= pageLimit)%Q.
Proof.
  intros Hroom. revert y0. induction jsonData as [|row jsonData IH]; intros y0 Hop;
    simpl in Hop.
  - by apply elem_of_nil in Hop.
  - apply elem_of_app in Hop as [Hop|Hop].
    { destruct (negb _); [|by apply elem_of_nil in Hop].
      apply list_elem_of_singleton in Hop. discriminate. }
    apply elem_of_app in Hop as [Hop|Hop]; [|by eapply IH].
    apply renderCells_line in Hop as (text' & x' & Heq). injection Heq as _ _ ->.
    destruct (Qle_bool y0 pageLimit) eqn:Hy; simpl.
    + by apply Qle_bool_iff.
    + pose proof firstLine_20. lra.
Qed.

(** X10: when a line fits on a page at all (the first line, at 20, is not
    below the last usable line [pageHeight - margin - lineHeight]), no text
    of a rendered worksheet is drawn below that last usable line: a row that
    would be is put at the top of a new page. *)
Theorem lines_stay_on_the_page title jsonData text x y :
  (20 <= pageLimit)%Q →
  PdfText text x y
    ∈ renderSheet Number_toString pageWidth pageHeight title jsonData →
  (y <= pageLimit)%Q.
Proof.
  intros Hroom Hop. unfold renderSheet in Hop.
  apply elem_of_app in Hop as [Hop|Hop]; [|by eapply renderRows_above].
  repeat (apply elem_of_cons in Hop as [Hop|Hop]; try discriminate).
  - injection Hop as _ _ ->. pose proof firstLine_20. lra.
  - by apply elem_of_nil in Hop.
Qed.

(** X9: the text drawn for a cell value has at most 18 characters. A value
    of at most 15 characters is drawn as it is; a longer one is drawn as its
    first 15 characters followed by three dots. *)
Theorem cellText_bounds (value : string) :
  (JSString.length (cellText value) ≤ 18)%Z
  ∧ ((JSString.length value ≤ 15)%Z → cellText value = value)
  ∧ ((15 < JSString.length value)%Z →
     ∃ kept dropped,
       value = kept +:+ dropped
       ∧ JSString.length kept = 15%Z
       ∧ cellText value = kept +:+ "...").
Proof.
  unfold cellText. pose proof (length_nonneg value).
  destruct (15 <? JSString.length value)%Z eqn:Hlong.
  - apply Z.ltb_lt in Hlong. split; [|split].
    + rewrite length_app, substring_0_length.
      change (JSString.length "...") with 3%Z. lia.
    + lia.
    + intros _. destruct (substring_0_prefix value 15) as [rest Hrest].
      exists (JSString.substring value 0 15), rest.
      split; [done|]. split; [|done]. rewrite substring_0_length. lia.
  - apply Z.ltb_ge in Hlong. split; [lia|]. split; [done|lia].
Qed.

End LayoutFacts.

Lemma lines_stay_on_the_page_witness :
  (32 <= JSNumber.fsub (JSNumber.fsub 297 margin) lineHeight)%Q.
Proof.
  apply (lines_stay_on_the_page (λ _, "7") 210 297 "Totals"
           [[JSNumber (Finite 7)]] "7" margin
           (JSNumber.fadd (JSNumber.fadd margin (inject_Z 10))
                          (JSNumber.fmul lineHeight (inject_Z 2)))).
  - vm_compute. intros H. discriminate H.
  - vm_compute. do 3 right. left.
Defined.

(** ** Analyzer: a batch of files *)

Section BatchFacts.

Variable readAsArrayBuffer : File → option (list Byte.byte).
Variable XLSX_read : list Byte.byte → option Workbook.
Variable decode_range : string → XLSX.Range.
Variable wallClock : nat → Z.

Local Abbreviation readWb :=
  (readWorkbook readAsArrayBuffer XLSX_read decode_range).
Local Abbreviation analyzeWb :=
  (analyzeWorkbook readAsArrayBuffer XLSX_read decode_range wallClock).
Local Abbreviation analyzeFrom :=
  (analyzeLoop readAsArrayBuffer XLSX_read decode_range wallClock).
Local Abbreviation analyzeMany :=
  (analyzeMultipleWorkbooks readAsArrayBuffer XLSX_read decode_range wallClock).

(** What the analysis of a file records of it. *)
Local Abbreviation analysisOf := (λ (g : File) (a : Analysis),
  fi_name (file a) = JSFile.name g
  ∧ fi_size (file a) = JSFile.size g
  ∧ status (file a) = "analyzed"
  ∧ readWb g = inl (worksheets a, workbook a)).

Lemma analyzeWorkbook_file f t a t' :
  analyzeWb f t = (inl a, t') →
  fi_size (file a) = JSFile.size f ∧ status (file a) = "analyzed"
  ∧ uploadTime (file a) = wallClock (S t).
Proof.
  unfold analyzeWorkbook. intros H.
  destruct (readWb f) as [[metas wb]|]; simplify_eq. done.
Qed.

Lemma analyzeLoop_inl_files files fileIndex results t out t' :
  analyzeFrom files fileIndex results t = (inl out, t') →
  ∃ analyses,
    out = results ++ analyses
    ∧ t' = (t + 3 * length files)%nat
    ∧ Forall2 analysisOf files analyses.
Proof.
  revert fileIndex results t.
  induction files as [|g files IH]; intros fileIndex results t Hrun;
    simpl in Hrun.
  - simplify_eq. exists []. rewrite app_nil_r. split; [done|].
    split; [simpl; lia|constructor].
  - destruct (analyzeWb g t) as [[a|message] t1] eqn:Hg; [|done].
    pose proof (analyzeWorkbook_file _ _ _ _ Hg) as (Hsize & Hstatus & _).
    apply analyzeWorkbook_inl in Hg as (metas & Hread & Hws & _ & Hname & _ & ->).
    apply IH in Hrun as (rest & -> & -> & Hrest).
    exists (set_Id a (wallClock (S (S t)) + fileIndex) :: rest).
    rewrite <- (assoc_L (++)). split; [done|]. split; [simpl; lia|].
    constructor; [|done]. simpl. by rewrite Hws.
Qed.

(** X11: a batch is analyzed exactly when every file of it can be read and
    decoded. It then yields one analysis per file, in input order, each
    with the name and the size of its file, the status [analyzed], and the
    worksheets and the workbook read from that file; every listed worksheet
    is found in its workbook; and the clock has been read three times per
    file. *)
Theorem analyzeMany_results files t :
  ((∃ analyses t', analyzeMany files t = (inl analyses, t'))
   ↔ Forall (λ g, ∃ v, readWb g = inl v) files)
  ∧ ∀ analyses t',
      analyzeMany files t = (inl analyses, t') →
      t' = (t + 3 * length files)%nat
      ∧ Forall2 analysisOf files analyses
      ∧ Forall sheetsPresent analyses.
Proof.
  split.
  - split.
    + intros (analyses & t' & Hrun).
      apply analyzeLoop_inl_files in Hrun as (out & _ & _ & Hrel).
      clear -Hrel. induction Hrel as [|g a files analyses (_ & _ & _ & Hread) _ IH];
        constructor; eauto.
    + intros Hall. destruct (analyzeLoop_ok readAsArrayBuffer XLSX_read decode_range
                wallClock files 0 [] t Hall)
        as (analyses & Hrun & _). eauto.
  - intros analyses t' Hrun.
    pose proof (analyzeMany_sheetsPresent _ _ _ _ _ _ _ _ Hrun) as Hpresent.
    apply analyzeLoop_inl_files in Hrun as (out & -> & -> & Hrel). done.
Qed.

(** X12: with a clock that never goes back, the identifiers given to the
    files of one batch are pairwise distinct. *)
Theorem batch_identifiers_distinct files t analyses t' :
  (∀ m n, (m ≤ n)%nat → (wallClock m ≤ wallClock n)%Z) →
  analyzeMultipleWorkbooks readAsArrayBuffer XLSX_read decode_range wallClock
    files t = (inl analyses, t') →
  NoDup ((λ a, Id (file a)) <$> analyses).
Proof.
  intros Hclock Hrun. apply NoDup_alt. intros i j x Hi Hj.
  rewrite list_lookup_fmap in Hi, Hj.
  destruct (analyses !! i) as [a|] eqn:Ha; [|done].
  destruct (analyses !! j) as [b|] eqn:Hb; [|done].
  simpl in Hi, Hj. simplify_eq.
  destruct (Nat.lt_trichotomy i j) as [Hlt|[->|Hgt]]; [|done|].
  - pose proof (batch_ids_increase _ _ _ _ _ _ _ _ Hclock Hrun i j a b Hlt Ha Hb).
    lia.
  - pose proof (batch_ids_increase _ _ _ _ _ _ _ _ Hclock Hrun j i b a Hgt Hb Ha).
    lia.
Qed.

End BatchFacts.

Lemma batch_identifiers_distinct_witness :
  NoDup ((λ a, Id (file a)) <$> sampleBatch).
Proof.
  apply (batch_identifiers_distinct sampleReader sampleCodec sampleDecodeRange
           sampleClock [sampleFile "A.xlsx"; sampleFile "C.xlsx"] 0
           sampleBatch 6).
  - intros m n Hmn. unfold sampleClock. lia.
  - vm_compute. reflexivity.
Defined.

(** ** Progress: the range of the percentages *)

Section PercentFacts.

(** X13: every percentage reported while [k] of [n] worksheets are done,
    [0 < k <= n], lies between 0 and 100. *)
Theorem progress_within_0_100 (k n : Z) :
  (0 < k)%Z → (k ≤ n)%Z → (0 ≤ progressOf k n ≤ 100)%Z.
Proof.
  intros Hk Hkn. split.
  - unfold progressOf.
    assert (0 < n)%Z as Hn by lia.
    rewrite Zlt_Qlt in Hk, Hn. change (inject_Z 0) with 0%Q in Hk, Hn.
    assert (0 < inject_Z k / inject_Z n)%Q as Hq.
    { apply Qlt_shift_div_l; [done|]. lra. }
    pose proof (RN_positive _ Hq) as Hr.
    assert (0 < JSNumber.fmul (JSNumber.fdiv (inject_Z k) (inject_Z n)) (inject_Z 100))%Q
      as Hp.
    { apply RN_positive. unfold JSNumber.fdiv.
      change (inject_Z 100) with (100 # 1)%Q. lra. }
    change 0%Z with (JSNumber.Math_round 0).
    apply Math_round_mono. lra.
  - rewrite <- (progressOf_full n) by lia. apply progressOf_mono; lia.
Qed.

End PercentFacts.

Lemma progress_within_0_100_witness : (0 ≤ progressOf 1 3 ≤ 100)%Z.
Proof. apply (progress_within_0_100 1 3); lia. Defined.

(** ** Archive: its name *)

Section ArchiverFacts.

Variable generateAsync : gmap string (list PdfOp) → list Byte.byte.

(** X14: for a file named [<base>.<ext>], the archive is named
    [<base>_split_PDFs.zip]; it carries the bytes the zip library generates,
    with their length as size, and its name strips back to
    [<base>_split_PDFs]. *)
Theorem generateDownload_name zip base ext :
  ext ≠ "" → JSString.has_char "." ext = false →
  JSString.has_char "/" ext = false →
  let result := generateDownload generateAsync zip (base +:+ "." +:+ ext) in
  Download.zipFileName result = base +:+ "_split_PDFs.zip"
  ∧ Download.zipBlob result = generateAsync zip
  ∧ Download.zipSize result = Z.of_nat (length (generateAsync zip))
  ∧ JSString.stripExtension (Download.zipFileName result)
    = base +:+ "_split_PDFs".
Proof.
  intros Hne Hdot Hslash. simpl. rewrite stripExtension_known by done.
  split; [done|]. split; [done|]. split; [done|].
  replace (base +:+ "_split_PDFs.zip")
    with ((base +:+ "_split_PDFs") +:+ "." +:+ "zip") by (by rewrite app_assoc).
  by apply stripExtension_known.
Qed.

End ArchiverFacts.

Lemma generateDownload_name_witness :
  Download.zipFileName
    (generateDownload (λ _, []) ∅ ("Budget.2024" +:+ "." +:+ "xlsx"))
  = "Budget.2024" +:+ "_split_PDFs.zip".
Proof.
  apply (generateDownload_name (λ _, []) ∅ "Budget.2024" "xlsx").
  - intros H. discriminate H.
  - vm_compute. reflexivity.
  - vm_compute. reflexivity.
Defined.

(** ** The component: its handlers *)

Section CallerFacts.

Variable toLowerCase : string → string.
Variable readAsArrayBuffer : File → option (list Byte.byte).
Variable XLSX_read : list Byte.byte → option Workbook.
Variable decode_range : string → XLSX.Range.
Variable wallClock : nat → Z.
Variable XLSX_write : Workbook → Result (list Byte.byte).

Local Abbreviation selectFiles :=
  (FileProcessor.handleFileSelect toLowerCase readAsArrayBuffer XLSX_read
     decode_range wallClock).
Local Abbreviation addFiles :=
  (FileProcessor.handleAddMoreFiles toLowerCase readAsArrayBuffer XLSX_read
     decode_range wallClock).
Local Abbreviation combineFiles := (FileProcessor.handleCombineFiles XLSX_write).

Lemma worksheetCount_total analyses :
  FileProcessor.worksheetCount analyses = Z.of_nat (totalWorksheets analyses).
Proof. apply (countSheets_total analyses). Qed.

Lemma totalWorksheets_app l k :
  totalWorksheets (l ++ k) = (totalWorksheets l + totalWorksheets k)%nat.
Proof. unfold totalWorksheets. induction l as [|a l IH]; simpl; lia. Qed.

Lemma filter_files fileId (analyses : list Analysis) :
  filter (λ f, Id f ≠ fileId) (file <$> analyses)
  = file <$> filter (λ a, Id (file a) ≠ fileId) analyses.
Proof.
  induction analyses as [|a l IH]; [done|].
  rewrite fmap_cons, !filter_cons.
  destruct (decide (Id (file a) ≠ fileId)); [|done]. by rewrite fmap_cons, IH.
Qed.

Lemma onCombineProgress_keeps analyses p st :
  let st' := FileProcessor.onCombineProgress analyses p st in
  FileProcessor.files st' = FileProcessor.files st
  ∧ FileProcessor.workbookAnalyses st' = FileProcessor.workbookAnalyses st
  ∧ FileProcessor.totalWorksheets st' = FileProcessor.totalWorksheets st
  ∧ FileProcessor.downloadReady st' = FileProcessor.downloadReady st.
Proof. done. Qed.

Lemma callbacks_keep analyses ps st :
  let st' := foldl (λ t p, report (Some (FileProcessor.onCombineProgress analyses)) p t)
                   st ps in
  FileProcessor.files st' = FileProcessor.files st
  ∧ FileProcessor.workbookAnalyses st' = FileProcessor.workbookAnalyses st
  ∧ FileProcessor.totalWorksheets st' = FileProcessor.totalWorksheets st
  ∧ FileProcessor.downloadReady st' = FileProcessor.downloadReady st.
Proof.
  revert st. induction ps as [|p ps IH]; intros st; [done|].
  cbn [foldl]. cbv zeta.
  destruct (IH (report (Some (FileProcessor.onCombineProgress analyses)) p st))
    as (-> & -> & -> & ->). done.
Qed.

(** The combined workbook does not depend on the callback. *)
Lemma combineSheets_any_callback {T U : Type} (f : option (Z → T → T))
    (g : option (Z → U → U)) total total' a base sheets
    (st st' : CombineState T) (su : CombineState U) :
  combinedWorkbook st = combinedWorkbook su →
  combineSheets f total a base sheets st = Some st' →
  ∃ su', combineSheets g total' a base sheets su = Some su'
         ∧ combinedWorkbook st' = combinedWorkbook su'.
Proof.
  revert st su. induction sheets as [|ws sheets IH]; intros st su Heq Hrun;
    simpl in *.
  - simplify_eq. eauto.
  - unfold combineSheet in *. rewrite <- Heq.
    destruct (uniqueName (combinedWorkbook st) _) as [nm|]; [|done].
    eapply IH; [|done]. simpl. by rewrite Heq.
Qed.

Lemma combineAnalyses_any_callback {T U : Type} (f : option (Z → T → T))
    (g : option (Z → U → U)) total total' analyses
    (st st' : CombineState T) (su : CombineState U) :
  combinedWorkbook st = combinedWorkbook su →
  combineAnalyses f total analyses st = Some st' →
  ∃ su', combineAnalyses g total' analyses su = Some su'
         ∧ combinedWorkbook st' = combinedWorkbook su'.
Proof.
  revert st su. induction analyses as [|a analyses IH]; intros st su Heq Hrun;
    simpl in *.
  - simplify_eq. eauto.
  - destruct (combineSheets f total a _ (worksheets a) st) as [st1|] eqn:Hstep;
      [|done].
    destruct (combineSheets_any_callback f g total total' _ _ _ _ _ su Heq Hstep)
      as (su1 & -> & Heq1).
    by eapply IH.
Qed.

(** X15: every handler keeps the file list and the analyses of the
    component aligned: from a state in which the file list is that of the
    analyses, entry by entry, and the worksheet total is the number of their
    worksheets, selecting files, adding files, removing a file and combining
    all lead to such a state again, whether they succeed or fail. *)
Theorem handlers_keep_alignment st :
  aligned st →
  (∀ selectedFiles t, aligned (selectFiles selectedFiles st t).1.1)
  ∧ (∀ additionalFiles t, aligned (addFiles additionalFiles st t).1.1)
  ∧ (∀ fileId, aligned (FileProcessor.handleRemoveFile fileId st).1)
  ∧ (∀ st' toasts, combineFiles st = Some (st', toasts) → aligned st').
Proof.
  intros [Hfiles Htotal]. split; [|split; [|split]].
  - intros selectedFiles t. unfold FileProcessor.handleFileSelect.
    destruct (validateMultipleFiles toLowerCase selectedFiles); [|done].
    destruct (analyzeMultipleWorkbooks _ _ _ _ _ _) as [[analyses|message] t'];
      [|done].
    split; [done|]. apply worksheetCount_total.
  - intros additionalFiles t. unfold FileProcessor.handleAddMoreFiles.
    destruct (validateMultipleFiles toLowerCase additionalFiles); [|done].
    destruct (analyzeMultipleWorkbooks _ _ _ _ _ _) as [[analyses|message] t'];
      [|done].
    split; simpl.
    + by rewrite Hfiles, fmap_app.
    + rewrite Htotal, worksheetCount_total, totalWorksheets_app. lia.
  - intros fileId. unfold FileProcessor.handleRemoveFile. simpl.
    destruct (filter _ (FileProcessor.files st)) as [|f l] eqn:Hleft; [done|].
    split; simpl.
    + by rewrite <- Hleft, Hfiles, filter_files.
    + apply worksheetCount_total.
  - intros st' toasts. unfold FileProcessor.handleCombineFiles.
    destruct (_ || _); [intros; by simplify_eq|].
    unfold combineAllSheets.
    destruct (combineAnalyses _ _ _ _) as [cs|] eqn:Hrun; [|done].
    apply combineAnalyses_progress in Hrun as [_ Hstate].
    cbn [callerState processedSheets] in Hstate.
    pose proof (callbacks_keep (FileProcessor.workbookAnalyses st)
      (reportsFrom (countSheets (FileProcessor.workbookAnalyses st)) 0
         (totalWorksheets (FileProcessor.workbookAnalyses st)))
      {| FileProcessor.files := FileProcessor.files st;
         FileProcessor.workbookAnalyses := FileProcessor.workbookAnalyses st;
         FileProcessor.totalWorksheets := FileProcessor.totalWorksheets st;
         FileProcessor.stage := FileProcessor.combine;
         FileProcessor.progress := 0;
         FileProcessor.currentWorksheet := FileProcessor.currentWorksheet st;
         FileProcessor.downloadReady := FileProcessor.downloadReady st;
         FileProcessor.error := None |}) as Hkeep.
    cbv zeta in Hkeep. rewrite <- Hstate in Hkeep.
    destruct Hkeep as (Hf & Ha & Ht & _). simpl in Hf, Ha, Ht.
    destruct (generateCombinedExcel _ _ _); intros; simplify_eq;
      (split; simpl; [by rewrite Hf, Ha|by rewrite Ht, Ha]).
Qed.

Lemma filter_all {A} (P : A → Prop) `{!∀ x, Decision (P x)} (l : list A) :
  Forall P l → filter P l = l.
Proof.
  induction 1 as [|x l Hx _ IH]; [done|].
  rewrite filter_cons. destruct (decide (P x)); [by rewrite IH|done].
Qed.

Lemma totalWorksheets_filter fileId (l : list Analysis) :
  (totalWorksheets (filter (λ a, Id (file a) ≠ fileId) l) ≤ totalWorksheets l)%nat.
Proof.
  unfold totalWorksheets. induction l as [|a l IH]; [done|].
  rewrite filter_cons. destruct (decide _); simpl; lia.
Qed.

(** X16: removing a file by identifier, from an aligned state, keeps
    exactly the analyses and the files with another identifier, in their
    order, so every file that carries the identifier goes; the worksheet
    total does not grow; when no file is left the component is back in its
    first state; and an identifier that no file carries changes nothing. *)
Theorem handleRemoveFile_removes fileId st :
  aligned st →
  let st' := (FileProcessor.handleRemoveFile fileId st).1 in
  FileProcessor.workbookAnalyses st'
  = filter (λ a, Id (file a) ≠ fileId) (FileProcessor.workbookAnalyses st)
  ∧ FileProcessor.files st'
    = filter (λ f, Id f ≠ fileId) (FileProcessor.files st)
  ∧ (FileProcessor.totalWorksheets st' ≤ FileProcessor.totalWorksheets st)%Z
  ∧ (FileProcessor.files st' = [] → st' = FileProcessor.resetState)
  ∧ (Forall (λ f, Id f ≠ fileId) (FileProcessor.files st) →
     FileProcessor.files st ≠ [] → st' = st).
Proof.
  intros [Hfiles Htotal]. unfold FileProcessor.handleRemoveFile. simpl.
  pose proof (totalWorksheets_filter fileId (FileProcessor.workbookAnalyses st))
    as Hle.
  destruct (filter _ (FileProcessor.files st)) as [|f l] eqn:Hleft.
  - pose proof Hleft as Hnone.
    rewrite Hfiles, filter_files in Hnone. apply fmap_nil_inv in Hnone.
    rewrite Hnone. simpl. split; [done|]. split; [done|].
    split; [lia|]. split; [done|].
    intros Hall Hne. by rewrite filter_all in Hleft.
  - simpl. split; [done|]. split; [done|].
    split; [rewrite worksheetCount_total; lia|]. split; [done|].
    intros Hall _. rewrite filter_all in Hleft by done.
    assert (Forall (λ a, Id (file a) ≠ fileId) (FileProcessor.workbookAnalyses st))
      as Hall'.
    { rewrite Hfiles in Hall. clear -Hall.
      induction (FileProcessor.workbookAnalyses st) as [|a k IH]; [constructor|].
      rewrite fmap_cons in Hall. apply Forall_cons in Hall as [Ha Hk].
      constructor; [exact Ha|by apply IH]. }
    rewrite (filter_all _ _ Hall'), worksheetCount_total, <- Htotal, <- Hleft.
    by destruct st.
Qed.


Lemma findInWorksheets_lookup sheets idx r cur :
  (r ≤ idx)%Z →
  FileProcessor.findInWorksheets sheets idx r cur
  = match sheets !! Z.to_nat (idx - r) with
    | Some ws => (idx, Some (ws_name ws))
    | None => ((r + Z.of_nat (length sheets))%Z, cur)
    end.
Proof.
  revert r. induction sheets as [|ws sheets IH]; intros r Hr; simpl.
  - by rewrite Z.add_0_r.
  - destruct (r =? idx)%Z eqn:Heq.
    + apply Z.eqb_eq in Heq as ->. by rewrite Z.sub_diag.
    + apply Z.eqb_neq in Heq. rewrite IH by lia.
      replace (Z.to_nat (idx - r)) with (S (Z.to_nat (idx - (r + 1)))) by lia.
      simpl. destruct (sheets !! _); [done|]. f_equal. lia.
Qed.

Lemma findInWorksheets_before sheets idx r cur :
  (idx < r)%Z →
  FileProcessor.findInWorksheets sheets idx r cur
  = ((r + Z.of_nat (length sheets))%Z, cur).
Proof.
  revert r. induction sheets as [|ws sheets IH]; intros r Hr; simpl.
  - by rewrite Z.add_0_r.
  - assert ((r =? idx)%Z = false) as -> by lia. rewrite IH by lia.
    f_equal. lia.
Qed.

Lemma findInAnalyses_lookup analyses idx r :
  Forall (λ a, Forall (λ ws, ws_name ws ≠ "") (worksheets a)) analyses →
  (r ≤ idx)%Z →
  FileProcessor.findInAnalyses analyses idx r None
  = ws_name <$> (allWorksheets analyses !! Z.to_nat (idx - r)).
Proof.
  revert r. induction analyses as [|a analyses IH]; intros r Hall Hr; [done|].
  apply Forall_cons in Hall as [Ha Hall].
  cbn [FileProcessor.findInAnalyses]. rewrite findInWorksheets_lookup by done.
  unfold allWorksheets. rewrite bind_cons. fold (allWorksheets analyses).
  destruct (worksheets a !! Z.to_nat (idx - r)) as [ws|] eqn:Hws.
  - rewrite (lookup_app_l_Some _ _ _ _ Hws). cbn [snd fst ref_truthy].
    rewrite Forall_forall in Ha.
    apply list_elem_of_lookup_2, Ha, String.eqb_neq in Hws as ->. done.
  - apply lookup_ge_None in Hws. cbn [snd fst ref_truthy].
    rewrite IH by (done || lia). rewrite lookup_app_r by done.
    do 2 f_equal. lia.
Qed.

Lemma findInAnalyses_before analyses idx r :
  (idx < r)%Z → FileProcessor.findInAnalyses analyses idx r None = None.
Proof.
  revert r. induction analyses as [|a analyses IH]; intros r Hr; [done|].
  cbn [FileProcessor.findInAnalyses]. rewrite findInWorksheets_before by done.
  cbn [snd fst ref_truthy]. apply IH. lia.
Qed.

(** X18: the progress callback of the component, for worksheets with
    non-empty names: it records the percentage, and below 100 it shows the
    name of the worksheet at position [floor((progressValue / 100) * total)]
    of all worksheets taken in order, when there is one; at 100, or when the
    position is outside the worksheets, the worksheet shown stays. *)
Theorem onCombineProgress_shows analyses progressValue st :
  Forall (λ a, Forall (λ ws, ws_name ws ≠ "") (worksheets a)) analyses →
  let position :=
    Qfloor (JSNumber.fmul
              (JSNumber.fdiv (inject_Z progressValue) (inject_Z 100))
              (inject_Z (Z.of_nat (totalWorksheets analyses)))) in
  let st' := FileProcessor.onCombineProgress analyses progressValue st in
  FileProcessor.progress st' = progressValue
  ∧ FileProcessor.currentWorksheet st'
    = match (if (progressValue <? 100)%Z && (0 <=? position)%Z
             then allWorksheets analyses !! Z.to_nat position
             else None) with
      | Some ws => ws_name ws
      | None => FileProcessor.currentWorksheet st
      end.
Proof.
  intros Hall position st'. split; [done|].
  unfold st', FileProcessor.onCombineProgress. cbn [FileProcessor.currentWorksheet].
  destruct (progressValue <? 100)%Z; [|done].
  rewrite worksheetCount_total. fold position. cbn [andb].
  destruct (0 <=? position)%Z eqn:Hpos.
  - rewrite findInAnalyses_lookup, Z.sub_0_r by (done || lia).
    destruct (allWorksheets analyses !! Z.to_nat position) as [ws|] eqn:Hws;
      [|done].
    cbn [fmap option_fmap option_map ref_truthy default].
    assert (ws_name ws ≠ "") as Hne.
    { apply list_elem_of_lookup_2 in Hws. unfold allWorksheets in Hws.
      apply list_elem_of_bind in Hws as (a & Hws & Ha).
      rewrite Forall_forall in Hall. apply Hall in Ha.
      rewrite Forall_forall in Ha. by apply Ha. }
    by apply String.eqb_neq in Hne as ->.
  - rewrite findInAnalyses_before by lia. done.
Qed.

Lemma findInWorksheets_names sheets idx r cur :
  (FileProcessor.findInWorksheets sheets idx r cur).2 = cur
  ∨ ∃ ws, ws ∈ sheets
          ∧ (FileProcessor.findInWorksheets sheets idx r cur).2 = Some (ws_name ws).
Proof.
  revert r. induction sheets as [|ws sheets IH]; intros r; simpl; [by left|].
  destruct (r =? idx)%Z.
  - right. exists ws. split; [left|done].
  - destruct (IH (r + 1)%Z) as [->|(ws' & Hin & ->)]; [by left|].
    right. exists ws'. split; [by right|done].
Qed.

Lemma findInAnalyses_names analyses idx r cur nm :
  FileProcessor.findInAnalyses analyses idx r cur = Some nm →
  cur = Some nm ∨ nm ∈ ws_name <$> allWorksheets analyses.
Proof.
  revert r cur. induction analyses as [|a analyses IH]; intros r cur Hfind;
    [by left|].
  cbn [FileProcessor.findInAnalyses] in Hfind.
  assert (nm ∈ ws_name <$> worksheets a
          ∨ nm ∈ ws_name <$> allWorksheets analyses
          → nm ∈ ws_name <$> allWorksheets (a :: analyses)) as Hin.
  { unfold allWorksheets at 2. rewrite bind_cons, fmap_app, elem_of_app. done. }
  destruct (findInWorksheets_names (worksheets a) idx r cur)
    as [Hsame|(ws & Hws & Hfound)].
  - rewrite Hsame in Hfind. destruct (ref_truthy cur); [by left|].
    apply IH in Hfind as [?|?]; [by left|right; by apply Hin; right].
  - rewrite Hfound in Hfind.
    destruct (ref_truthy (Some (ws_name ws))).
    + simplify_eq. right. apply Hin. left. by apply list_elem_of_fmap_2.
    + apply IH in Hfind as [?|?]; [|right; by apply Hin; right].
      simplify_eq. right. apply Hin. left. by apply list_elem_of_fmap_2.
Qed.

Lemma onCombineProgress_current analyses p st :
  FileProcessor.currentWorksheet (FileProcessor.onCombineProgress analyses p st)
  = FileProcessor.currentWorksheet st
  ∨ FileProcessor.currentWorksheet (FileProcessor.onCombineProgress analyses p st)
    ∈ ws_name <$> allWorksheets analyses.
Proof.
  unfold FileProcessor.onCombineProgress. cbn [FileProcessor.currentWorksheet].
  destruct (p <? 100)%Z; [|by left].
  destruct (FileProcessor.findInAnalyses analyses _ 0 None) as [nm|] eqn:Hfind;
    [|by left].
  destruct (ref_truthy (Some nm)); [|by left].
  apply findInAnalyses_names in Hfind as [?|?]; [done|by right].
Qed.

Lemma callbacks_current analyses ps st :
  let st' := foldl (λ t p, report (Some (FileProcessor.onCombineProgress analyses)) p t)
                   st ps in
  FileProcessor.currentWorksheet st' = FileProcessor.currentWorksheet st
  ∨ FileProcessor.currentWorksheet st' ∈ ws_name <$> allWorksheets analyses.
Proof.
  revert st. induction ps as [|p ps IH]; intros st; [by left|].
  cbn [foldl]. cbv zeta.
  destruct (IH (report (Some (FileProcessor.onCombineProgress analyses)) p st))
    as [->|?]; [|by right].
  apply onCombineProgress_current.
Qed.

(** X17: combining does nothing when there is no analysis or the worksheet
    total is 0. Otherwise it always completes: the workbook it encodes is
    the one [combineAllSheets] builds whatever the callback; the file list,
    the analyses and the total are untouched; the worksheet shown is the one
    shown before or the name of a worksheet of the analyses. When the
    encoder succeeds the stage is [complete], the progress 100, and the
    download carries the encoder's bytes, the name
    [<base name of the first file>_combined.xlsx] and the number of
    worksheets of the analyses, and [handleDownload] then saves these bytes
    under that name. When the encoder throws, the stage is [idle], the error
    is the encoder's message, the toast reads [Failed to combine files] and
    an earlier download is left as it was. *)
Theorem handleCombineFiles_outcome st :
  let analyses := FileProcessor.workbookAnalyses st in
  (analyses = [] ∨ FileProcessor.totalWorksheets st = 0%Z →
   combineFiles st = Some (st, []))
  ∧ (analyses ≠ [] → FileProcessor.totalWorksheets st ≠ 0%Z →
     ∃ combined st' toasts,
       combineAllSheets analyses None () = Some (combined, ())
       ∧ combineFiles st = Some (st', toasts)
       ∧ FileProcessor.files st' = FileProcessor.files st
       ∧ FileProcessor.workbookAnalyses st' = analyses
       ∧ FileProcessor.totalWorksheets st' = FileProcessor.totalWorksheets st
       ∧ (FileProcessor.currentWorksheet st' = FileProcessor.currentWorksheet st
          ∨ FileProcessor.currentWorksheet st' ∈ ws_name <$> allWorksheets analyses)
       ∧ match XLSX_write combined with
         | inl bytes =>
             FileProcessor.stage st' = FileProcessor.complete
             ∧ FileProcessor.progress st' = 100%Z
             ∧ FileProcessor.error st' = None
             ∧ FileProcessor.downloadReady st'
               = Some {| Download.blob := bytes;
                         Download.fileName := downloadBase st +:+ "_combined.xlsx";
                         Download.size := Z.of_nat (length bytes);
                         Download.sheetCount :=
                           Z.of_nat (totalWorksheets analyses) |}
             ∧ FileProcessor.handleDownload st'
               = ([(bytes, downloadBase st +:+ "_combined.xlsx")],
                  [FileProcessor.success "Download started!"])
         | inr message =>
             FileProcessor.stage st' = FileProcessor.idle
             ∧ FileProcessor.progress st' = 0%Z
             ∧ FileProcessor.error st' = Some message
             ∧ FileProcessor.downloadReady st' = FileProcessor.downloadReady st
             ∧ toasts = [FileProcessor.error_toast "Failed to combine files"]
         end).
Proof.
  intros analyses. unfold FileProcessor.handleCombineFiles. fold analyses. split.
  - intros [->| ->]; [done|]. by rewrite orb_true_r.
  - intros Hne Htotal.
    rewrite bool_decide_eq_false_2 by done.
    apply Z.eqb_neq in Htotal as ->. cbn [orb].
    unfold combineAllSheets.
    destruct (combineAnalyses_total (T:=FileProcessor.State)
                (Some (FileProcessor.onCombineProgress analyses))
                (countSheets analyses) analyses
                {| combinedWorkbook := book_new; processedSheets := 0;
                   callerState :=
                     {| FileProcessor.files := FileProcessor.files st;
                        FileProcessor.workbookAnalyses := analyses;
                        FileProcessor.totalWorksheets :=
                          FileProcessor.totalWorksheets st;
                        FileProcessor.stage := FileProcessor.combine;
                        FileProcessor.progress := 0;
                        FileProcessor.currentWorksheet :=
                          FileProcessor.currentWorksheet st;
                        FileProcessor.downloadReady :=
                          FileProcessor.downloadReady st;
                        FileProcessor.error := None |} |}) as [cs Hrun].
    rewrite Hrun.
    assert (∃ cu : CombineState (),
              combineAnalyses None (countSheets analyses) analyses
                {| combinedWorkbook := book_new; processedSheets := 0;
                   callerState := () |} = Some cu
              ∧ combinedWorkbook cs = combinedWorkbook cu)
      as (cu & Hplain & Hsame).
    { eapply combineAnalyses_any_callback; [|exact Hrun]. done. }
    pose proof (combineAnalyses_count _ _ _ _ _ Hrun) as Hcount.
    cbn [combinedWorkbook SheetNames book_new length Nat.add] in Hcount.
    apply combineAnalyses_progress in Hrun as [_ Hstate].
    cbn [callerState processedSheets] in Hstate.
    rewrite Hplain. destruct (callerState cu).
    exists (combinedWorkbook cu). rewrite <- Hsame.
    match type of Hstate with _ = foldl _ ?s0 ?ps =>
      pose proof (callbacks_keep analyses ps s0) as Hkeep;
      pose proof (callbacks_current analyses ps s0) as Hcur
    end.
    cbv zeta in Hkeep, Hcur. rewrite <- Hstate in Hkeep, Hcur.
    destruct Hkeep as (Hf & Ha & Ht & Hd).
    cbn [FileProcessor.files FileProcessor.workbookAnalyses
         FileProcessor.totalWorksheets FileProcessor.downloadReady
         FileProcessor.currentWorksheet] in Hf, Ha, Ht, Hd, Hcur.
    fold (downloadBase st). unfold generateCombinedExcel.
    destruct (XLSX_write (combinedWorkbook cs)) as [bytes|message];
      eexists _, _; (split; [done|]); (split; [done|]);
      cbn [FileProcessor.files FileProcessor.workbookAnalyses
           FileProcessor.totalWorksheets FileProcessor.downloadReady
           FileProcessor.currentWorksheet FileProcessor.stage
           FileProcessor.progress FileProcessor.error];
      (split; [done|]); (split; [done|]); (split; [done|]); (split; [done|]).
    + rewrite Hcount. done.
    + done.
Qed.


Lemma validateMultipleFiles_accepts files :
  (∃ ok, validateMultipleFiles toLowerCase files = inl ok)
  ↔ Forall (λ f, validateFile toLowerCase f = inl true) files.
Proof.
  rewrite <- validationErrors_nil. unfold validateMultipleFiles, throw.
  rewrite validateLoop_errors. cbn [app].
  destruct (validationErrors toLowerCase files); simpl; split; try done.
  - by eexists.
  - by intros [ok ?].
Qed.

Lemma analyzeMany_readable files t :
  (∃ analyses t',
     analyzeMultipleWorkbooks readAsArrayBuffer XLSX_read decode_range wallClock
       files t = (inl analyses, t'))
  ↔ Forall (λ g, ∃ v, readWorkbook readAsArrayBuffer XLSX_read decode_range g
                      = inl v) files.
Proof.
  split.
  - intros (analyses & t' & Hrun).
    apply analyzeLoop_inl_files in Hrun as (out & _ & _ & Hrel).
    clear -Hrel.
    induction Hrel as [|g a files analyses (_ & _ & _ & Hread) _ IH];
      constructor; eauto.
  - intros Hall.
    destruct (analyzeLoop_ok readAsArrayBuffer XLSX_read decode_range
                wallClock files 0 [] t Hall) as (analyses & Hrun & _).
    eauto.
Qed.

(** X19: an upload is all or nothing, for selecting and for adding files
    alike. When every file passes the check and can be read and decoded,
    there is one analysis per file, in input order, with the name and the
    size of its file; selecting replaces the analyses and the files of the
    component by them, adding appends them to those it has. Otherwise the
    analyses, the files and the total stay as they were, the error of the
    component is the message shown in the toast, and adding fails as
    selecting does. When a file fails the check, no file is read. *)
Theorem uploads_all_or_nothing files st t :
  let accepted :=
    Forall (λ f, validateFile toLowerCase f = inl true) files
    ∧ Forall (λ g, ∃ v, readWorkbook readAsArrayBuffer XLSX_read decode_range g
                        = inl v) files in
  let selected := selectFiles files st t in
  let added := addFiles files st t in
  (accepted →
   ∃ analyses,
     Forall2 (λ g a, fi_name (file a) = JSFile.name g
                     ∧ fi_size (file a) = JSFile.size g) files analyses
     ∧ FileProcessor.workbookAnalyses selected.1.1 = analyses
     ∧ FileProcessor.workbookAnalyses added.1.1
       = FileProcessor.workbookAnalyses st ++ analyses
     ∧ FileProcessor.files selected.1.1 = file <$> analyses
     ∧ FileProcessor.files added.1.1
       = FileProcessor.files st ++ (file <$> analyses)
     ∧ FileProcessor.error selected.1.1 = None
     ∧ FileProcessor.error added.1.1 = None)
  ∧ (¬ accepted →
     ∃ message,
       FileProcessor.error selected.1.1 = Some message
       ∧ selected.1.2 = [FileProcessor.error_toast message]
       ∧ FileProcessor.workbookAnalyses selected.1.1
         = FileProcessor.workbookAnalyses st
       ∧ FileProcessor.files selected.1.1 = FileProcessor.files st
       ∧ FileProcessor.totalWorksheets selected.1.1
         = FileProcessor.totalWorksheets st
       ∧ added.1 = selected.1)
  ∧ (¬ Forall (λ f, validateFile toLowerCase f = inl true) files →
     selected.2 = t ∧ added.2 = t).
Proof.
  intros accepted selected added.
  unfold selected, added, FileProcessor.handleFileSelect,
    FileProcessor.handleAddMoreFiles.
  pose proof (validateMultipleFiles_accepts files) as Hvalid.
  pose proof (analyzeMany_readable files t) as Hread.
  destruct (validateMultipleFiles toLowerCase files) as [ok|message].
  - assert (Forall (λ f, validateFile toLowerCase f = inl true) files) as Hok
      by (apply Hvalid; eauto).
    destruct (analyzeMultipleWorkbooks _ _ _ _ files t)
      as [[analyses|message] t'] eqn:Hrun.
    + split; [|split].
      * intros _. exists analyses.
        apply analyzeLoop_inl_files in Hrun as (out & Hout & _ & Hrel).
        simpl in Hout. subst out. split; [|done].
        eapply Forall2_impl; [exact Hrel|]. simpl. tauto.
      * intros []. split; [done|]. apply Hread. eauto.
      * done.
    + split; [|split].
      * intros [_ Hall]. apply Hread in Hall as (? & ? & ?). congruence.
      * intros _. by exists message.
      * done.
  - assert (¬ Forall (λ f, validateFile toLowerCase f = inl true) files) as Hbad.
    { intros Hall. apply Hvalid in Hall as [? ?]. done. }
    split; [|split].
    + intros [? _]. done.
    + intros _. by exists message.
    + done.
Qed.

End CallerFacts.

Lemma handlers_keep_alignment_witness :
  aligned (FileProcessor.handleRemoveFile 1700000000800 sampleState).1.
Proof.
  apply (handlers_keep_alignment JSString.lowerUnits sampleReader sampleCodec
           sampleDecodeRange sampleClock (λ _, inl []) sampleState).
  split; vm_compute; reflexivity.
Defined.

Lemma handleRemoveFile_removes_witness :
  FileProcessor.workbookAnalyses
    (FileProcessor.handleRemoveFile 1700000000800 sampleState).1
  = filter (λ a, Id (file a) ≠ 1700000000800%Z) sampleBatch.
Proof.
  apply (handleRemoveFile_removes 1700000000800 sampleState).
  split; vm_compute; reflexivity.
Defined.

Lemma onCombineProgress_shows_witness :
  FileProcessor.progress (FileProcessor.onCombineProgress sampleBatch 50 sampleState)
  = 50%Z.
Proof.
  apply (onCombineProgress_shows sampleBatch 50 sampleState).
  vm_compute. repeat constructor; intros H; discriminate H.
Defined.
